(** * JePPIX statistics engine: a shallow embedding of [stat_analysis/stat_utils.py]

    The development follows the layout of the Python module: the calendar
    types of [datetime], the entity tables the aggregators read, the three
    result tables they write through [get_or_create], the aggregators
    themselves, the orchestrator [calculate_report_statistics] and the save
    hook of [Report].

    Conventions of the embedding.
    - Python [int] is [Z]; [Decimal] amounts with two decimal places are a
      number of cents in [Z]; [FloatField] values and SQL averages are exact
      rationals in [Q] (rounding of binary floating point is not modelled).
      The quotient [average_order_value] is the exact rational number of
      cents as well: the rounding of [Decimal] division to 28 digits and of
      the column to two places is not modelled, so nothing is stated of it
      that rounding could break.
    - A [datetime] is a calendar date together with the microseconds elapsed
      since midnight; time zones are not modelled (all values are naive).
    - A database table is the list of its rows in enumeration order.
    - Code that can raise runs in a state-and-exception monad over the
      database: the state reached when an exception escapes is kept, exactly
      as under Django's default autocommit. *)

From Stdlib Require Import ZArith QArith List String Bool Lia.
Import ListNotations.

Local Open Scope string_scope.
Local Open Scope Z_scope.

(* ================================================================= *)
(** ** Exceptions *)

(** The exceptions the modelled code can raise.  [InvalidQuarter] is the
    [ValueError] raised by [get_quarter_dates]; [DateOutOfRange] is the error
    raised by the constructor [datetime.date] for a field out of range (a
    [ValueError], or an [OverflowError] for a year that does not fit a C
    [int]);
    [MultipleObjectsReturned] is raised by [get] inside [get_or_create];
    [UnsavedRelatedObject] is raised when a result row is looked up or
    created for a report that has no primary key. *)
Inductive Exc : Type :=
| InvalidQuarter
| DateOutOfRange
| MultipleObjectsReturned
| UnsavedRelatedObject.

Inductive Result (A : Type) : Type :=
| Ok (a : A)
| Raise (e : Exc).
Arguments Ok {A} a.
Arguments Raise {A} e.

Definition is_ok {A} (r : Result A) : bool :=
  match r with Ok _ => true | Raise _ => false end.

(* ================================================================= *)
(** ** Calendar: [datetime.date] and [datetime.datetime] *)

Module Calendar.

Record date : Type := mkdate { year : Z; month : Z; day : Z }.

Definition MINYEAR : Z := 1.
Definition MAXYEAR : Z := 9999.

(** [_is_leap] of the [datetime] module. *)
Definition is_leap (y : Z) : bool :=
  (y mod 4 =? 0) && (negb (y mod 100 =? 0) || (y mod 400 =? 0)).

(** [_days_in_month]. *)
Definition days_in_month (y m : Z) : Z :=
  if (m =? 2) && is_leap y then 29
  else nth (Z.to_nat m) [0; 31; 28; 31; 30; 31; 30; 31; 31; 30; 31; 30; 31] 0.

(** [_days_before_year]: days before January 1st of year [y]. *)
Definition days_before_year (y : Z) : Z :=
  let p := y - 1 in p * 365 + p / 4 - p / 100 + p / 400.

(** [_days_before_month]: days in year [y] before the first of month [m]. *)
Definition days_before_month (y m : Z) : Z :=
  nth (Z.to_nat m) [0; 0; 31; 59; 90; 120; 151; 181; 212; 243; 273; 304; 334] 0
  + (if (2 <? m) && is_leap y then 1 else 0).

(** [date.toordinal]: January 1st of year 1 is day 1. *)
Definition toordinal (d : date) : Z :=
  days_before_year (year d) + days_before_month (year d) (month d) + day d.

(** The constructor [datetime.date(year, month, day)] with the range checks
    of [_check_date_fields]. *)
Definition date_new (y m d : Z) : Result date :=
  if negb ((MINYEAR <=? y) && (y <=? MAXYEAR)) then Raise DateOutOfRange
  else if negb ((1 <=? m) && (m <=? 12)) then Raise DateOutOfRange
  else if negb ((1 <=? d) && (d <=? days_in_month y m)) then Raise DateOutOfRange
  else Ok (mkdate y m d).

(** Comparison of dates is the comparison of the triples
    [(year, month, day)]. *)
Definition date_ltb (a b : date) : bool :=
  (year a <? year b)
  || ((year a =? year b)
      && ((month a <? month b)
          || ((month a =? month b) && (day a <? day b)))).

Definition date_eqb (a b : date) : bool :=
  (year a =? year b) && (month a =? month b) && (day a =? day b).

(** Python's [min(a, b)] returns [a] unless [b < a]; [max(a, b)] returns
    [a] unless [b > a]. *)
Definition date_min (a b : date) : date := if date_ltb b a then b else a.
Definition date_max (a b : date) : date := if date_ltb a b then b else a.

(** A naive [datetime]: the date and the microseconds since midnight. *)
Record datetime : Type := mkdatetime { dt_date : date; dt_micro : Z }.

Definition MICROS_PER_DAY : Z := 24 * 3600 * 1000000.

Definition datetime_of (y m d hh mi ss : Z) : datetime :=
  mkdatetime (mkdate y m d) (((hh * 60 + mi) * 60 + ss) * 1000000).

(** Django's [DateTimeField.to_python] turns a [date] compared against a
    [DateTimeField] into the [datetime] at midnight of that day. *)
Definition to_datetime (d : date) : datetime := mkdatetime d 0.

Definition dt_ltb (a b : datetime) : bool :=
  date_ltb (dt_date a) (dt_date b)
  || (date_eqb (dt_date a) (dt_date b) && (dt_micro a <? dt_micro b)).

(** [a <= b] as [not (b < a)] (the order is total). *)
Definition dt_leb (a b : datetime) : bool := negb (dt_ltb b a).

(** Microseconds since the start of day 1, the base of [a - b]. *)
Definition dt_abs_micros (a : datetime) : Z :=
  toordinal (dt_date a) * MICROS_PER_DAY + dt_micro a.

(** The [timedelta] [a - b], in microseconds. *)
Definition dt_sub (a b : datetime) : Z := dt_abs_micros a - dt_abs_micros b.

End Calendar.
Import Calendar.

(* ================================================================= *)
(** ** Reports and the quarter resolver *)

(** The fields of [Report] the statistics module reads.  [pk] is [None]
    until the report has been saved. *)
Record Report : Type := mkReport {
  pk : option nat;
  title : string;
  report_type : string;
  quarter_from : string;
  year_from : Z;
  quarter_to : string;
  year_to : Z
}.

Definition bind_result {A B} (r : Result A) (k : A -> Result B) : Result B :=
  match r with Ok a => k a | Raise e => Raise e end.

(** [get_quarter_dates(quarter, year)]. *)
Definition get_quarter_dates (quarter : string) (y : Z) : Result (date * date) :=
  if String.eqb quarter "Q1" then
    bind_result (date_new y 1 1) (fun start_date =>
    bind_result (date_new y 3 31) (fun end_date => Ok (start_date, end_date)))
  else if String.eqb quarter "Q2" then
    bind_result (date_new y 4 1) (fun start_date =>
    bind_result (date_new y 6 30) (fun end_date => Ok (start_date, end_date)))
  else if String.eqb quarter "Q3" then
    bind_result (date_new y 7 1) (fun start_date =>
    bind_result (date_new y 9 30) (fun end_date => Ok (start_date, end_date)))
  else if String.eqb quarter "Q4" then
    bind_result (date_new y 10 1) (fun start_date =>
    bind_result (date_new y 12 31) (fun end_date => Ok (start_date, end_date)))
  else Raise InvalidQuarter.

(** [get_date_range_for_report(report)]. *)
Definition get_date_range_for_report (report : Report) : Result (date * date) :=
  bind_result (get_quarter_dates (quarter_from report) (year_from report))
    (fun '(start_date_from, end_date_from) =>
  bind_result (get_quarter_dates (quarter_to report) (year_to report))
    (fun '(start_date_to, end_date_to) =>
  let start_date := date_min start_date_from start_date_to in
  let end_date := date_max end_date_from end_date_to in
  Ok (start_date, end_date))).

(* ================================================================= *)
(** ** The entity tables read by the aggregators *)

(** [execution.models.Job]. *)
Module Job.
Record t : Type := mk {
  pk : nat;
  state : string;
  job_type : string;
  starting_date : datetime;
  end_date : option datetime;
  completion_time : option Q
}.
End Job.

(** [django.contrib.auth.models.User]. *)
Module User.
Record t : Type := mk {
  pk : nat;
  last_login : option datetime;
  date_joined : datetime
}.
End User.

(** [provider_services.models.AccountManager]; [user] is the key of the
    one-to-one [User]. *)
Module AccountManager.
Record t : Type := mk { pk : nat; user : nat }.
End AccountManager.

(** [provider_services.models.Customer]. *)
Module Customer.
Record t : Type := mk { pk : nat; user : nat }.
End Customer.

(** [provider_services.models.Order]; [customer] and [account_manager] are
    foreign keys, [total_price] is in cents. *)
Module Order.
Record t : Type := mk {
  pk : nat;
  customer : nat;
  account_manager : nat;
  status : string;
  created_at : datetime;
  total_price : Z;
  completed_at : option datetime
}.
End Order.

(* ================================================================= *)
(** ** Result tables and [get_or_create] *)

(** A row of a result table: its primary key, the key of the report it
    belongs to (the [OneToOneField]) and the statistics fields. *)
Record Row (F : Type) : Type := mkRow {
  row_id : nat;
  row_report : nat;
  row_fields : F
}.
Arguments mkRow {F}.
Arguments row_id {F}.
Arguments row_report {F}.
Arguments row_fields {F}.

(** A table: its rows in storage order and the next value of its primary
    key sequence. *)
Record Table (F : Type) : Type := mkTable {
  rows : list (Row F);
  next_id : nat
}.
Arguments mkTable {F}.
Arguments rows {F}.
Arguments next_id {F}.

Definition empty_table {F} : Table F := mkTable [] 1%nat.

Definition rows_of_report {F} (k : nat) (t : Table F) : list (Row F) :=
  filter (fun r => Nat.eqb (row_report r) k) (rows t).

(** [Model.objects.get_or_create(report=report, defaults=...)]: the row of
    the report when there is exactly one, a new row built from [defaults]
    when there is none; the flag tells whether the row was created. *)
Definition get_or_create {F} (report_pk : option nat) (defaults : F)
    (t : Table F) : Result (Row F * bool) * Table F :=
  match report_pk with
  | None => (Raise UnsavedRelatedObject, t)
  | Some k =>
      match rows_of_report k t with
      | [] =>
          let r := mkRow (next_id t) k defaults in
          (Ok (r, true), mkTable (rows t ++ [r]) (S (next_id t)))
      | [r] => (Ok (r, false), t)
      | _ :: _ :: _ => (Raise MultipleObjectsReturned, t)
      end
  end.

(** [UPDATE ... WHERE id = r.id]: every row carrying the key of [r] takes
    the contents of [r]. *)
Definition replace_row {F} (r : Row F) (l : list (Row F)) : list (Row F) :=
  map (fun r0 => if Nat.eqb (row_id r0) (row_id r) then r else r0) l.

(** [instance.save()] of a row that has a primary key. *)
Definition save_row {F} (r : Row F) (t : Table F) : Table F :=
  mkTable (replace_row r (rows t)) (next_id t).

(** Assignment of all statistics fields of a fetched row. *)
Definition with_fields {F} (r : Row F) (f : F) : Row F :=
  mkRow (row_id r) (row_report r) f.

(** [stat_analysis.models.JobReportResult]. *)
Record JobReportResult : Type := mkJobReportResult {
  total_jobs : Z;
  avg_completion_time_regular : option Q;
  avg_completion_time_wafer_run : option Q;
  jobs_created : Z;
  jobs_active : Z;
  jobs_completed : Z;
  jobs_failed : Z;
  jobs_delayed : Z
}.

(** [stat_analysis.models.OrderReportResult]; amounts in cents. *)
Record OrderReportResult : Type := mkOrderReportResult {
  total_orders : Z;
  total_revenue : Z;
  average_order_value : Q;
  orders_draft : Z;
  orders_submitted : Z;
  orders_in_progress : Z;
  orders_completed : Z;
  orders_cancelled : Z;
  avg_processing_time : option Q
}.

(** [stat_analysis.models.UserReportResult]; the two top fields hold the
    key of a [User] or are unset. *)
Record UserReportResult : Type := mkUserReportResult {
  total_active_users : Z;
  new_customers : Z;
  active_account_managers : Z;
  top_performing_account_manager : option nat;
  top_customer : option nat;
  total_orders_by_top_manager : Z;
  total_revenue_by_top_manager : Z
}.

(* ================================================================= *)
(** ** The database and the monad of the statistics code *)

Record DB : Type := mkDB {
  jobs : list Job.t;
  orders : list Order.t;
  users : list User.t;
  account_managers : list AccountManager.t;
  customers : list Customer.t;
  reports : list Report;
  reports_next_pk : nat;
  job_results : Table JobReportResult;
  order_results : Table OrderReportResult;
  user_results : Table UserReportResult
}.

Definition set_job_results (t : Table JobReportResult) (db : DB) : DB :=
  mkDB (jobs db) (orders db) (users db) (account_managers db) (customers db)
       (reports db) (reports_next_pk db) t (order_results db) (user_results db).

Definition set_order_results (t : Table OrderReportResult) (db : DB) : DB :=
  mkDB (jobs db) (orders db) (users db) (account_managers db) (customers db)
       (reports db) (reports_next_pk db) (job_results db) t (user_results db).

Definition set_user_results (t : Table UserReportResult) (db : DB) : DB :=
  mkDB (jobs db) (orders db) (users db) (account_managers db) (customers db)
       (reports db) (reports_next_pk db) (job_results db) (order_results db) t.

Definition set_reports (l : list Report) (n : nat) (db : DB) : DB :=
  mkDB (jobs db) (orders db) (users db) (account_managers db) (customers db)
       l n (job_results db) (order_results db) (user_results db).

(** Computations that read and write the database and may raise. *)
Definition M (A : Type) : Type := DB -> Result A * DB.

Definition ret {A} (a : A) : M A := fun db => (Ok a, db).

Definition bind {A B} (c : M A) (k : A -> M B) : M B :=
  fun db =>
    match c db with
    | (Ok a, db') => k a db'
    | (Raise e, db') => (Raise e, db')
    end.

Definition lift {A} (r : Result A) : M A := fun db => (r, db).

Definition gets {A} (f : DB -> A) : M A := fun db => (Ok (f db), db).

Declare Scope stat_scope.
Delimit Scope stat_scope with stat.
Notation "x <- c ;; k" := (bind c (fun x => k))
  (at level 100, c at next level, right associativity) : stat_scope.
Notation "' p <- c ;; k" := (bind c (fun p => k))
  (at level 100, p pattern, c at next level, right associativity) : stat_scope.
Notation "c ;;; k" := (bind c (fun _ => k))
  (at level 100, right associativity) : stat_scope.

(** Access to one result table from the database monad. *)
Definition on_job_results {A}
    (c : Table JobReportResult -> Result A * Table JobReportResult) : M A :=
  fun db => let '(r, t) := c (job_results db) in (r, set_job_results t db).

Definition on_order_results {A}
    (c : Table OrderReportResult -> Result A * Table OrderReportResult) : M A :=
  fun db => let '(r, t) := c (order_results db) in (r, set_order_results t db).

Definition on_user_results {A}
    (c : Table UserReportResult -> Result A * Table UserReportResult) : M A :=
  fun db => let '(r, t) := c (user_results db) in (r, set_user_results t db).

Definition saving {F} (r : Row F) (t : Table F) : Result unit * Table F :=
  (Ok tt, save_row r t).

(* ================================================================= *)
(** ** The query surface: filters and aggregates *)

Local Open Scope stat_scope.

(** [QuerySet.count()]. *)
Definition count {A} (l : list A) : Z := Z.of_nat (List.length l).

(** The pair of lookups [field__gte=start_date, field__lte=end_date] on a
    [DateTimeField], the two bounds being dates. *)
Definition in_period (start_date end_date : date) (t : datetime) : bool :=
  dt_leb (to_datetime start_date) t && dt_leb t (to_datetime end_date).

(** The same lookups on a nullable column: [NULL] matches neither. *)
Definition in_period_opt (start_date end_date : date) (t : option datetime) : bool :=
  match t with Some v => in_period start_date end_date v | None => false end.

Definition non_null {A} (l : list (option A)) : list A :=
  flat_map (fun o => match o with Some v => [v] | None => [] end) l.

Definition Qsum (l : list Q) : Q := fold_right Qplus 0%Q l.

(** SQL [AVG]: nulls are skipped, and the result is null when no value is
    left. *)
Definition Avg (l : list (option Q)) : option Q :=
  match non_null l with
  | [] => None
  | vs => Some (Qsum vs / inject_Z (count vs))%Q
  end.

(** SQL [SUM] over a column without nulls: null on the empty set. *)
Definition Sum (l : list Z) : option Z :=
  match l with
  | [] => None
  | _ => Some (fold_right Z.add 0 l)
  end.

(** Python's [x or 0] on an optional number: [None] and zero are falsy. *)
Definition or_0 (x : option Q) : Q :=
  match x with
  | None => 0%Q
  | Some v => if Qeq_bool v 0 then 0%Q else v
  end.

Definition or_0_Z (x : option Z) : Z :=
  match x with
  | None => 0
  | Some v => if v =? 0 then 0 else v
  end.

(** Truthiness of an optional [timedelta]: [None] and the zero duration are
    falsy. *)
Definition truthy (x : option Q) : bool :=
  match x with
  | None => false
  | Some v => negb (Qeq_bool v 0)
  end.

Definition in_list (s : string) (l : list string) : bool :=
  existsb (String.eqb s) l.

(* ================================================================= *)
(** ** The aggregators *)

(** The queries of [calculate_job_statistics] (from [jobs_in_period] to
    [jobs_delayed]) over the rows of [Job.objects]; the result is the set of
    values passed as [defaults] and assigned on update. *)
Definition job_statistics (start_date end_date : date) (all_jobs : list Job.t)
    : JobReportResult :=
  let jobs_in_period :=
    filter (fun j => in_period start_date end_date (Job.starting_date j)) all_jobs in
  let total_jobs := count jobs_in_period in
  let completed_jobs :=
    filter (fun j => String.eqb (Job.state j) "completed") jobs_in_period in
  let avg_completion_regular :=
    or_0 (Avg (map Job.completion_time
                 (filter (fun j => String.eqb (Job.job_type j) "regular") completed_jobs))) in
  let avg_completion_wafer_run :=
    or_0 (Avg (map Job.completion_time
                 (filter (fun j => String.eqb (Job.job_type j) "wafer_run") completed_jobs))) in
  let jobs_created :=
    count (filter (fun j => String.eqb (Job.state j) "created") jobs_in_period) in
  let jobs_active :=
    count (filter (fun j => String.eqb (Job.state j) "active") jobs_in_period) in
  let jobs_completed :=
    count (filter (fun j => String.eqb (Job.state j) "completed") jobs_in_period) in
  let jobs_failed :=
    count (filter (fun j => String.eqb (Job.state j) "failed") jobs_in_period) in
  let jobs_delayed :=
    count (filter (fun j => String.eqb (Job.state j) "delayed") jobs_in_period) in
  mkJobReportResult total_jobs (Some avg_completion_regular)
    (Some avg_completion_wafer_run) jobs_created jobs_active jobs_completed
    jobs_failed jobs_delayed.

(** [calculate_job_statistics(report)]. *)
Definition calculate_job_statistics (report : Report) : M (Row JobReportResult) :=
  '(start_date, end_date) <- lift (get_date_range_for_report report) ;;
  all_jobs <- gets jobs ;;
  let values := job_statistics start_date end_date all_jobs in
  '(job_result, created) <- on_job_results (get_or_create (pk report) values) ;;
  if negb created then
    let job_result := with_fields job_result values in
    on_job_results (saving job_result) ;;;
    ret job_result
  else ret job_result.

(** The processing time of an order as the query annotates it:
    [F('completed_at') - F('created_at')], in microseconds. *)
Definition processing_time (o : Order.t) : option Q :=
  match Order.completed_at o with
  | Some c => Some (inject_Z (dt_sub c (Order.created_at o)))
  | None => None
  end.

Definition is_some {A} (o : option A) : bool :=
  match o with Some _ => true | None => false end.

(** [timedelta.total_seconds() / (24 * 3600)] of a duration held in
    microseconds. *)
Definition micros_to_days (v : Q) : Q :=
  (v / inject_Z 1000000 / inject_Z (24 * 3600))%Q.

(** The queries of [calculate_order_statistics] (from [orders_in_period] to
    [avg_processing_time]) over the rows of [Order.objects].  The quotient
    [total_revenue / total_orders] is kept exact, in cents. *)
Definition order_statistics (start_date end_date : date) (all_orders : list Order.t)
    : OrderReportResult :=
  let orders_in_period :=
    filter (fun o => in_period start_date end_date (Order.created_at o)) all_orders in
  let total_orders := count orders_in_period in
  let total_revenue := or_0_Z (Sum (map Order.total_price orders_in_period)) in
  let average_order_value :=
    if 0 <? total_orders then (inject_Z total_revenue / inject_Z total_orders)%Q
    else 0%Q in
  let orders_draft :=
    count (filter (fun o => String.eqb (Order.status o) "draft") orders_in_period) in
  let orders_submitted :=
    count (filter (fun o => String.eqb (Order.status o) "submitted") orders_in_period) in
  let orders_in_progress :=
    count (filter (fun o => String.eqb (Order.status o) "in_progress") orders_in_period) in
  let orders_completed :=
    count (filter (fun o => String.eqb (Order.status o) "completed") orders_in_period) in
  let orders_cancelled :=
    count (filter (fun o => String.eqb (Order.status o) "cancelled") orders_in_period) in
  let completed_orders :=
    filter (fun o => String.eqb (Order.status o) "completed"
                     && is_some (Order.completed_at o)) orders_in_period in
  let avg_processing_time :=
    match completed_orders with
    | [] => None
    | _ :: _ =>
        let avg_time := Avg (map processing_time completed_orders) in
        if truthy avg_time
        then option_map micros_to_days avg_time
        else None
    end in
  mkOrderReportResult total_orders total_revenue average_order_value
    orders_draft orders_submitted orders_in_progress orders_completed
    orders_cancelled avg_processing_time.

(** [calculate_order_statistics(report)]. *)
Definition calculate_order_statistics (report : Report) : M (Row OrderReportResult) :=
  '(start_date, end_date) <- lift (get_date_range_for_report report) ;;
  all_orders <- gets orders ;;
  let values := order_statistics start_date end_date all_orders in
  '(order_result, created) <- on_order_results (get_or_create (pk report) values) ;;
  if negb created then
    let order_result := with_fields order_result values in
    on_order_results (saving order_result) ;;;
    ret order_result
  else ret order_result.

(** The orders of one account manager created in the period. *)
Definition manager_orders_in (start_date end_date : date) (all_orders : list Order.t)
    (manager : AccountManager.t) : list Order.t :=
  filter (fun o => Nat.eqb (Order.account_manager o) (AccountManager.pk manager)
                   && in_period start_date end_date (Order.created_at o)) all_orders.

(** The number of orders of one customer created in the period. *)
Definition customer_orders_in (start_date end_date : date) (all_orders : list Order.t)
    (customer : Customer.t) : Z :=
  count (filter (fun o => Nat.eqb (Order.customer o) (Customer.pk customer)
                          && in_period start_date end_date (Order.created_at o)) all_orders).

(** One iteration of [for manager in managers]: the loop variables are
    [(top_manager, top_manager_orders, top_manager_revenue)]. *)
Definition manager_step (start_date end_date : date) (all_orders : list Order.t)
    (acc : option nat * Z * Z) (manager : AccountManager.t) : option nat * Z * Z :=
  let '(top_manager, top_manager_orders, top_manager_revenue) := acc in
  let manager_orders := manager_orders_in start_date end_date all_orders manager in
  let order_count := count manager_orders in
  let revenue := or_0_Z (Sum (map Order.total_price manager_orders)) in
  if top_manager_orders <? order_count
  then (Some (AccountManager.user manager), order_count, revenue)
  else (top_manager, top_manager_orders, top_manager_revenue).

(** One iteration of [for customer in customers]: the loop variables are
    [(top_customer, top_customer_orders)]. *)
Definition customer_step (start_date end_date : date) (all_orders : list Order.t)
    (acc : option nat * Z) (customer : Customer.t) : option nat * Z :=
  let '(top_customer, top_customer_orders) := acc in
  let customer_orders := customer_orders_in start_date end_date all_orders customer in
  if top_customer_orders <? customer_orders
  then (Some (Customer.user customer), customer_orders)
  else (top_customer, top_customer_orders).

(** The queries and the two loops of [calculate_user_statistics] over the
    rows of [User.objects], [Customer.objects], [AccountManager.objects] and
    [Order.objects]. *)
Definition user_statistics (start_date end_date : date) (all_users : list User.t)
    (all_customers : list Customer.t) (all_managers : list AccountManager.t)
    (all_orders : list Order.t) : UserReportResult :=
  let active_users :=
    filter (fun u => in_period_opt start_date end_date (User.last_login u)) all_users in
  let new_customers :=
    count (filter (fun c =>
             existsb (fun u => Nat.eqb (User.pk u) (Customer.user c)
                               && in_period start_date end_date (User.date_joined u))
                     all_users) all_customers) in
  let active_managers :=
    count (filter (fun m =>
             existsb (fun u => Nat.eqb (User.pk u) (AccountManager.user m)) active_users)
           all_managers) in
  let '(top_manager, top_manager_orders, top_manager_revenue) :=
    fold_left (manager_step start_date end_date all_orders) all_managers (None, 0, 0) in
  let '(top_customer, top_customer_orders) :=
    fold_left (customer_step start_date end_date all_orders) all_customers (None, 0) in
  mkUserReportResult (count active_users) new_customers active_managers
    top_manager top_customer top_manager_orders top_manager_revenue.

(** [calculate_user_statistics(report)]. *)
Definition calculate_user_statistics (report : Report) : M (Row UserReportResult) :=
  '(start_date, end_date) <- lift (get_date_range_for_report report) ;;
  all_users <- gets users ;;
  all_customers <- gets customers ;;
  all_managers <- gets account_managers ;;
  all_orders <- gets orders ;;
  let values :=
    user_statistics start_date end_date all_users all_customers all_managers
      all_orders in
  '(user_result, created) <- on_user_results (get_or_create (pk report) values) ;;
  if negb created then
    let user_result := with_fields user_result values in
    on_user_results (saving user_result) ;;;
    ret user_result
  else ret user_result.

(* ================================================================= *)
(** ** The orchestrator and the save hook *)

(** [calculate_report_statistics(report)]. *)
Definition calculate_report_statistics (report : Report) : M unit :=
  (if in_list (report_type report) ["job"; "combined"]
   then calculate_job_statistics report ;;; ret tt else ret tt) ;;;
  (if in_list (report_type report) ["order"; "combined"]
   then calculate_order_statistics report ;;; ret tt else ret tt) ;;;
  (if in_list (report_type report) ["user"; "combined"]
   then calculate_user_statistics report ;;; ret tt else ret tt).

Definition with_pk (r : Report) (k : nat) : Report :=
  mkReport (Some k) (title r) (report_type r) (quarter_from r) (year_from r)
           (quarter_to r) (year_to r).

Definition has_pk (k : nat) (r : Report) : bool :=
  match pk r with Some k' => Nat.eqb k' k | None => false end.

(** [models.Model.save] on a report: an insert with a fresh key when the
    instance has none, otherwise an update of the row with that key, or an
    insert under that key when no row carries it.  The instance, with its key
    set, is returned. *)
Definition Model_save (self : Report) : M Report :=
  fun db =>
    match pk self with
    | None =>
        let self' := with_pk self (reports_next_pk db) in
        (Ok self', set_reports (reports db ++ [self']) (S (reports_next_pk db)) db)
    | Some k =>
        if existsb (has_pk k) (reports db)
        then (Ok self,
              set_reports (map (fun r => if has_pk k r then self else r) (reports db))
                          (reports_next_pk db) db)
        else (Ok self, set_reports (reports db ++ [self]) (reports_next_pk db) db)
    end.

(** [Report.save]: the row is written first, then the statistics are
    recomputed. *)
Definition Report_save (self : Report) : M Report :=
  self <- Model_save self ;;
  calculate_report_statistics self ;;;
  ret self.

(* ================================================================= *)
(** ** Notions used to state the properties *)

(** The tags of [Report.QUARTER_CHOICES]. *)
Definition quarter_tags : list string := ["Q1"; "Q2"; "Q3"; "Q4"].

(** The values of [Report.REPORT_TYPE_CHOICES]. *)
Definition report_types : list string := ["job"; "order"; "user"; "combined"].

(** The quarter table as the specification words it, for every integer
    year: the calendar bounds of the quarter, and the invalid-quarter error
    for any other tag. *)
Definition quarter_dates_spec (quarter : string) (y : Z) : Result (date * date) :=
  if String.eqb quarter "Q1" then Ok (mkdate y 1 1, mkdate y 3 31)
  else if String.eqb quarter "Q2" then Ok (mkdate y 4 1, mkdate y 6 30)
  else if String.eqb quarter "Q3" then Ok (mkdate y 7 1, mkdate y 9 30)
  else if String.eqb quarter "Q4" then Ok (mkdate y 10 1, mkdate y 12 31)
  else Raise InvalidQuarter.

(** The report with its from-endpoint and to-endpoint exchanged. *)
Definition swap_endpoints (r : Report) : Report :=
  mkReport (pk r) (title r) (report_type r) (quarter_to r) (year_to r)
           (quarter_from r) (year_from r).

(** A database without any row. *)
Definition empty_db : DB :=
  mkDB [] [] [] [] [] [] 1%nat empty_table empty_table empty_table.

(** Integrity of a result table: primary keys are unique and were drawn
    from the sequence. *)
Definition table_wf {F} (t : Table F) : Prop :=
  NoDup (map row_id (rows t))
  /\ Forall (fun r => (row_id r < next_id t)%nat) (rows t).

Definition results_wf (db : DB) : Prop :=
  table_wf (job_results db) /\ table_wf (order_results db)
  /\ table_wf (user_results db).

(** The one-to-one constraint: no two rows of the table belong to the same
    report. *)
Definition one_row_per_report {F} (t : Table F) : Prop :=
  NoDup (map row_report (rows t)).

(** The table-level effect of the idiom shared by the three aggregators:
    [get_or_create], then assignment of every field and [save] when the row
    already existed. *)
Definition upsert {F} (report_pk : option nat) (values : F) (t : Table F)
    : Result (Row F) * Table F :=
  match get_or_create report_pk values t with
  | (Ok (r, created), t') =>
      if negb created
      then (Ok (with_fields r values), save_row (with_fields r values) t')
      else (Ok r, t')
  | (Raise e, t') => (Raise e, t')
  end.

(** A saved report over the given endpoints. *)
Definition sample_report (k : nat) (type qf : string) (yf : Z) (qt : string)
    (yt : Z) : Report :=
  mkReport (Some k) "report" type qf yf qt yt.

(** One aggregator seen from its result table: the range of the report is
    resolved, then the values computed for that range are stored. *)
Definition table_step {F} (r : Report) (values : date -> date -> F) (t : Table F)
    : Result (Row F) * Table F :=
  match get_date_range_for_report r with
  | Raise e => (Raise e, t)
  | Ok (start_date, end_date) => upsert (pk r) (values start_date end_date) t
  end.

(** The values each aggregator computes from the entity tables of [db]. *)
Definition job_values (db : DB) (start_date end_date : date) : JobReportResult :=
  job_statistics start_date end_date (jobs db).

Definition order_values (db : DB) (start_date end_date : date) : OrderReportResult :=
  order_statistics start_date end_date (orders db).

Definition user_values (db : DB) (start_date end_date : date) : UserReportResult :=
  user_statistics start_date end_date (users db) (customers db)
    (account_managers db) (orders db).

(** One [if report.report_type in [...]: aggregator(report)] block of the
    orchestrator, seen from the result table of its aggregator. *)
Definition gated_step {F} (g : bool) (step : Table F -> Result (Row F) * Table F)
    (t : Table F) : Result unit * Table F :=
  if g then
    match step t with
    | (Ok _, t') => (Ok tt, t')
    | (Raise e, t') => (Raise e, t')
    end
  else (Ok tt, t).

(** The orchestrator as three gated steps, each on its own result table. *)
Definition report_steps (r : Report) (db : DB) : Result unit * DB :=
  let '(rj, tj) :=
    gated_step (in_list (report_type r) ["job"; "combined"])
      (table_step r (job_values db)) (job_results db) in
  match rj with
  | Raise e => (Raise e, set_job_results tj db)
  | Ok _ =>
      let '(ro, to) :=
        gated_step (in_list (report_type r) ["order"; "combined"])
          (table_step r (order_values db)) (order_results db) in
      match ro with
      | Raise e => (Raise e, set_order_results to (set_job_results tj db))
      | Ok _ =>
          let '(ru, tu) :=
            gated_step (in_list (report_type r) ["user"; "combined"])
              (table_step r (user_values db)) (user_results db) in
          (ru, set_user_results tu (set_order_results to (set_job_results tj db)))
      end
  end.

(** The outcome of one successful run of an aggregator on its table: the
    report has exactly one row, holding the computed values; that row was
    appended when the report had none, and otherwise it is the former row,
    with its key, overwritten where it stood. *)
Definition upserted {F} (k : nat) (values : F) (t t' : Table F) (row : Row F)
    : Prop :=
  row_report row = k /\ row_fields row = values
  /\ rows_of_report k t' = [row]
  /\ one_row_per_report t' /\ table_wf t'
  /\ match rows_of_report k t with
     | [] => rows t' = (rows t ++ [row])%list
     | old :: _ =>
         row_id row = row_id old
         /\ rows t' = replace_row row (rows t)
         /\ List.length (rows t') = List.length (rows t)
     end.

(** The storage constraints on the three result tables: unique primary keys
    and at most one row per report. *)
Definition db_ok (db : DB) : Prop :=
  results_wf db
  /\ one_row_per_report (job_results db)
  /\ one_row_per_report (order_results db)
  /\ one_row_per_report (user_results db).

(** The number of in-range orders of a manager, as the loop counts them. *)
Definition manager_count (start_date end_date : date) (all_orders : list Order.t)
    (m : AccountManager.t) : Z :=
  count (manager_orders_in start_date end_date all_orders m).

(** The revenue of a manager over the in-range orders: the sum of their
    total prices. *)
Definition manager_revenue (start_date end_date : date) (all_orders : list Order.t)
    (m : AccountManager.t) : Z :=
  fold_right Z.add 0
    (map Order.total_price (manager_orders_in start_date end_date all_orders m)).

(** The in-range order count as the specification words it, stated without
    the queries of the loops: a tally, over all orders, of those created in
    the range that belong to the owner at hand. *)
Fixpoint order_tally (mine : Order.t -> bool) (l : list Order.t) : Z :=
  match l with
  | [] => 0
  | o :: l' => (if mine o then 1 else 0) + order_tally mine l'
  end.

(** The revenue of the same orders: their total prices added up. *)
Fixpoint revenue_tally (mine : Order.t -> bool) (l : list Order.t) : Z :=
  match l with
  | [] => 0
  | o :: l' => (if mine o then Order.total_price o else 0) + revenue_tally mine l'
  end.

(** Order [o] was created in the range and is managed by [m]. *)
Definition in_range_order_of_manager (start_date end_date : date)
    (m : AccountManager.t) (o : Order.t) : bool :=
  in_period start_date end_date (Order.created_at o)
  && Nat.eqb (AccountManager.pk m) (Order.account_manager o).

(** Order [o] was created in the range and was placed by customer [c]. *)
Definition in_range_order_of_customer (start_date end_date : date)
    (c : Customer.t) (o : Order.t) : bool :=
  in_period start_date end_date (Order.created_at o)
  && Nat.eqb (Customer.pk c) (Order.customer o).

Definition in_range_order_count_of_manager (start_date end_date : date)
    (all_orders : list Order.t) (m : AccountManager.t) : Z :=
  order_tally (in_range_order_of_manager start_date end_date m) all_orders.

Definition in_range_revenue_of_manager (start_date end_date : date)
    (all_orders : list Order.t) (m : AccountManager.t) : Z :=
  revenue_tally (in_range_order_of_manager start_date end_date m) all_orders.

Definition in_range_order_count_of_customer (start_date end_date : date)
    (all_orders : list Order.t) (c : Customer.t) : Z :=
  order_tally (in_range_order_of_customer start_date end_date c) all_orders.



(** The jobs of a given type that started in the period and are completed:
    the rows over which a completion-time average is taken. *)
Definition completed_jobs_of_type (start_date end_date : date) (type : string)
    (all_jobs : list Job.t) : list Job.t :=
  filter (fun j => in_period start_date end_date (Job.starting_date j)
                   && String.eqb (Job.state j) "completed"
                   && String.eqb (Job.job_type j) type) all_jobs.

(** [m] is the mean of the values [xs], of which there is at least one. *)
Definition is_mean (xs : list Q) (m : Q) : Prop :=
  xs <> [] /\ (m == Qsum xs / inject_Z (count xs))%Q.

(** The stored average as the specification words it: zero when no job
    qualifies, otherwise the mean completion time over the qualifying jobs
    (read, in favour of the specification, as the mean of the completion times
    that are set). *)
Definition avg_completion_as_specified (qualifying : list Job.t)
    (stored : option Q) : Prop :=
  match qualifying with
  | [] => stored = Some 0%Q
  | _ :: _ =>
      exists m, stored = Some m
                /\ is_mean (non_null (map Job.completion_time qualifying)) m
  end.

(** The stored average as the code computes it: zero when no qualifying job
    has a completion time, otherwise the mean of the completion times that
    are set. *)
Definition avg_completion_stored (qualifying : list Job.t)
    (stored : option Q) : Prop :=
  match non_null (map Job.completion_time qualifying) with
  | [] => stored = Some 0%Q
  | (_ :: _) as xs => exists m, stored = Some m /\ is_mean xs m
  end.

(** The in-range orders over which the processing time is averaged. *)
Definition completed_orders_in (start_date end_date : date)
    (all_orders : list Order.t) : list Order.t :=
  filter (fun o => in_period start_date end_date (Order.created_at o)
                   && (String.eqb (Order.status o) "completed"
                       && is_some (Order.completed_at o))) all_orders.

(* ----------------------------------------------------------------- *)
(** *** Sample data *)

(** The first quarter of 2024 as a saved report of the given type. *)
Definition q1_2024 (type : string) : Report :=
  sample_report 1 type "Q1" 2024 "Q1" 2024.

(** Three completed regular jobs of 2, 4 and 6 days and two wafer runs that
    never completed, all started in the first quarter of 2024. *)
Definition sample_jobs : list Job.t :=
  [ Job.mk 1 "completed" "regular" (datetime_of 2024 1 10 9 0 0)
      (Some (datetime_of 2024 1 12 9 0 0)) (Some (2 # 1)%Q);
    Job.mk 2 "completed" "regular" (datetime_of 2024 2 1 9 0 0)
      (Some (datetime_of 2024 2 5 9 0 0)) (Some (4 # 1)%Q);
    Job.mk 3 "completed" "regular" (datetime_of 2024 3 1 9 0 0)
      (Some (datetime_of 2024 3 7 9 0 0)) (Some (6 # 1)%Q);
    Job.mk 4 "active" "wafer_run" (datetime_of 2024 1 15 9 0 0) None None;
    Job.mk 5 "delayed" "wafer_run" (datetime_of 2024 2 15 9 0 0) None None ].

Definition sample_users : list User.t :=
  [ User.mk 1 (Some (datetime_of 2024 2 1 8 0 0)) (datetime_of 2023 5 1 8 0 0);
    User.mk 2 None (datetime_of 2023 6 1 8 0 0);
    User.mk 3 (Some (datetime_of 2024 3 1 8 0 0)) (datetime_of 2024 1 5 8 0 0);
    User.mk 4 (Some (datetime_of 2023 12 1 8 0 0)) (datetime_of 2023 7 1 8 0 0) ].

Definition sample_managers : list AccountManager.t :=
  [ AccountManager.mk 1 1; AccountManager.mk 2 2 ].

Definition sample_customers : list Customer.t :=
  [ Customer.mk 1 3; Customer.mk 2 4 ].

(** Four orders in the quarter: two for each manager and two for each
    customer; the second manager has the larger revenue. *)
Definition sample_orders : list Order.t :=
  [ Order.mk 1 1 1 "completed" (datetime_of 2024 1 20 10 0 0) 10000
      (Some (datetime_of 2024 1 22 10 0 0));
    Order.mk 2 2 1 "draft" (datetime_of 2024 2 20 10 0 0) 5000 None;
    Order.mk 3 1 2 "submitted" (datetime_of 2024 2 21 10 0 0) 90000 None;
    Order.mk 4 2 2 "in_progress" (datetime_of 2024 3 2 10 0 0) 80000 None ].

Definition sample_db : DB :=
  mkDB sample_jobs sample_orders sample_users sample_managers sample_customers
       [] 1%nat empty_table empty_table empty_table.

(** A completed regular job of the quarter whose completion time was never
    set (it has no end date). *)
Definition job_without_completion_time : Job.t :=
  Job.mk 1 "completed" "regular" (datetime_of 2024 2 1 9 0 0) None None.

(** A job that starts at noon on the last day of the quarter. *)
Definition job_on_last_day : Job.t :=
  Job.mk 1 "active" "regular" (datetime_of 2024 3 31 12 0 0) None None.

(** An order created at noon on the last day of the quarter. *)
Definition order_on_last_day : Order.t :=
  Order.mk 1 1 1 "draft" (datetime_of 2024 3 31 12 0 0) 10000 None.

(** A completed order whose completion timestamp equals its creation
    timestamp. *)
Definition order_completed_at_once : Order.t :=
  Order.mk 1 1 1 "completed" (datetime_of 2024 2 1 10 0 0) 10000
    (Some (datetime_of 2024 2 1 10 0 0)).

Definition db_with_jobs (l : list Job.t) : DB :=
  mkDB l [] [] [] [] [] 1%nat empty_table empty_table empty_table.

Definition db_with_orders (l : list Order.t) : DB :=
  mkDB [] l [] [] [] [] 1%nat empty_table empty_table empty_table.

(** A report of the first quarter of 2024 whose to-endpoint carries the tag
    [Q5]. *)
Definition report_with_bad_quarter (type : string) : Report :=
  mkReport None "report" type "Q1" 2024 "Q5" 2024.

(** The sample database after the combined report of the first quarter of
    2024 has been computed once. *)
Definition sample_db_computed : DB :=
  snd (calculate_report_statistics (q1_2024 "combined") sample_db).

(* ----------------------------------------------------------------- *)
(** *** Tactics for the constraints on concrete tables *)

(** Closes [db_ok] on a database whose result tables are empty. *)
Ltac solve_db_ok :=
  unfold db_ok, results_wf, table_wf, one_row_per_report; simpl;
  repeat split; constructor.

(** Closes [~ In x l] on a concrete list of distinct numbers. *)
Ltac solve_in_nil :=
  let H := fresh in
  intros H; simpl in H;
  repeat (destruct H as [H|H]; try discriminate H); try contradiction.


(* ================================================================= *)
(** ** Further notions: the order on dates and the five-valued columns *)

(** [a <= b] on dates, as [not (b < a)]. *)
Definition date_leb (a b : date) : bool := negb (date_ltb b a).

(** The number of days of the closed interval of dates [[a, b]]. *)
Definition days_between (a b : date) : Z := toordinal b - toordinal a + 1.

(** The values of [Job.STATE_CHOICES]. *)
Definition job_states : list string :=
  ["created"; "active"; "completed"; "failed"; "delayed"].

(** The values of [Order.ORDER_STATUS_CHOICES]. *)
Definition order_statuses : list string :=
  ["draft"; "submitted"; "in_progress"; "completed"; "cancelled"].

(** The sum, over the tags, of the numbers of rows whose column [key] holds
    each tag. *)
Definition tag_total {A} (key : A -> string) (tags : list string) (l : list A) : Z :=
  fold_right Z.add 0
    (map (fun s => count (filter (fun x => String.eqb (key x) s) l)) tags).

(** The three gated steps of the orchestrator on the three result tables
    alone, given the values each aggregator computes from the entity tables:
    the outcome and the tables as the orchestrator leaves them. *)
Definition steps_on (r : Report)
    (vj : date -> date -> JobReportResult)
    (vo : date -> date -> OrderReportResult)
    (vu : date -> date -> UserReportResult)
    (tj : Table JobReportResult) (to : Table OrderReportResult)
    (tu : Table UserReportResult)
    : Result unit
      * (Table JobReportResult * Table OrderReportResult * Table UserReportResult) :=
  let '(rj, tj') :=
    gated_step (in_list (report_type r) ["job"; "combined"]) (table_step r vj) tj in
  match rj with
  | Raise e => (Raise e, (tj', to, tu))
  | Ok _ =>
      let '(ro, to') :=
        gated_step (in_list (report_type r) ["order"; "combined"])
          (table_step r vo) to in
      match ro with
      | Raise e => (Raise e, (tj', to', tu))
      | Ok _ =>
          let '(ru, tu') :=
            gated_step (in_list (report_type r) ["user"; "combined"])
              (table_step r vu) tu in
          (ru, (tj', to', tu'))
      end
  end.

(** The three result tables of a database. *)
Definition result_tables (db : DB)
    : Table JobReportResult * Table OrderReportResult * Table UserReportResult :=
  (job_results db, order_results db, user_results db).

Definition set_result_tables
    (ts : Table JobReportResult * Table OrderReportResult * Table UserReportResult)
    (db : DB) : DB :=
  let '(tj, to, tu) := ts in
  set_user_results tu (set_order_results to (set_job_results tj db)).

(** The report with another title. *)
Definition with_title (r : Report) (t : string) : Report :=
  mkReport (pk r) t (report_type r) (quarter_from r) (year_from r)
           (quarter_to r) (year_to r).

(** A new combined report of the first quarter of 2024, not yet saved. *)
Definition new_report : Report :=
  mkReport None "first quarter" "combined" "Q1" 2024 "Q1" 2024.

(* ================================================================= *)
(** ** Saving jobs: [execution.models.Job] *)

(** The exceptions of the model layer: Python's [RecursionError], a
    model's [DoesNotExist], [MultipleObjectsReturned], the [ValueError] of
    [save(update_fields=...)] on an instance without key, the
    [DatabaseError] of an update that matches no row, the database's
    [IntegrityError], and the [InvalidOperation] of a decimal that needs more
    digits than its field has. *)
Inductive ModelExc : Type :=
| RecursionError
| DoesNotExist
| MultipleReturned
| NoPrimaryKey
| NoRowUpdated
| IntegrityError
| InvalidOperation.

Inductive Outcome (A : Type) : Type :=
| Done (a : A)
| Fails (e : ModelExc).
Arguments Done {A} a.
Arguments Fails {A} e.

(** A [Job] instance in memory: the row, with a key that is [None] until
    the first save. *)
Module JobInstance.
Record t : Type := mk {
  pk : option nat;
  state : string;
  job_type : string;
  starting_date : datetime;
  end_date : option datetime;
  completion_time : option Q
}.
End JobInstance.

(** The row an instance is written as under key [k]. *)
Definition job_row (k : nat) (j : JobInstance.t) : Job.t :=
  Job.mk k (JobInstance.state j) (JobInstance.job_type j)
    (JobInstance.starting_date j) (JobInstance.end_date j)
    (JobInstance.completion_time j).

Definition job_with_pk (j : JobInstance.t) (k : nat) : JobInstance.t :=
  JobInstance.mk (Some k) (JobInstance.state j) (JobInstance.job_type j)
    (JobInstance.starting_date j) (JobInstance.end_date j)
    (JobInstance.completion_time j).

Definition job_with_completion_time (j : JobInstance.t) (c : option Q)
    : JobInstance.t :=
  JobInstance.mk (JobInstance.pk j) (JobInstance.state j) (JobInstance.job_type j)
    (JobInstance.starting_date j) (JobInstance.end_date j) c.

Definition row_with_completion_time (j : Job.t) (c : option Q) : Job.t :=
  Job.mk (Job.pk j) (Job.state j) (Job.job_type j) (Job.starting_date j)
    (Job.end_date j) c.

(** A key no row of the table carries, for an insert. *)
Definition fresh_job_pk (tbl : list Job.t) : nat :=
  S (fold_right Nat.max 0%nat (map Job.pk tbl)).

Definition has_job_pk (k : nat) (j : Job.t) : bool := Nat.eqb (Job.pk j) k.

(** [models.Model.save] on a job.  Without [update_fields]: an insert under a
    fresh key when the instance has none, else an update of the row with its
    key, or an insert under that key when there is no such row.  With
    [update_fields=['completion_time']]: an update of that column alone, which
    needs a key and a row to update. *)
Definition Model_save_job (only_completion_time : bool) (self : JobInstance.t)
    (tbl : list Job.t) : Outcome JobInstance.t * list Job.t :=
  if only_completion_time then
    match JobInstance.pk self with
    | None => (Fails NoPrimaryKey, tbl)
    | Some k =>
        if existsb (has_job_pk k) tbl
        then (Done self,
              map (fun j => if has_job_pk k j
                            then row_with_completion_time j
                                   (JobInstance.completion_time self)
                            else j) tbl)
        else (Fails NoRowUpdated, tbl)
    end
  else
    match JobInstance.pk self with
    | None =>
        let k := fresh_job_pk tbl in
        (Done (job_with_pk self k), (tbl ++ [job_row k self])%list)
    | Some k =>
        if existsb (has_job_pk k) tbl
        then (Done self,
              map (fun j => if has_job_pk k j then job_row k self else j) tbl)
        else (Done self, (tbl ++ [job_row k self])%list)
    end.

(** Python's [not x] on an optional float: [None] and zero are falsy. *)
Definition falsy (x : option Q) : bool :=
  match x with
  | None => true
  | Some v => Qeq_bool v 0
  end.

(** [Job.calculate_completion_time], the recursive call to [save] being the
    argument [save]; a [datetime] is always truthy, so the test is on the
    presence of [end_date]. *)
Definition calculate_completion_time
    (save : JobInstance.t -> list Job.t -> Outcome JobInstance.t * list Job.t)
    (self : JobInstance.t) (tbl : list Job.t)
    : Outcome JobInstance.t * list Job.t :=
  match JobInstance.end_date self with
  | Some e =>
      let delta := dt_sub e (JobInstance.starting_date self) in
      let self :=
        job_with_completion_time self (Some (micros_to_days (inject_Z delta))) in
      save self tbl
  | None => (Done self, tbl)
  end.

(** [Job.save].  [depth] is the number of nested calls of [save] the
    interpreter still allows: when it is exhausted the call raises
    [RecursionError].  The flag tells whether the call carries
    [update_fields=['completion_time']]. *)
Fixpoint Job_save (depth : nat) (only_completion_time : bool)
    (self : JobInstance.t) (tbl : list Job.t)
    : Outcome JobInstance.t * list Job.t :=
  match depth with
  | O => (Fails RecursionError, tbl)
  | S depth' =>
      match Model_save_job only_completion_time self tbl with
      | (Fails e, tbl') => (Fails e, tbl')
      | (Done self, tbl') =>
          if String.eqb (JobInstance.state self) "completed"
             && falsy (JobInstance.completion_time self)
             && is_some (JobInstance.end_date self)
          then calculate_completion_time (Job_save depth' true) self tbl'
          else (Done self, tbl')
      end
  end.

(** A completed job that ran for three days, and one whose end date equals
    its starting date; both not yet saved. *)
Definition three_day_job : JobInstance.t :=
  JobInstance.mk None "completed" "regular" (datetime_of 2024 2 1 9 0 0)
    (Some (datetime_of 2024 2 4 9 0 0)) None.

Definition instant_job : JobInstance.t :=
  JobInstance.mk None "completed" "regular" (datetime_of 2024 2 1 9 0 0)
    (Some (datetime_of 2024 2 1 9 0 0)) None.

(** [three_day_job] as its first save leaves it: under key 1, with a
    completion time of three days. *)
Definition three_day_job_saved : JobInstance.t :=
  job_with_completion_time (job_with_pk three_day_job 1)
    (Some (micros_to_days
             (inject_Z (dt_sub (datetime_of 2024 2 4 9 0 0)
                          (datetime_of 2024 2 1 9 0 0))))).

(* ================================================================= *)
(** ** The orders an administrator sees: [OrderAdmin.get_queryset] *)

(** [request.user] as the method reads it: the key of the user, the
    superuser flag and the names of the groups the user belongs to. *)
Record Requester : Type := mkRequester {
  req_user : nat;
  is_superuser : bool;
  req_groups : list string
}.

(** [AccountManager.objects.get(user=request.user)]. *)
Definition get_account_manager (user_pk : nat) (managers : list AccountManager.t)
    : Outcome AccountManager.t :=
  match filter (fun m => Nat.eqb (AccountManager.user m) user_pk) managers with
  | [] => Fails DoesNotExist
  | [m] => Done m
  | _ :: _ :: _ => Fails MultipleReturned
  end.

(** [OrderAdmin.get_queryset(request)], as the set of rows of the queryset it
    returns (listed in table order; the [ORDER BY] that [Meta.ordering] adds
    does not change which rows are returned).  Only [DoesNotExist] is caught
    by the method. *)
Definition get_queryset (request : Requester) (managers : list AccountManager.t)
    (all_orders : list Order.t) : Outcome (list Order.t) :=
  let qs := all_orders in
  if negb (is_superuser request)
     && existsb (String.eqb "account_manager") (req_groups request)
  then
    match get_account_manager (req_user request) managers with
    | Done account_manager =>
        Done (filter (fun o => Nat.eqb (Order.account_manager o)
                                 (AccountManager.pk account_manager)) qs)
    | Fails DoesNotExist => Done []
    | Fails e => Fails e
    end
  else Done qs.

(** The first account manager of the sample data, signed in without
    superuser rights. *)
Definition sample_requester : Requester :=
  mkRequester 1 false ["account_manager"].

(* ================================================================= *)
(** ** Saving orders and order items: [provider_services.models] *)

(** An [Order] instance in memory.  The key is [None] only when it was set
    so explicitly (the field default fills it on construction); [created_at]
    is [None] on an instance that was constructed and never inserted, and set
    on one loaded from the table. *)
Module OrderInstance.
Record t : Type := mk {
  pk : option nat;
  customer : nat;
  account_manager : nat;
  status : string;
  created_at : option datetime;
  total_price : Z;
  completed_at : option datetime
}.
End OrderInstance.

(** [provider_services.models.Service]; the price is in cents. *)
Module Service.
Record t : Type := mk { pk : nat; price : Z }.
End Service.

(** [provider_services.models.OrderItem]: a row, and an instance in memory
    whose price may not have been given. *)
Module OrderItem.
Record t : Type := mk {
  pk : nat;
  order : nat;
  service : nat;
  quantity : Z;
  price : Z
}.
End OrderItem.

Module OrderItemInstance.
Record t : Type := mk {
  pk : option nat;
  order : nat;
  service : nat;
  quantity : Z;
  price : option Z
}.
End OrderItemInstance.

(** The tables the two models live in. *)
Record Shop : Type := mkShop {
  shop_orders : list Order.t;
  shop_items : list OrderItem.t;
  shop_services : list Service.t
}.

(** A [DecimalField(max_digits=10, decimal_places=2)] holds an amount of at
    most ten digits, cents included. *)
Definition decimal_fits (cents : Z) : bool := Z.abs cents <? 10 ^ 10.

Definition has_order_pk (k : nat) (o : Order.t) : bool := Nat.eqb (Order.pk o) k.

(** [Order.objects.get(pk=k)]. *)
Definition get_order (k : nat) (tbl : list Order.t) : Outcome Order.t :=
  match filter (has_order_pk k) tbl with
  | [] => Fails DoesNotExist
  | [o] => Done o
  | _ :: _ :: _ => Fails MultipleReturned
  end.

Definition fresh_order_pk (tbl : list Order.t) : nat :=
  S (fold_right Nat.max 0%nat (map Order.pk tbl)).

(** The instance an order row is loaded as. *)
Definition order_instance (o : Order.t) : OrderInstance.t :=
  OrderInstance.mk (Some (Order.pk o)) (Order.customer o) (Order.account_manager o)
    (Order.status o) (Some (Order.created_at o)) (Order.total_price o)
    (Order.completed_at o).

(** The row an instance is written as, under key [k] and with creation
    timestamp [c]. *)
Definition order_row (k : nat) (c : datetime) (self : OrderInstance.t) : Order.t :=
  Order.mk k (OrderInstance.customer self) (OrderInstance.account_manager self)
    (OrderInstance.status self) c (OrderInstance.total_price self)
    (OrderInstance.completed_at self).

Definition order_with_completed_at (self : OrderInstance.t) (c : option datetime)
    : OrderInstance.t :=
  OrderInstance.mk (OrderInstance.pk self) (OrderInstance.customer self)
    (OrderInstance.account_manager self) (OrderInstance.status self)
    (OrderInstance.created_at self) (OrderInstance.total_price self) c.

Definition order_with_total_price (self : OrderInstance.t) (p : Z)
    : OrderInstance.t :=
  OrderInstance.mk (OrderInstance.pk self) (OrderInstance.customer self)
    (OrderInstance.account_manager self) (OrderInstance.status self)
    (OrderInstance.created_at self) p (OrderInstance.completed_at self).

Definition order_saved_as (self : OrderInstance.t) (k : nat) (c : datetime)
    : OrderInstance.t :=
  OrderInstance.mk (Some k) (OrderInstance.customer self)
    (OrderInstance.account_manager self) (OrderInstance.status self) (Some c)
    (OrderInstance.total_price self) (OrderInstance.completed_at self).

(** [models.Model.save] on an order.  The total price is prepared for the
    database first and must fit its field.  An instance without key is
    inserted under a fresh key; one with a key updates the row with that key,
    or is inserted when there is none.  On insert [auto_now_add] stamps
    [created_at] with the current time [stamp]; on update [created_at] is
    written as the instance holds it and must not be null. *)
Definition Model_save_order (stamp : datetime) (self : OrderInstance.t)
    (tbl : list Order.t) : Outcome OrderInstance.t * list Order.t :=
  if negb (decimal_fits (OrderInstance.total_price self))
  then (Fails InvalidOperation, tbl)
  else
    match OrderInstance.pk self with
    | None =>
        let k := fresh_order_pk tbl in
        (Done (order_saved_as self k stamp), (tbl ++ [order_row k stamp self])%list)
    | Some k =>
        if existsb (has_order_pk k) tbl
        then
          match OrderInstance.created_at self with
          | None => (Fails IntegrityError, tbl)
          | Some c =>
              (Done self,
               map (fun o => if has_order_pk k o then order_row k c self else o) tbl)
          end
        else (Done (order_saved_as self k stamp),
              (tbl ++ [order_row k stamp self])%list)
    end.

(** [Order.save]; [now] is what [timezone.now()] returns if it is called. *)
Definition Order_save (now stamp : datetime) (self : OrderInstance.t)
    (tbl : list Order.t) : Outcome OrderInstance.t * list Order.t :=
  match OrderInstance.pk self with
  | Some k =>
      match get_order k tbl with
      | Fails e => (Fails e, tbl)
      | Done old_instance =>
          let self :=
            if negb (String.eqb (Order.status old_instance) "completed")
               && String.eqb (OrderInstance.status self) "completed"
            then order_with_completed_at self (Some now)
            else self in
          Model_save_order stamp self tbl
      end
  | None =>
      let self :=
        if String.eqb (OrderInstance.status self) "completed"
        then order_with_completed_at self (Some now)
        else self in
      Model_save_order stamp self tbl
  end.

(** [self.items.all()] of the order with key [k]. *)
Definition items_of (k : nat) (items : list OrderItem.t) : list OrderItem.t :=
  filter (fun i => Nat.eqb (OrderItem.order i) k) items.

(** [sum(item.price * item.quantity for item in ...)]. *)
Definition items_total (items : list OrderItem.t) : Z :=
  fold_right Z.add 0
    (map (fun i => OrderItem.price i * OrderItem.quantity i) items).

(** [Order.update_total_price]; the related manager [self.items] needs an
    instance with a key. *)
Definition update_total_price (now stamp : datetime) (self : OrderInstance.t)
    (sh : Shop) : Outcome OrderInstance.t * Shop :=
  match OrderInstance.pk self with
  | None => (Fails NoPrimaryKey, sh)
  | Some k =>
      let self :=
        order_with_total_price self (items_total (items_of k (shop_items sh))) in
      let '(res, tbl) := Order_save now stamp self (shop_orders sh) in
      (res, mkShop tbl (shop_items sh) (shop_services sh))
  end.

Definition has_item_pk (k : nat) (i : OrderItem.t) : bool := Nat.eqb (OrderItem.pk i) k.

Definition fresh_item_pk (tbl : list OrderItem.t) : nat :=
  S (fold_right Nat.max 0%nat (map OrderItem.pk tbl)).

Definition item_row (k : nat) (p : Z) (self : OrderItemInstance.t) : OrderItem.t :=
  OrderItem.mk k (OrderItemInstance.order self) (OrderItemInstance.service self)
    (OrderItemInstance.quantity self) p.

Definition item_saved_as (self : OrderItemInstance.t) (k : nat) (p : Z)
    : OrderItemInstance.t :=
  OrderItemInstance.mk (Some k) (OrderItemInstance.order self)
    (OrderItemInstance.service self) (OrderItemInstance.quantity self) (Some p).

(** [models.Model.save] on an order item whose price is [p]: the price must
    fit its field and the two foreign keys must point to existing rows. *)
Definition Model_save_item (p : Z) (self : OrderItemInstance.t) (sh : Shop)
    : Outcome OrderItemInstance.t * Shop :=
  if negb (decimal_fits p) then (Fails InvalidOperation, sh)
  else if negb (existsb (has_order_pk (OrderItemInstance.order self)) (shop_orders sh)
                && existsb (fun s => Nat.eqb (Service.pk s) (OrderItemInstance.service self))
                     (shop_services sh))
  then (Fails IntegrityError, sh)
  else
    let k := match OrderItemInstance.pk self with
             | Some k => k
             | None => fresh_item_pk (shop_items sh)
             end in
    let items :=
      if existsb (has_item_pk k) (shop_items sh)
      then map (fun i => if has_item_pk k i then item_row k p self else i)
             (shop_items sh)
      else (shop_items sh ++ [item_row k p self])%list in
    (Done (item_saved_as self k p),
     mkShop (shop_orders sh) items (shop_services sh)).

(** [self.service.price]: the price of the service the item points to. *)
Definition service_price (k : nat) (services : list Service.t) : Outcome Z :=
  match filter (fun s => Nat.eqb (Service.pk s) k) services with
  | [] => Fails DoesNotExist
  | [s] => Done (Service.price s)
  | _ :: _ :: _ => Fails MultipleReturned
  end.

(** The price an item is saved with: [if not self.price: self.price =
    self.service.price], a price that is missing or zero being falsy. *)
Definition price_to_save (self : OrderItemInstance.t) (services : list Service.t)
    : Outcome Z :=
  match OrderItemInstance.price self with
  | None => service_price (OrderItemInstance.service self) services
  | Some p =>
      if p =? 0 then service_price (OrderItemInstance.service self) services
      else Done p
  end.

(** [OrderItem.save].  The parent order is the one the table holds under the
    key of the item's foreign key. *)
Definition OrderItem_save (now stamp : datetime) (self : OrderItemInstance.t)
    (sh : Shop) : Outcome OrderItemInstance.t * Shop :=
  match price_to_save self (shop_services sh) with
  | Fails e => (Fails e, sh)
  | Done p =>
      match Model_save_item p self sh with
      | (Fails e, sh') => (Fails e, sh')
      | (Done self, sh') =>
          match get_order (OrderItemInstance.order self) (shop_orders sh') with
          | Fails e => (Fails e, sh')
          | Done order =>
              match update_total_price now stamp (order_instance order) sh' with
              | (Fails e, sh'') => (Fails e, sh'')
              | (Done _, sh'') => (Done self, sh'')
              end
          end
      end
  end.

(** A shop with one order, two services and one item; and a second item,
    not yet saved, that names no price. *)
Definition sample_shop : Shop :=
  mkShop
    [ Order.mk 1 1 1 "in_progress" (datetime_of 2024 1 20 10 0 0) 20000 None ]
    [ OrderItem.mk 1 1 1 2 10000 ]
    [ Service.mk 1 10000; Service.mk 2 2500 ].

Definition new_item : OrderItemInstance.t :=
  OrderItemInstance.mk None 1 2 4 None.
(* ================================================================= *)
(** ** The quarter resolver *)

Section Resolver.

Lemma quarter_tag_cases (q : string) :
  In q quarter_tags \/
  (String.eqb q "Q1" = false /\ String.eqb q "Q2" = false
   /\ String.eqb q "Q3" = false /\ String.eqb q "Q4" = false).
Proof.
  unfold quarter_tags.
  destruct (String.eqb_spec q "Q1") as [->|H1]; [left; simpl; auto|].
  destruct (String.eqb_spec q "Q2") as [->|H2]; [left; simpl; auto|].
  destruct (String.eqb_spec q "Q3") as [->|H3]; [left; simpl; auto|].
  destruct (String.eqb_spec q "Q4") as [->|H4]; [left; simpl; auto 6|].
  right; auto.
Qed.

Lemma not_quarter_tag (q : string) :
  ~ In q quarter_tags ->
  String.eqb q "Q1" = false /\ String.eqb q "Q2" = false
  /\ String.eqb q "Q3" = false /\ String.eqb q "Q4" = false.
Proof.
  intros H. destruct (quarter_tag_cases q) as [Hin|Hn]; [contradiction|exact Hn].
Qed.

Lemma get_quarter_dates_invalid (q : string) (y : Z) :
  ~ In q quarter_tags -> get_quarter_dates q y = Raise InvalidQuarter.
Proof.
  intros H. destruct (not_quarter_tag q H) as (H1 & H2 & H3 & H4).
  unfold get_quarter_dates. now rewrite H1, H2, H3, H4.
Qed.

Lemma date_new_in_range (y m d : Z) :
  MINYEAR <= y <= MAXYEAR -> 1 <= m <= 12 -> 1 <= d <= days_in_month y m ->
  date_new y m d = Ok (mkdate y m d).
Proof.
  intros Hy Hm Hd. unfold date_new.
  replace ((MINYEAR <=? y) && (y <=? MAXYEAR)) with true
    by (symmetry; apply andb_true_iff; split; apply Z.leb_le; lia).
  replace ((1 <=? m) && (m <=? 12)) with true
    by (symmetry; apply andb_true_iff; split; apply Z.leb_le; lia).
  replace ((1 <=? d) && (d <=? days_in_month y m)) with true
    by (symmetry; apply andb_true_iff; split; apply Z.leb_le; lia).
  reflexivity.
Qed.

Lemma date_new_year_out_of_range (y m d : Z) :
  ~ (MINYEAR <= y <= MAXYEAR) -> date_new y m d = Raise DateOutOfRange.
Proof.
  intros Hy. unfold date_new.
  destruct ((MINYEAR <=? y) && (y <=? MAXYEAR)) eqn:E; [|reflexivity].
  apply andb_true_iff in E. destruct E as [E1 E2].
  apply Z.leb_le in E1, E2. lia.
Qed.

(** Whatever the year, the invalid-quarter error is raised exactly for the
    tags outside the four quarters. *)
Lemma get_quarter_dates_InvalidQuarter_iff (q : string) (y : Z) :
  get_quarter_dates q y = Raise InvalidQuarter <-> ~ In q quarter_tags.
Proof.
  split; [|apply get_quarter_dates_invalid].
  intros H Hin. unfold quarter_tags in Hin. simpl in Hin.
  assert (Hd : forall m d, date_new y m d <> Raise InvalidQuarter).
  { intros m d. unfold date_new.
    repeat match goal with |- context [if ?c then _ else _] => destruct c end;
      discriminate. }
  assert (Hb : forall m1 d1 m2 d2,
             bind_result (date_new y m1 d1) (fun s =>
             bind_result (date_new y m2 d2) (fun e => Ok (s, e)))
             <> Raise InvalidQuarter).
  { intros m1 d1 m2 d2.
    generalize (Hd m1 d1) (Hd m2 d2).
    destruct (date_new y m1 d1), (date_new y m2 d2); simpl; congruence. }
  destruct Hin as [<-|[<-|[<-|[<-|[]]]]]; exact (Hb _ _ _ _ H).
Qed.

(** With a valid tag and a year that [datetime.date] rejects, the date
    constructor raises before anything is returned. *)
Lemma get_quarter_dates_year_out_of_range (q : string) (y : Z) :
  In q quarter_tags -> ~ (MINYEAR <= y <= MAXYEAR) ->
  get_quarter_dates q y = Raise DateOutOfRange.
Proof.
  intros Hin Hy. unfold quarter_tags in Hin. simpl in Hin.
  destruct Hin as [<-|[<-|[<-|[<-|[]]]]];
    unfold get_quarter_dates; simpl;
    rewrite date_new_year_out_of_range by assumption; reflexivity.
Qed.

(** For a valid tag and a year in range the function returns the bounds the
    quarter table gives. *)
Lemma get_quarter_dates_valid (q : string) (y : Z) :
  In q quarter_tags -> MINYEAR <= y <= MAXYEAR ->
  get_quarter_dates q y = quarter_dates_spec q y
  /\ is_ok (get_quarter_dates q y) = true.
Proof.
  intros Hin Hy. unfold quarter_tags in Hin. simpl in Hin.
  destruct Hin as [<-|[<-|[<-|[<-|[]]]]];
    unfold get_quarter_dates, quarter_dates_spec; simpl;
    rewrite !date_new_in_range by (try assumption; unfold days_in_month; simpl; lia);
    split; reflexivity.
Qed.

(** C2 (as amended).  For every year that [datetime.date] accepts (1 to
    9999), [get_quarter_dates] returns (Jan 1, Mar 31) for Q1, (Apr 1, Jun 30)
    for Q2, (Jul 1, Sep 30) for Q3 and (Oct 1, Dec 31) for Q4, raises the
    invalid-quarter error for every other tag, and raises if and only if the
    tag is outside the four quarters. *)
Theorem get_quarter_dates_within_year_range (y : Z) :
  MINYEAR <= y <= MAXYEAR ->
  get_quarter_dates "Q1" y = Ok (mkdate y 1 1, mkdate y 3 31)
  /\ get_quarter_dates "Q2" y = Ok (mkdate y 4 1, mkdate y 6 30)
  /\ get_quarter_dates "Q3" y = Ok (mkdate y 7 1, mkdate y 9 30)
  /\ get_quarter_dates "Q4" y = Ok (mkdate y 10 1, mkdate y 12 31)
  /\ (forall q, ~ In q quarter_tags -> get_quarter_dates q y = Raise InvalidQuarter)
  /\ (forall q, is_ok (get_quarter_dates q y) = false <-> ~ In q quarter_tags).
Proof.
  intros Hy.
  assert (Q1 : get_quarter_dates "Q1" y = Ok (mkdate y 1 1, mkdate y 3 31)).
  { unfold get_quarter_dates; simpl.
    rewrite !date_new_in_range by (try assumption; unfold days_in_month; simpl; lia).
    reflexivity. }
  assert (Q2 : get_quarter_dates "Q2" y = Ok (mkdate y 4 1, mkdate y 6 30)).
  { unfold get_quarter_dates; simpl.
    rewrite !date_new_in_range by (try assumption; unfold days_in_month; simpl; lia).
    reflexivity. }
  assert (Q3 : get_quarter_dates "Q3" y = Ok (mkdate y 7 1, mkdate y 9 30)).
  { unfold get_quarter_dates; simpl.
    rewrite !date_new_in_range by (try assumption; unfold days_in_month; simpl; lia).
    reflexivity. }
  assert (Q4 : get_quarter_dates "Q4" y = Ok (mkdate y 10 1, mkdate y 12 31)).
  { unfold get_quarter_dates; simpl.
    rewrite !date_new_in_range by (try assumption; unfold days_in_month; simpl; lia).
    reflexivity. }
  repeat split; try assumption.
  - intros q. apply get_quarter_dates_invalid.
  - intros Hr Hin. unfold quarter_tags in Hin. simpl in Hin.
    destruct Hin as [<-|[<-|[<-|[<-|[]]]]];
      [rewrite Q1 in Hr|rewrite Q2 in Hr|rewrite Q3 in Hr|rewrite Q4 in Hr];
      discriminate.
  - intros Hn. now rewrite get_quarter_dates_invalid.
Qed.

Lemma get_quarter_dates_within_year_range_witness :
  MINYEAR <= 2024 <= MAXYEAR
  /\ get_quarter_dates "Q1" 2024 = Ok (mkdate 2024 1 1, mkdate 2024 3 31).
Proof.
  split; [unfold MINYEAR, MAXYEAR; lia|].
  apply (get_quarter_dates_within_year_range 2024).
  unfold MINYEAR, MAXYEAR; lia.
Defined.

(** C2 (counterexample).  For year 0 and the valid tag Q1 the function does
    not return the bounds of the quarter: the date constructor raises. *)
Lemma get_quarter_dates_year_0_raises :
  In "Q1" quarter_tags
  /\ get_quarter_dates "Q1" 0 = Raise DateOutOfRange
  /\ get_quarter_dates "Q1" 0 <> quarter_dates_spec "Q1" 0.
Proof.
  split; [simpl; auto|]. split; [reflexivity|discriminate].
Qed.

End Resolver.

(* ================================================================= *)
(** ** The resolved range of a report *)

Section DateOrder.

Lemma date_ltb_irrefl (a : date) : date_ltb a a = false.
Proof.
  unfold date_ltb. rewrite !Z.ltb_irrefl, !Z.eqb_refl. reflexivity.
Qed.

Lemma date_ltb_asym (a b : date) : date_ltb a b = true -> date_ltb b a = false.
Proof.
  destruct a as [ya ma da], b as [yb mb db]. unfold date_ltb; simpl.
  intros H.
  destruct (Z.ltb_spec ya yb), (Z.ltb_spec yb ya), (Z.eqb_spec ya yb),
    (Z.eqb_spec yb ya), (Z.ltb_spec ma mb), (Z.ltb_spec mb ma),
    (Z.eqb_spec ma mb), (Z.eqb_spec mb ma), (Z.ltb_spec da db),
    (Z.ltb_spec db da); simpl in *; try reflexivity; try discriminate; lia.
Qed.

(** The order on dates is total: two dates neither of which precedes the
    other are the same date. *)
Lemma date_ltb_total (a b : date) :
  date_ltb a b = false -> date_ltb b a = false -> a = b.
Proof.
  destruct a as [ya ma da], b as [yb mb db]. unfold date_ltb; simpl.
  intros H1 H2.
  destruct (Z.ltb_spec ya yb), (Z.ltb_spec yb ya), (Z.eqb_spec ya yb),
    (Z.eqb_spec yb ya), (Z.ltb_spec ma mb), (Z.ltb_spec mb ma),
    (Z.eqb_spec ma mb), (Z.eqb_spec mb ma), (Z.ltb_spec da db),
    (Z.ltb_spec db da); simpl in *; try discriminate; try lia.
  f_equal; lia.
Qed.

Lemma date_min_comm (a b : date) : date_min a b = date_min b a.
Proof.
  unfold date_min.
  destruct (date_ltb b a) eqn:Hba, (date_ltb a b) eqn:Hab; try reflexivity.
  - apply date_ltb_asym in Hba. congruence.
  - symmetry. now apply date_ltb_total.
Qed.

Lemma date_max_comm (a b : date) : date_max a b = date_max b a.
Proof.
  unfold date_max.
  destruct (date_ltb a b) eqn:Hab, (date_ltb b a) eqn:Hba; try reflexivity.
  - apply date_ltb_asym in Hab. congruence.
  - now apply date_ltb_total.
Qed.

(** [date_min a b] is one of its arguments and neither argument precedes
    it. *)
Lemma date_min_least (a b : date) :
  (date_min a b = a \/ date_min a b = b)
  /\ date_ltb a (date_min a b) = false /\ date_ltb b (date_min a b) = false.
Proof.
  unfold date_min. destruct (date_ltb b a) eqn:Hba.
  - repeat split; auto using date_ltb_asym, date_ltb_irrefl.
  - repeat split; auto using date_ltb_irrefl.
Qed.

(** [date_max a b] is one of its arguments and precedes neither. *)
Lemma date_max_greatest (a b : date) :
  (date_max a b = a \/ date_max a b = b)
  /\ date_ltb (date_max a b) a = false /\ date_ltb (date_max a b) b = false.
Proof.
  unfold date_max. destruct (date_ltb a b) eqn:Hab.
  - repeat split; auto using date_ltb_asym, date_ltb_irrefl.
  - repeat split; auto using date_ltb_irrefl.
Qed.

End DateOrder.

(** C3.  When both endpoints of a report resolve, the range of the report is
    the least of the two quarter starts and the greatest of the two quarter
    ends, and exchanging the two endpoints does not change it. *)
Theorem get_date_range_for_report_min_max
    (r : Report) (start_from end_from start_to end_to : date) :
  get_quarter_dates (quarter_from r) (year_from r) = Ok (start_from, end_from) ->
  get_quarter_dates (quarter_to r) (year_to r) = Ok (start_to, end_to) ->
  get_date_range_for_report r
    = Ok (date_min start_from start_to, date_max end_from end_to)
  /\ date_ltb start_from (date_min start_from start_to) = false
  /\ date_ltb start_to (date_min start_from start_to) = false
  /\ date_ltb (date_max end_from end_to) end_from = false
  /\ date_ltb (date_max end_from end_to) end_to = false
  /\ get_date_range_for_report (swap_endpoints r) = get_date_range_for_report r.
Proof.
  intros Hf Ht.
  assert (Hr : get_date_range_for_report r
               = Ok (date_min start_from start_to, date_max end_from end_to)).
  { unfold get_date_range_for_report. rewrite Hf, Ht. reflexivity. }
  split; [exact Hr|].
  destruct (date_min_least start_from start_to) as (_ & Hm1 & Hm2).
  destruct (date_max_greatest end_from end_to) as (_ & HM1 & HM2).
  repeat split; try assumption.
  rewrite Hr. unfold get_date_range_for_report, swap_endpoints; simpl.
  rewrite Ht, Hf; simpl.
  now rewrite date_min_comm, date_max_comm.
Qed.

Lemma get_date_range_for_report_min_max_witness :
  get_date_range_for_report (sample_report 1 "job" "Q4" 2024 "Q1" 2023)
  = Ok (mkdate 2023 1 1, mkdate 2024 12 31)
  /\ get_date_range_for_report (sample_report 1 "job" "Q1" 2023 "Q4" 2024)
     = Ok (mkdate 2023 1 1, mkdate 2024 12 31).
Proof.
  pose proof (get_date_range_for_report_min_max
                (sample_report 1 "job" "Q4" 2024 "Q1" 2023)
                (mkdate 2024 10 1) (mkdate 2024 12 31)
                (mkdate 2023 1 1) (mkdate 2023 3 31)
                eq_refl eq_refl) as (H & _ & _ & _ & _ & Hs).
  split; [rewrite H; reflexivity|].
  change (sample_report 1 "job" "Q1" 2023 "Q4" 2024)
    with (swap_endpoints (sample_report 1 "job" "Q4" 2024 "Q1" 2023)).
  rewrite Hs, H. reflexivity.
Defined.

(* ================================================================= *)
(** ** Report types outside the four choices *)

Lemma in_list_false (s : string) (l : list string) :
  (forall x, In x l -> s <> x) -> in_list s l = false.
Proof.
  unfold in_list. induction l as [|x l IH]; intros H; simpl; [reflexivity|].
  destruct (String.eqb_spec s x) as [->|Hne].
  - exfalso. apply (H x); simpl; auto.
  - simpl. apply IH. intros z Hz. apply H. simpl; auto.
Qed.

(** C10.  For a report whose type is none of job, order, user and combined,
    the orchestrator calls no aggregator: it returns normally and the
    database, hence each of the three result tables, is unchanged. *)
Theorem calculate_report_statistics_unknown_type (r : Report) (db : DB) :
  ~ In (report_type r) report_types ->
  calculate_report_statistics r db = (Ok tt, db).
Proof.
  intros H. unfold report_types in H. simpl in H.
  unfold calculate_report_statistics.
  rewrite !in_list_false.
  - reflexivity.
  - intros x [<-|[<-|[]]] E; apply H; rewrite E; auto 6.
  - intros x [<-|[<-|[]]] E; apply H; rewrite E; auto 6.
  - intros x [<-|[<-|[]]] E; apply H; rewrite E; auto 6.
Qed.

Lemma calculate_report_statistics_unknown_type_witness :
  calculate_report_statistics (sample_report 1 "audit" "Q1" 2024 "Q2" 2024) empty_db
  = (Ok tt, empty_db).
Proof.
  apply (calculate_report_statistics_unknown_type
           (sample_report 1 "audit" "Q1" 2024 "Q2" 2024) empty_db).
  unfold report_types; simpl. intros [E|[E|[E|[E|[]]]]]; discriminate E.
Defined.

(* ================================================================= *)
(** ** Result tables: [get_or_create] followed by the update *)

Section Tables.

Context {F : Type}.

Implicit Types (t : Table F) (r : Row F) (l : list (Row F)) (k : nat) (v : F).

Lemma replace_row_ids r l : map row_id (replace_row r l) = map row_id l.
Proof.
  unfold replace_row. rewrite map_map. apply map_ext_in. intros r0 _.
  destruct (Nat.eqb_spec (row_id r0) (row_id r)); congruence.
Qed.

Lemma replace_row_idem r l : replace_row r (replace_row r l) = replace_row r l.
Proof.
  unfold replace_row. rewrite map_map. apply map_ext_in. intros r0 _.
  destruct (Nat.eqb_spec (row_id r0) (row_id r)) as [E|E].
  - now rewrite Nat.eqb_refl.
  - apply Nat.eqb_neq in E. now rewrite E.
Qed.

Lemma replace_row_fresh r l :
  Forall (fun r0 => (row_id r0 < row_id r)%nat) l -> replace_row r l = l.
Proof.
  intros H. unfold replace_row. rewrite <- (map_id l) at 2. apply map_ext_in. intros r0 Hin.
  rewrite Forall_forall in H. specialize (H r0 Hin).
  destruct (Nat.eqb_spec (row_id r0) (row_id r)); [lia|reflexivity].
Qed.

(** Under unique primary keys, two rows of the table with the same key are
    the same row. *)
Lemma row_id_inj l r1 r2 :
  NoDup (map row_id l) -> In r1 l -> In r2 l -> row_id r1 = row_id r2 -> r1 = r2.
Proof.
  induction l as [|a l IH]; simpl; intros Hnd H1 H2 E; [contradiction|].
  apply NoDup_cons_iff in Hnd. destruct Hnd as [Hna Hnd].
  destruct H1 as [->|H1], H2 as [->|H2]; auto.
  - exfalso. apply Hna. rewrite E. now apply in_map.
  - exfalso. apply Hna. rewrite <- E. now apply in_map.
Qed.

(** Replacing a row of the table by a row with the same key and the same
    report leaves the report of every row as it was. *)
Lemma replace_row_reports r r' l :
  NoDup (map row_id l) -> In r l ->
  row_id r' = row_id r -> row_report r' = row_report r ->
  forall r0, In r0 l ->
    row_report (if Nat.eqb (row_id r0) (row_id r') then r' else r0) = row_report r0.
Proof.
  intros Hnd Hin Eid Erep r0 H0.
  destruct (Nat.eqb_spec (row_id r0) (row_id r')) as [E|E]; [|reflexivity].
  assert (r0 = r) by (apply (row_id_inj l); auto; congruence).
  subst r0. exact Erep.
Qed.

Lemma rows_of_report_replace k r r' t :
  NoDup (map row_id (rows t)) -> rows_of_report k t = [r] ->
  row_id r' = row_id r -> row_report r' = row_report r ->
  rows_of_report k (save_row r' t) = [r']
  /\ map row_report (rows (save_row r' t)) = map row_report (rows t).
Proof.
  intros Hnd Hk Eid Erep.
  assert (Hin : In r (rows t)).
  { assert (H : In r (rows_of_report k t)) by (rewrite Hk; simpl; auto).
    apply filter_In in H. tauto. }
  pose proof (replace_row_reports r r' (rows t) Hnd Hin Eid Erep) as Hrep.
  unfold rows_of_report, save_row, replace_row in *; simpl. split.
  - transitivity
      (map (fun r0 => if Nat.eqb (row_id r0) (row_id r') then r' else r0)
           (filter (fun r0 => Nat.eqb (row_report r0) k) (rows t))).
    + clear Hk Hin Hnd. induction (rows t) as [|a l IH]; simpl; [reflexivity|].
      simpl in Hrep. rewrite (Hrep a) by auto.
      destruct (Nat.eqb (row_report a) k); simpl; rewrite IH; auto.
    + rewrite Hk. simpl. rewrite <- Eid, Nat.eqb_refl. reflexivity.
  - rewrite map_map. apply map_ext_in. exact Hrep.
Qed.

Lemma rows_of_report_nil k t :
  rows_of_report k t = [] -> ~ In k (map row_report (rows t)).
Proof.
  unfold rows_of_report. intros H Hin.
  apply in_map_iff in Hin. destruct Hin as (r & E & Hin).
  assert (Hf : In r (filter (fun r0 => Nat.eqb (row_report r0) k) (rows t))).
  { apply filter_In. split; [assumption|]. now apply Nat.eqb_eq. }
  rewrite H in Hf. exact Hf.
Qed.

Lemma rows_of_report_app k t r :
  row_report r = k ->
  rows_of_report k (mkTable (rows t ++ [r]) (S (next_id t)))
  = (rows_of_report k t ++ [r])%list.
Proof.
  intros E. unfold rows_of_report; simpl. rewrite filter_app; simpl.
  now rewrite E, Nat.eqb_refl.
Qed.

(** What one run of the idiom does to a table that satisfies its integrity
    constraints.  When the report has no row, a row holding the values is
    appended under a fresh key; when it has one, that row keeps its key and
    its place and takes the values; when it has several, or when the report
    is unsaved, the table is untouched and the call raises. *)
Lemma upsert_cases (ok : option nat) v t :
  table_wf t ->
  match ok with
  | None => upsert ok v t = (Raise UnsavedRelatedObject, t)
  | Some k =>
      match rows_of_report k t with
      | [] =>
          let r := mkRow (next_id t) k v in
          upsert ok v t = (Ok r, mkTable (rows t ++ [r]) (S (next_id t)))
      | [old] =>
          let r := mkRow (row_id old) (row_report old) v in
          upsert ok v t = (Ok r, save_row r t)
          /\ rows_of_report k (save_row r t) = [r]
          /\ map row_id (rows (save_row r t)) = map row_id (rows t)
          /\ map row_report (rows (save_row r t)) = map row_report (rows t)
      | _ :: _ :: _ => upsert ok v t = (Raise MultipleObjectsReturned, t)
      end
  end.
Proof.
  intros [Hnd Hlt]. unfold upsert, get_or_create.
  destruct ok as [k|]; [|reflexivity].
  destruct (rows_of_report k t) as [|old [|r2 l]] eqn:Hk; simpl; try reflexivity.
  split; [reflexivity|].
  destruct (rows_of_report_replace k old (mkRow (row_id old) (row_report old) v) t
              Hnd Hk eq_refl eq_refl) as [H1 H2].
  repeat split; try assumption.
  unfold save_row; simpl. apply replace_row_ids.
Qed.

Lemma upsert_wf (ok : option nat) v t :
  table_wf t -> table_wf (snd (upsert ok v t)).
Proof.
  intros Hwf. pose proof (upsert_cases ok v t Hwf) as H.
  destruct Hwf as [Hnd Hlt].
  destruct ok as [k|]; [|rewrite H; split; assumption].
  destruct (rows_of_report k t) as [|old [|r2 l]] eqn:Hk.
  - simpl in H. rewrite H; simpl. split; simpl.
    + rewrite map_app; simpl. apply NoDup_app; auto.
      * constructor; [simpl; tauto|constructor].
      * intros a Ha [<-|[]]. apply in_map_iff in Ha.
        destruct Ha as (r0 & E & Hr0). rewrite Forall_forall in Hlt.
        specialize (Hlt r0 Hr0). lia.
    + apply Forall_app. split.
      * eapply Forall_impl; [|exact Hlt]. simpl; intros; lia.
      * constructor; [simpl; lia|constructor].
  - destruct H as (H & _ & Hids & _). rewrite H; simpl. split.
    + rewrite Hids. exact Hnd.
    + rewrite Forall_forall in *. intros r0 Hr0.
      assert (Hi : In (row_id r0) (map row_id (rows t)))
        by (rewrite <- Hids; now apply in_map).
      apply in_map_iff in Hi. destruct Hi as (r1 & E & Hr1).
      rewrite <- E. simpl. apply (Hlt r1 Hr1).
  - rewrite H; split; assumption.
Qed.

Lemma upsert_one_row (ok : option nat) v t :
  table_wf t -> one_row_per_report t -> one_row_per_report (snd (upsert ok v t)).
Proof.
  intros Hwf Hone. pose proof (upsert_cases ok v t Hwf) as H.
  unfold one_row_per_report in *.
  destruct ok as [k|]; [|now rewrite H].
  destruct (rows_of_report k t) as [|old [|r2 l]] eqn:Hk.
  - simpl in H. rewrite H; simpl. rewrite map_app; simpl.
    apply NoDup_app; auto.
    + constructor; [simpl; tauto|constructor].
    + intros a Ha [<-|[]]. now apply (rows_of_report_nil k t).
  - destruct H as (H & _ & _ & Hrep). rewrite H. cbn [snd]. now rewrite Hrep.
  - now rewrite H.
Qed.

(** Running the idiom again with the same values changes nothing: the second
    run finds the row of the first and assigns it the values it holds. *)
Lemma upsert_idem (ok : option nat) v t :
  table_wf t -> upsert ok v (snd (upsert ok v t)) = upsert ok v t.
Proof.
  intros Hwf.
  pose proof (upsert_cases ok v t Hwf) as H1.
  pose proof (upsert_cases ok v _ (upsert_wf ok v t Hwf)) as H2.
  destruct Hwf as [Hnd Hlt].
  destruct ok as [k|]; [|reflexivity].
  destruct (rows_of_report k t) as [|old [|r2 l]] eqn:Hk.
  - cbv beta iota zeta in H1. rewrite H1 in H2 |- *. cbn [snd] in *.
    rewrite rows_of_report_app in H2 by reflexivity.
    rewrite Hk in H2. cbn [app] in H2. cbv zeta in H2. cbn [row_id row_report] in H2.
    destruct H2 as (H2 & _). rewrite H2. f_equal.
    unfold save_row, replace_row; cbn [rows next_id row_id].
    rewrite map_app; cbn [map row_id]. rewrite Nat.eqb_refl.
    pose proof (replace_row_fresh (mkRow (next_id t) k v) (rows t) Hlt) as E.
    unfold replace_row in E. cbn [row_id] in E. rewrite E. reflexivity.
  - cbv beta iota zeta in H1. destruct H1 as (H1 & Hk1 & _).
    rewrite H1 in H2 |- *. cbn [snd] in *.
    rewrite Hk1 in H2. cbv zeta in H2. cbn [row_id row_report] in H2.
    destruct H2 as (H2 & _). rewrite H2. f_equal.
    unfold save_row; cbn [rows next_id]. f_equal. apply replace_row_idem.
  - cbv beta iota zeta in H1. rewrite H1 in H2 |- *. cbn [snd] in *.
    rewrite Hk in H2. exact H2.
Qed.

End Tables.

(* ================================================================= *)
(** ** The aggregators as steps on their result table *)

Section Steps.

Context {F : Type}.
Variables (r : Report) (values : date -> date -> F).

Lemma table_step_wf (t : Table F) :
  table_wf t -> table_wf (snd (table_step r values t)).
Proof.
  intros H. unfold table_step.
  destruct (get_date_range_for_report r) as [[s e]|err]; [|exact H].
  now apply upsert_wf.
Qed.

Lemma table_step_one_row (t : Table F) :
  table_wf t -> one_row_per_report t ->
  one_row_per_report (snd (table_step r values t)).
Proof.
  intros H H1. unfold table_step.
  destruct (get_date_range_for_report r) as [[s e]|err]; [|exact H1].
  now apply upsert_one_row.
Qed.

Lemma table_step_idem (t : Table F) :
  table_wf t ->
  table_step r values (snd (table_step r values t)) = table_step r values t.
Proof.
  intros H. unfold table_step.
  destruct (get_date_range_for_report r) as [[s e]|err]; [|reflexivity].
  now apply upsert_idem.
Qed.

Lemma table_step_again (t t1 : Table F) (res : Result (Row F)) :
  table_wf t -> table_step r values t = (res, t1) ->
  table_step r values t1 = (res, t1) /\ table_wf t1.
Proof.
  intros H E. split.
  - pose proof (table_step_idem t H) as Hi. now rewrite E in Hi.
  - pose proof (table_step_wf t H) as Hw. now rewrite E in Hw.
Qed.

End Steps.

Lemma set_job_results_same (db : DB) : set_job_results (job_results db) db = db.
Proof. now destruct db. Qed.

Lemma set_order_results_same (db : DB) : set_order_results (order_results db) db = db.
Proof. now destruct db. Qed.

Lemma set_user_results_same (db : DB) : set_user_results (user_results db) db = db.
Proof. now destruct db. Qed.

Lemma calculate_job_statistics_step (r : Report) (db : DB) :
  calculate_job_statistics r db
  = (fst (table_step r (job_values db) (job_results db)),
     set_job_results (snd (table_step r (job_values db) (job_results db))) db).
Proof.
  unfold calculate_job_statistics, table_step, job_values, bind, lift, gets,
    on_job_results, upsert, saving, ret.
  destruct (get_date_range_for_report r) as [[s e]|err]; simpl;
    [|now rewrite set_job_results_same].
  destruct (get_or_create (pk r) (job_statistics s e (jobs db)) (job_results db))
    as [[[row created]|e'] t']; [destruct created|]; reflexivity.
Qed.

Lemma calculate_order_statistics_step (r : Report) (db : DB) :
  calculate_order_statistics r db
  = (fst (table_step r (order_values db) (order_results db)),
     set_order_results (snd (table_step r (order_values db) (order_results db))) db).
Proof.
  unfold calculate_order_statistics, table_step, order_values, bind, lift, gets,
    on_order_results, upsert, saving, ret.
  destruct (get_date_range_for_report r) as [[s e]|err]; simpl;
    [|now rewrite set_order_results_same].
  destruct (get_or_create (pk r) (order_statistics s e (orders db)) (order_results db))
    as [[[row created]|e'] t']; [destruct created|]; reflexivity.
Qed.

Lemma calculate_user_statistics_step (r : Report) (db : DB) :
  calculate_user_statistics r db
  = (fst (table_step r (user_values db) (user_results db)),
     set_user_results (snd (table_step r (user_values db) (user_results db))) db).
Proof.
  unfold calculate_user_statistics, table_step, user_values, bind, lift, gets,
    on_user_results, upsert, saving, ret.
  destruct (get_date_range_for_report r) as [[s e]|err]; simpl;
    [|now rewrite set_user_results_same].
  destruct (get_or_create (pk r)
              (user_statistics s e (users db) (customers db) (account_managers db)
                 (orders db)) (user_results db))
    as [[[row created]|e'] t']; [destruct created|]; reflexivity.
Qed.

(* ================================================================= *)
(** ** Recomputation is idempotent *)

Section Gated.

Context {F : Type}.
Variables (g : bool) (r : Report) (values : date -> date -> F).

Lemma gated_step_again (t t1 : Table F) (res : Result unit) :
  table_wf t -> gated_step g (table_step r values) t = (res, t1) ->
  gated_step g (table_step r values) t1 = (res, t1) /\ table_wf t1.
Proof.
  unfold gated_step. intros Hwf E. destruct g.
  - destruct (table_step r values t) as [res0 t0] eqn:E0.
    destruct (table_step_again r values t t0 res0 Hwf E0) as [E1 Hwf1].
    destruct res0; inversion E; subst; rewrite E1; auto.
  - inversion E; subst; auto.
Qed.

End Gated.

Lemma gated_job (g : bool) (r : Report) (db : DB) :
  (if g then calculate_job_statistics r ;;; ret tt else ret tt)%stat db
  = (fst (gated_step g (table_step r (job_values db)) (job_results db)),
     set_job_results
       (snd (gated_step g (table_step r (job_values db)) (job_results db))) db).
Proof.
  unfold gated_step, bind, ret. destruct g; [|cbn [fst snd]; now rewrite set_job_results_same].
  rewrite calculate_job_statistics_step.
  destruct (table_step r (job_values db) (job_results db)) as [[row|e] t];
    reflexivity.
Qed.

Lemma gated_order (g : bool) (r : Report) (db : DB) :
  (if g then calculate_order_statistics r ;;; ret tt else ret tt)%stat db
  = (fst (gated_step g (table_step r (order_values db)) (order_results db)),
     set_order_results
       (snd (gated_step g (table_step r (order_values db)) (order_results db))) db).
Proof.
  unfold gated_step, bind, ret. destruct g; [|cbn [fst snd]; now rewrite set_order_results_same].
  rewrite calculate_order_statistics_step.
  destruct (table_step r (order_values db) (order_results db)) as [[row|e] t];
    reflexivity.
Qed.

Lemma gated_user (g : bool) (r : Report) (db : DB) :
  (if g then calculate_user_statistics r ;;; ret tt else ret tt)%stat db
  = (fst (gated_step g (table_step r (user_values db)) (user_results db)),
     set_user_results
       (snd (gated_step g (table_step r (user_values db)) (user_results db))) db).
Proof.
  unfold gated_step, bind, ret. destruct g; [|cbn [fst snd]; now rewrite set_user_results_same].
  rewrite calculate_user_statistics_step.
  destruct (table_step r (user_values db) (user_results db)) as [[row|e] t];
    reflexivity.
Qed.

Lemma calculate_report_statistics_steps (r : Report) (db : DB) :
  calculate_report_statistics r db = report_steps r db.
Proof.
  unfold calculate_report_statistics, report_steps.
  unfold bind at 1. rewrite gated_job.
  destruct (gated_step (in_list (report_type r) ["job"; "combined"])
              (table_step r (job_values db)) (job_results db)) as [[[]|e] tj];
    cbn [fst snd]; [|reflexivity].
  unfold bind at 1. rewrite gated_order.
  cbn [order_results set_job_results].
  change (order_values (set_job_results tj db)) with (order_values db).
  destruct (gated_step (in_list (report_type r) ["order"; "combined"])
              (table_step r (order_values db)) (order_results db)) as [[[]|e] to];
    cbn [fst snd]; [|reflexivity].
  rewrite gated_user.
  cbn [user_results set_job_results set_order_results].
  change (user_values (set_order_results to (set_job_results tj db)))
    with (user_values db).
  destruct (gated_step (in_list (report_type r) ["user"; "combined"])
              (table_step r (user_values db)) (user_results db)) as [ru tu];
    reflexivity.
Qed.

(** C1.  On a database whose result tables have unique primary keys, a
    second run of [calculate_report_statistics] over the same entity data
    ends with the same outcome and leaves every table exactly as the first
    run left it: the same rows with the same field values, and no new row. *)
Theorem calculate_report_statistics_idempotent
    (r : Report) (db db1 : DB) (res : Result unit) :
  results_wf db ->
  calculate_report_statistics r db = (res, db1) ->
  calculate_report_statistics r db1 = (res, db1).
Proof.
  intros (Hj & Ho & Hu).
  rewrite !calculate_report_statistics_steps. unfold report_steps.
  set (gj := in_list (report_type r) ["job"; "combined"]).
  set (go := in_list (report_type r) ["order"; "combined"]).
  set (gu := in_list (report_type r) ["user"; "combined"]).
  destruct (gated_step gj (table_step r (job_values db)) (job_results db))
    as [rj tj] eqn:Ej.
  destruct (gated_step_again gj r (job_values db) _ _ _ Hj Ej) as [Ej1 Hj1].
  destruct rj as [[]|e].
  2:{ intros E; inversion E; subst. cbn [job_results set_job_results].
      change (job_values (set_job_results tj db)) with (job_values db).
      rewrite Ej1. reflexivity. }
  destruct (gated_step go (table_step r (order_values db)) (order_results db))
    as [ro to] eqn:Eo.
  destruct (gated_step_again go r (order_values db) _ _ _ Ho Eo) as [Eo1 Ho1].
  destruct ro as [[]|e].
  2:{ intros E; inversion E; subst.
      cbn [job_results order_results set_job_results set_order_results].
      change (job_values (set_order_results to (set_job_results tj db)))
        with (job_values db).
      change (order_values (set_order_results to (set_job_results tj db)))
        with (order_values db).
      rewrite Ej1, Eo1. reflexivity. }
  destruct (gated_step gu (table_step r (user_values db)) (user_results db))
    as [ru tu] eqn:Eu.
  destruct (gated_step_again gu r (user_values db) _ _ _ Hu Eu) as [Eu1 Hu1].
  intros E; inversion E; subst.
  cbn [job_results order_results user_results set_job_results set_order_results
       set_user_results].
  change (job_values
            (set_user_results tu (set_order_results to (set_job_results tj db))))
    with (job_values db).
  change (order_values
            (set_user_results tu (set_order_results to (set_job_results tj db))))
    with (order_values db).
  change (user_values
            (set_user_results tu (set_order_results to (set_job_results tj db))))
    with (user_values db).
  rewrite Ej1, Eo1, Eu1. reflexivity.
Qed.

(* ================================================================= *)
(** ** At most one result row per report *)

Section OneRow.

Context {F : Type}.

Lemma one_row_filter (k : nat) (t : Table F) :
  one_row_per_report t ->
  rows_of_report k t = [] \/ exists old, rows_of_report k t = [old].
Proof.
  unfold one_row_per_report, rows_of_report.
  induction (rows t) as [|a l IH]; simpl; intros Hnd; [now left|].
  apply NoDup_cons_iff in Hnd. destruct Hnd as [Hna Hnd].
  destruct (Nat.eqb_spec (row_report a) k) as [E|E]; [|auto].
  right. exists a. f_equal.
  destruct (filter (fun r => Nat.eqb (row_report r) k) l) as [|x l'] eqn:Hf;
    [reflexivity|].
  exfalso. apply Hna.
  assert (Hx : In x (filter (fun r => Nat.eqb (row_report r) k) l))
    by (rewrite Hf; simpl; auto).
  apply filter_In in Hx. destruct Hx as [Hx Ek]. apply Nat.eqb_eq in Ek.
  rewrite E, <- Ek. now apply in_map.
Qed.

Lemma upsert_upserted (k : nat) (v : F) (t : Table F) :
  table_wf t -> one_row_per_report t ->
  exists row t', upsert (Some k) v t = (Ok row, t') /\ upserted k v t t' row.
Proof.
  intros Hwf Hone.
  pose proof (upsert_cases (Some k) v t Hwf) as H.
  pose proof (upsert_wf (Some k) v t Hwf) as Hwf'.
  pose proof (upsert_one_row (Some k) v t Hwf Hone) as Hone'.
  cbv beta iota in H.
  destruct (one_row_filter k t Hone) as [Hk|[old Hk]]; rewrite Hk in H.
  - cbv zeta in H. rewrite H in Hwf', Hone'. cbn [snd] in *.
    eexists _, _. split; [exact H|].
    unfold upserted. rewrite Hk.
    split; [reflexivity|]. split; [reflexivity|].
    split; [rewrite rows_of_report_app by reflexivity; now rewrite Hk|].
    split; [exact Hone'|]. split; [exact Hwf'|]. reflexivity.
  - cbv zeta in H. destruct H as (H & Hk' & Hids & _).
    rewrite H in Hwf', Hone'. cbn [snd] in *.
    assert (Ek : row_report old = k).
    { assert (Hin : In old (rows_of_report k t)) by (rewrite Hk; simpl; auto).
      apply filter_In in Hin. now apply Nat.eqb_eq. }
    eexists _, _. split; [exact H|].
    unfold upserted. rewrite Hk.
    split; [exact Ek|]. split; [reflexivity|]. split; [exact Hk'|].
    split; [exact Hone'|]. split; [exact Hwf'|].
    split; [reflexivity|]. split; [reflexivity|].
    rewrite <- (length_map row_id), Hids. apply length_map.
Qed.

End OneRow.

(** C8.  On tables that satisfy the key constraints, each aggregator run for
    a saved report with a valid range returns normally and leaves exactly one
    row of its kind for that report: it creates the row when the report had
    none, and otherwise overwrites the fields of the existing row in place,
    under the same key and without adding a row; no table ever holds two rows
    of one report, and each aggregator touches only its own table. *)
Theorem aggregators_keep_one_row_per_report
    (r : Report) (k : nat) (start_date end_date : date) (db : DB) :
  pk r = Some k ->
  get_date_range_for_report r = Ok (start_date, end_date) ->
  results_wf db ->
  one_row_per_report (job_results db) ->
  one_row_per_report (order_results db) ->
  one_row_per_report (user_results db) ->
  (exists row t',
      calculate_job_statistics r db = (Ok row, set_job_results t' db)
      /\ upserted k (job_values db start_date end_date) (job_results db) t' row)
  /\ (exists row t',
      calculate_order_statistics r db = (Ok row, set_order_results t' db)
      /\ upserted k (order_values db start_date end_date) (order_results db) t' row)
  /\ (exists row t',
      calculate_user_statistics r db = (Ok row, set_user_results t' db)
      /\ upserted k (user_values db start_date end_date) (user_results db) t' row).
Proof.
  intros Hpk Hrange (Hj & Ho & Hu) Oj Oo Ou.
  repeat split.
  - destruct (upsert_upserted k (job_values db start_date end_date) _ Hj Oj)
      as (row & t' & E & H).
    exists row, t'. split; [|exact H].
    rewrite calculate_job_statistics_step. unfold table_step.
    now rewrite Hrange, Hpk, E.
  - destruct (upsert_upserted k (order_values db start_date end_date) _ Ho Oo)
      as (row & t' & E & H).
    exists row, t'. split; [|exact H].
    rewrite calculate_order_statistics_step. unfold table_step.
    now rewrite Hrange, Hpk, E.
  - destruct (upsert_upserted k (user_values db start_date end_date) _ Hu Ou)
      as (row & t' & E & H).
    exists row, t'. split; [|exact H].
    rewrite calculate_user_statistics_step. unfold table_step.
    now rewrite Hrange, Hpk, E.
Qed.

(* ================================================================= *)
(** ** The constraints are kept by every run *)

Lemma gated_step_keeps {F} (g : bool) (r : Report) (values : date -> date -> F)
    (t : Table F) :
  table_wf t -> one_row_per_report t ->
  table_wf (snd (gated_step g (table_step r values) t))
  /\ one_row_per_report (snd (gated_step g (table_step r values) t)).
Proof.
  intros Hwf Hone. unfold gated_step. destruct g; [|auto].
  pose proof (table_step_wf r values t Hwf) as H1.
  pose proof (table_step_one_row r values t Hwf Hone) as H2.
  destruct (table_step r values t) as [[row|e] t']; auto.
Qed.

(** Unique keys and one row per report hold after a recomputation whenever
    they held before it; they hold on empty tables, hence in every state the
    orchestrator can reach. *)
Lemma calculate_report_statistics_keeps_constraints (r : Report) (db : DB) :
  db_ok db -> db_ok (snd (calculate_report_statistics r db)).
Proof.
  intros ((Hj & Ho & Hu) & Oj & Oo & Ou).
  rewrite calculate_report_statistics_steps. unfold report_steps.
  pose proof (gated_step_keeps (in_list (report_type r) ["job"; "combined"]) r
                (job_values db) _ Hj Oj) as Kj.
  pose proof (gated_step_keeps (in_list (report_type r) ["order"; "combined"]) r
                (order_values db) _ Ho Oo) as Ko.
  pose proof (gated_step_keeps (in_list (report_type r) ["user"; "combined"]) r
                (user_values db) _ Hu Ou) as Ku.
  destruct (gated_step _ (table_step r (job_values db)) _) as [[[]|e] tj];
    [|unfold db_ok, results_wf; simpl in *; tauto].
  destruct (gated_step _ (table_step r (order_values db)) _) as [[[]|e] to];
    [|unfold db_ok, results_wf; simpl in *; tauto].
  destruct (gated_step _ (table_step r (user_values db)) _) as [ru tu].
  unfold db_ok, results_wf; simpl in *; tauto.
Qed.

(* ================================================================= *)
(** ** What a successful run stores *)

(** A database whose result tables are empty satisfies the constraints. *)
Lemma empty_results_ok (db : DB) :
  job_results db = empty_table -> order_results db = empty_table ->
  user_results db = empty_table -> db_ok db.
Proof.
  intros Ej Eo Eu.
  unfold db_ok, results_wf, table_wf, one_row_per_report.
  rewrite Ej, Eo, Eu; simpl. repeat split; constructor.
Qed.


(** A run of the job aggregator for a saved report with a valid range
    returns the row of the report, which is then the only row of the report
    and holds the values computed from the jobs. *)
Lemma calculate_job_statistics_stores
    (r : Report) (k : nat) (start_date end_date : date) (db : DB) :
  pk r = Some k ->
  get_date_range_for_report r = Ok (start_date, end_date) ->
  db_ok db ->
  exists row db',
    calculate_job_statistics r db = (Ok row, db')
    /\ rows_of_report k (job_results db') = [row]
    /\ row_fields row = job_statistics start_date end_date (jobs db).
Proof.
  intros Hpk Hrange ((Hj & _ & _) & Oj & _ & _).
  destruct (upsert_upserted k (job_values db start_date end_date) _ Hj Oj)
    as (row & t' & E & (_ & Hf & Hk & _)).
  exists row, (set_job_results t' db). split; [|split; assumption].
  rewrite calculate_job_statistics_step. unfold table_step.
  now rewrite Hrange, Hpk, E.
Qed.

Lemma calculate_order_statistics_stores
    (r : Report) (k : nat) (start_date end_date : date) (db : DB) :
  pk r = Some k ->
  get_date_range_for_report r = Ok (start_date, end_date) ->
  db_ok db ->
  exists row db',
    calculate_order_statistics r db = (Ok row, db')
    /\ rows_of_report k (order_results db') = [row]
    /\ row_fields row = order_statistics start_date end_date (orders db).
Proof.
  intros Hpk Hrange ((_ & Ho & _) & _ & Oo & _).
  destruct (upsert_upserted k (order_values db start_date end_date) _ Ho Oo)
    as (row & t' & E & (_ & Hf & Hk & _)).
  exists row, (set_order_results t' db). split; [|split; assumption].
  rewrite calculate_order_statistics_step. unfold table_step.
  now rewrite Hrange, Hpk, E.
Qed.


(* ================================================================= *)
(** ** Top performers: the first greatest count wins *)

Section FirstGreatest.

(** A loop that keeps an accumulator and replaces it by [mk x] exactly when
    the count of [x] is strictly greater than the count it holds. *)
Variables (A Acc : Type) (cnt : A -> Z) (held : Acc -> Z) (mk : A -> Acc)
          (step : Acc -> A -> Acc).
Hypothesis step_eq :
  forall acc x, step acc x = if held acc <? cnt x then mk x else acc.
Hypothesis held_mk : forall x, held (mk x) = cnt x.

Lemma fold_first_greatest (l : list A) (acc : Acc) :
  (Forall (fun x => cnt x <= held acc) l /\ fold_left step l acc = acc)
  \/ (exists pre m post,
        l = (pre ++ m :: post)%list
        /\ held acc < cnt m
        /\ Forall (fun x => cnt x < cnt m) pre
        /\ Forall (fun x => cnt x <= cnt m) post
        /\ fold_left step l acc = mk m).
Proof.
  revert acc. induction l as [|x l IH]; intros acc; simpl.
  - left. split; [constructor|reflexivity].
  - rewrite step_eq. destruct (Z.ltb_spec (held acc) (cnt x)) as [Hlt|Hge].
    + right. destruct (IH (mk x)) as [[Hall E]|(pre & m & post & El & Hm & Hpre & Hpost & E)].
      * exists [], x, l. rewrite held_mk in Hall.
        split; [reflexivity|]. split; [exact Hlt|].
        split; [constructor|]. split; [exact Hall|exact E].
      * rewrite held_mk in Hm.
        exists (x :: pre), m, post. subst l.
        split; [reflexivity|]. split; [lia|].
        split; [constructor; [exact Hm|exact Hpre]|].
        split; [exact Hpost|exact E].
    + destruct (IH acc) as [[Hall E]|(pre & m & post & El & Hm & Hpre & Hpost & E)].
      * left. split; [constructor; assumption|exact E].
      * right. exists (x :: pre), m, post. subst l.
        split; [reflexivity|]. split; [exact Hm|].
        split; [constructor; [lia|exact Hpre]|].
        split; [exact Hpost|exact E].
Qed.

End FirstGreatest.

Lemma count_nonneg {A} (l : list A) : 0 <= count l.
Proof. unfold count. lia. Qed.

Lemma or_0_Z_Sum (l : list Z) : or_0_Z (Sum l) = fold_right Z.add 0 l.
Proof.
  destruct l as [|a l]; [reflexivity|].
  unfold Sum, or_0_Z.
  destruct (Z.eqb_spec (fold_right Z.add 0 (a :: l)) 0) as [E|E]; congruence.
Qed.

Lemma manager_loop_selected (start_date end_date : date)
    (all_orders : list Order.t) (managers : list AccountManager.t) :
  let cnt := manager_count start_date end_date all_orders in
  (Forall (fun m => cnt m = 0) managers
   /\ fold_left (manager_step start_date end_date all_orders) managers (None, 0, 0)
      = (None, 0, 0))
  \/ (exists pre m post,
        managers = (pre ++ m :: post)%list
        /\ 0 < cnt m
        /\ Forall (fun x => cnt x < cnt m) pre
        /\ Forall (fun x => cnt x <= cnt m) post
        /\ fold_left (manager_step start_date end_date all_orders) managers (None, 0, 0)
           = (Some (AccountManager.user m), cnt m,
              manager_revenue start_date end_date all_orders m)).
Proof.
  intros cnt.
  destruct (fold_first_greatest AccountManager.t (option nat * Z * Z) cnt
              (fun acc => snd (fst acc))
              (fun m => (Some (AccountManager.user m), cnt m,
                         manager_revenue start_date end_date all_orders m))
              (manager_step start_date end_date all_orders))
    with (l := managers) (acc := (@None nat, 0, 0))
    as [[Hall E]|H].
  - intros [[top c] rv] x. unfold manager_step, cnt, manager_count, manager_revenue.
    cbn [fst snd]. now rewrite or_0_Z_Sum.
  - reflexivity.
  - left. split; [|exact E].
    eapply Forall_impl; [|exact Hall]. cbn [fst snd]. intros m Hm.
    pose proof (count_nonneg (manager_orders_in start_date end_date all_orders m)).
    unfold cnt, manager_count in *. lia.
  - right. exact H.
Qed.











(* ================================================================= *)
(** ** Averages of the job aggregator *)

Lemma filter_filter_andb {A} (f g : A -> bool) (l : list A) :
  filter g (filter f l) = filter (fun x => f x && g x) l.
Proof.
  induction l as [|a l IH]; simpl; [reflexivity|].
  destruct (f a); simpl; [destruct (g a)|]; now rewrite IH.
Qed.

Lemma completed_jobs_of_type_eq (start_date end_date : date) (type : string)
    (all_jobs : list Job.t) :
  filter (fun j => String.eqb (Job.job_type j) type)
    (filter (fun j => String.eqb (Job.state j) "completed")
       (filter (fun j => in_period start_date end_date (Job.starting_date j))
          all_jobs))
  = completed_jobs_of_type start_date end_date type all_jobs.
Proof.
  unfold completed_jobs_of_type.
  rewrite (filter_filter_andb
             (fun j => in_period start_date end_date (Job.starting_date j))
             (fun j => String.eqb (Job.state j) "completed")).
  now rewrite filter_filter_andb.
Qed.

(** [Avg(...) or 0] over a column: zero when the column holds no value,
    otherwise a number equal to the mean of the values it holds. *)
Lemma or_0_Avg (col : list (option Q)) :
  match non_null col with
  | [] => or_0 (Avg col) = 0%Q
  | (_ :: _) as xs => is_mean xs (or_0 (Avg col))
  end.
Proof.
  unfold Avg, or_0. destruct (non_null col) as [|x xs]; cbv beta iota;
    [reflexivity|].
  split; [discriminate|].
  destruct (Qeq_bool (Qsum (x :: xs) / inject_Z (count (x :: xs))) 0) eqn:E.
  - apply Qeq_bool_eq in E. now rewrite E.
  - reflexivity.
Qed.

Lemma job_statistics_averages (start_date end_date : date) (all_jobs : list Job.t) :
  avg_completion_stored
    (completed_jobs_of_type start_date end_date "regular" all_jobs)
    (avg_completion_time_regular (job_statistics start_date end_date all_jobs))
  /\ avg_completion_stored
       (completed_jobs_of_type start_date end_date "wafer_run" all_jobs)
       (avg_completion_time_wafer_run (job_statistics start_date end_date all_jobs)).
Proof.
  unfold job_statistics, avg_completion_stored.
  cbn [avg_completion_time_regular avg_completion_time_wafer_run].
  rewrite !completed_jobs_of_type_eq.
  split.
  - pose proof (or_0_Avg (map Job.completion_time
                  (completed_jobs_of_type start_date end_date "regular" all_jobs))) as H.
    destruct (non_null _) as [|x xs]; [now rewrite H|].
    eexists; split; [reflexivity|exact H].
  - pose proof (or_0_Avg (map Job.completion_time
                  (completed_jobs_of_type start_date end_date "wafer_run" all_jobs))) as H.
    destruct (non_null _) as [|x xs]; [now rewrite H|].
    eexists; split; [reflexivity|exact H].
Qed.

(** C6 (as amended).  A run of the job aggregator stores, for each of the
    types regular and wafer_run: exactly 0 (not null) when no in-range
    completed job of the type has a completion time set, and otherwise the
    mean of the completion times that are set among those jobs. *)
Theorem calculate_job_statistics_averages
    (r : Report) (k : nat) (start_date end_date : date) (db : DB) :
  pk r = Some k ->
  get_date_range_for_report r = Ok (start_date, end_date) ->
  db_ok db ->
  exists row db',
    calculate_job_statistics r db = (Ok row, db')
    /\ rows_of_report k (job_results db') = [row]
    /\ avg_completion_stored
         (completed_jobs_of_type start_date end_date "regular" (jobs db))
         (avg_completion_time_regular (row_fields row))
    /\ avg_completion_stored
         (completed_jobs_of_type start_date end_date "wafer_run" (jobs db))
         (avg_completion_time_wafer_run (row_fields row)).
Proof.
  intros Hpk Hrange Hok.
  destruct (calculate_job_statistics_stores r k start_date end_date db Hpk Hrange Hok)
    as (row & db' & E & Hk & Hf).
  exists row, db'. split; [exact E|]. split; [exact Hk|].
  rewrite Hf. apply job_statistics_averages.
Qed.

(** In particular, when no in-range completed job of the type exists at
    all, the average computed for the type is exactly 0. *)
Lemma job_statistics_no_completed_job (start_date end_date : date)
    (all_jobs : list Job.t) :
  (completed_jobs_of_type start_date end_date "regular" all_jobs = [] ->
   avg_completion_time_regular (job_statistics start_date end_date all_jobs)
   = Some 0%Q)
  /\ (completed_jobs_of_type start_date end_date "wafer_run" all_jobs = [] ->
      avg_completion_time_wafer_run (job_statistics start_date end_date all_jobs)
      = Some 0%Q).
Proof.
  destruct (job_statistics_averages start_date end_date all_jobs) as [Hr Hw].
  split; intros E; [rewrite E in Hr; exact Hr|rewrite E in Hw; exact Hw].
Qed.

(** C6 (counterexample).  With one in-range completed regular job whose
    completion time is unset, a job qualifies, yet the stored average is 0 and
    is the mean of no completion time. *)
Lemma avg_completion_not_as_specified :
  let start_date := mkdate 2024 1 1 in
  let end_date := mkdate 2024 3 31 in
  let all_jobs := [job_without_completion_time] in
  completed_jobs_of_type start_date end_date "regular" all_jobs
    = [job_without_completion_time]
  /\ avg_completion_time_regular (job_statistics start_date end_date all_jobs)
     = Some 0%Q
  /\ ~ avg_completion_as_specified
         (completed_jobs_of_type start_date end_date "regular" all_jobs)
         (avg_completion_time_regular (job_statistics start_date end_date all_jobs)).
Proof.
  cbv zeta. split; [reflexivity|]. split; [reflexivity|].
  change (completed_jobs_of_type (mkdate 2024 1 1) (mkdate 2024 3 31) "regular"
            [job_without_completion_time])
    with [job_without_completion_time].
  unfold avg_completion_as_specified.
  intros (m & _ & Hne & _). apply Hne. reflexivity.
Qed.

(* ================================================================= *)
(** ** Processing time of the order aggregator *)

Lemma completed_orders_in_eq (start_date end_date : date) (all_orders : list Order.t) :
  filter (fun o => String.eqb (Order.status o) "completed"
                   && is_some (Order.completed_at o))
    (filter (fun o => in_period start_date end_date (Order.created_at o)) all_orders)
  = completed_orders_in start_date end_date all_orders.
Proof.
  unfold completed_orders_in. now rewrite filter_filter_andb.
Qed.

(** What the order aggregator stores as average processing time: nothing
    when no in-range order is completed with a completion timestamp, and
    also nothing when the mean duration of those orders is zero; otherwise
    that mean, in days. *)
Lemma order_statistics_avg_processing_time
    (start_date end_date : date) (all_orders : list Order.t) :
  avg_processing_time (order_statistics start_date end_date all_orders)
  = match Avg (map processing_time
                 (completed_orders_in start_date end_date all_orders)) with
    | Some v => if Qeq_bool v 0 then None else Some (micros_to_days v)
    | None => None
    end.
Proof.
  unfold order_statistics. cbn [avg_processing_time].
  rewrite completed_orders_in_eq.
  destruct (completed_orders_in start_date end_date all_orders) as [|o l];
    [reflexivity|].
  unfold truthy.
  destruct (Avg (map processing_time (o :: l))) as [v|]; [|reflexivity].
  destruct (Qeq_bool v 0); reflexivity.
Qed.

(** C5 (the code at the failing input).  With a single in-range order,
    completed, whose completion timestamp equals its creation timestamp, one
    order qualifies and its mean processing time is 0 days, yet the run stores
    the average processing time as unset. *)
Theorem avg_processing_time_unset_for_zero_mean :
  let db := db_with_orders [order_completed_at_once] in
  completed_orders_in (mkdate 2024 1 1) (mkdate 2024 3 31) (orders db)
    = [order_completed_at_once]
  /\ Avg (map processing_time [order_completed_at_once]) = Some 0%Q
  /\ exists row db',
       calculate_order_statistics (q1_2024 "order") db = (Ok row, db')
       /\ rows_of_report 1 (order_results db') = [row]
       /\ orders_completed (row_fields row) = 1
       /\ avg_processing_time (row_fields row) = None.
Proof.
  cbv zeta. split; [reflexivity|]. split; [reflexivity|].
  destruct (calculate_order_statistics_stores (q1_2024 "order") 1
              (mkdate 2024 1 1) (mkdate 2024 3 31)
              (db_with_orders [order_completed_at_once]) eq_refl eq_refl)
    as (row & db' & E & Hk & Hf).
  { now apply empty_results_ok. }
  exists row, db'. rewrite Hf. repeat split; assumption || reflexivity.
Qed.

(* ================================================================= *)
(** ** The bounds of the period *)

Lemma date_eqb_refl (d : date) : date_eqb d d = true.
Proof. unfold date_eqb. now rewrite !Z.eqb_refl. Qed.

(** A timestamp on the end date of the range is selected only at midnight:
    any later time of that day is outside the period. *)
Lemma in_period_after_midnight_of_end_date
    (start_date end_date : date) (t : datetime) :
  dt_date t = end_date -> 0 < dt_micro t ->
  in_period start_date end_date t = false.
Proof.
  intros Hd Hm. unfold in_period, dt_leb, dt_ltb, to_datetime.
  cbn [dt_date dt_micro]. rewrite Hd, date_ltb_irrefl, date_eqb_refl.
  apply Z.ltb_lt in Hm. rewrite Hm. cbn. apply andb_false_r.
Qed.

(** C9 (the code at the failing input).  For the report of the first quarter
    of 2024 the resolved range ends on March 31; a job that starts at noon on
    March 31, and an order created at noon on March 31, are not selected: the
    stored totals are 0. *)
Theorem end_date_rows_are_not_selected :
  get_date_range_for_report (q1_2024 "combined")
    = Ok (mkdate 2024 1 1, mkdate 2024 3 31)
  /\ dt_date (Job.starting_date job_on_last_day) = mkdate 2024 3 31
  /\ dt_date (Order.created_at order_on_last_day) = mkdate 2024 3 31
  /\ (exists row db',
        calculate_job_statistics (q1_2024 "combined") (db_with_jobs [job_on_last_day])
          = (Ok row, db')
        /\ total_jobs (row_fields row) = 0)
  /\ (exists row db',
        calculate_order_statistics (q1_2024 "combined")
          (db_with_orders [order_on_last_day]) = (Ok row, db')
        /\ total_orders (row_fields row) = 0).
Proof.
  split; [reflexivity|]. split; [reflexivity|]. split; [reflexivity|].
  split.
  - destruct (calculate_job_statistics_stores (q1_2024 "combined") 1
                (mkdate 2024 1 1) (mkdate 2024 3 31)
                (db_with_jobs [job_on_last_day]) eq_refl eq_refl)
      as (row & db' & E & Hk & Hf).
    { now apply empty_results_ok. }
    exists row, db'. rewrite Hf. split; [exact E|reflexivity].
  - destruct (calculate_order_statistics_stores (q1_2024 "combined") 1
                (mkdate 2024 1 1) (mkdate 2024 3 31)
                (db_with_orders [order_on_last_day]) eq_refl eq_refl)
      as (row & db' & E & Hk & Hf).
    { now apply empty_results_ok. }
    exists row, db'. rewrite Hf. split; [exact E|reflexivity].
Qed.

(* ================================================================= *)
(** ** Saving a report with an invalid quarter *)

(** A report with a tag outside the four quarters has no range: resolving
    it raises the invalid-quarter error, except that a valid from-tag with a
    year [datetime.date] rejects raises the constructor's error first. *)
Lemma get_date_range_invalid_quarter (r : Report) :
  ~ In (quarter_from r) quarter_tags \/ ~ In (quarter_to r) quarter_tags ->
  exists e,
    get_date_range_for_report r = Raise e
    /\ (e = InvalidQuarter
        \/ (In (quarter_from r) quarter_tags
            /\ ~ (MINYEAR <= year_from r <= MAXYEAR)
            /\ e = DateOutOfRange)).
Proof.
  intros H. unfold get_date_range_for_report.
  destruct (quarter_tag_cases (quarter_from r)) as [Hin|Hn].
  - destruct H as [H|H]; [contradiction|].
    destruct (Z.le_gt_cases MINYEAR (year_from r)) as [H1|H1];
      [destruct (Z.le_gt_cases (year_from r) MAXYEAR) as [H2|H2]|].
    + destruct (get_quarter_dates_valid _ _ Hin (conj H1 H2)) as [_ Hok].
      destruct (get_quarter_dates (quarter_from r) (year_from r)) as [[s e]|e];
        [|discriminate].
      simpl. rewrite get_quarter_dates_invalid by exact H. simpl.
      exists InvalidQuarter. auto.
    + rewrite get_quarter_dates_year_out_of_range by (auto; lia). simpl.
      exists DateOutOfRange. split; [reflexivity|]. right.
      split; [exact Hin|]. split; [lia|reflexivity].
    + rewrite get_quarter_dates_year_out_of_range by (auto; lia). simpl.
      exists DateOutOfRange. split; [reflexivity|]. right.
      split; [exact Hin|]. split; [lia|reflexivity].
  - assert (Hnin : ~ In (quarter_from r) quarter_tags).
    { intros Hin. unfold quarter_tags in Hin; simpl in Hin.
      destruct Hn as (H1 & H2 & H3 & H4).
      destruct Hin as [E|[E|[E|[E|[]]]]]; rewrite <- E in *; discriminate. }
    rewrite get_quarter_dates_invalid by exact Hnin. simpl.
    exists InvalidQuarter. auto.
Qed.

(** When the range of a report of one of the four types cannot be resolved,
    the first aggregator that runs raises and the database is untouched. *)
Lemma calculate_report_statistics_no_range (r : Report) (e : Exc) (db : DB) :
  get_date_range_for_report r = Raise e ->
  In (report_type r) report_types ->
  calculate_report_statistics r db = (Raise e, db).
Proof.
  intros Hr Ht. rewrite calculate_report_statistics_steps.
  unfold report_steps, gated_step, table_step. rewrite Hr.
  unfold report_types in Ht. simpl in Ht.
  destruct Ht as [E|[E|[E|[E|[]]]]]; rewrite <- E; simpl;
    now destruct db.
Qed.

(** [Model.save] writes the report row and nothing else; the instance it
    returns differs from the one saved by its key only. *)
Lemma Model_save_frame (r : Report) (db : DB) :
  exists r' db0,
    Model_save r db = (Ok r', db0)
    /\ job_results db0 = job_results db
    /\ order_results db0 = order_results db
    /\ user_results db0 = user_results db
    /\ report_type r' = report_type r
    /\ get_date_range_for_report r' = get_date_range_for_report r.
Proof.
  unfold Model_save. destruct (pk r) as [k|].
  - destruct (existsb (has_pk k) (reports db));
      eexists _, _; (split; [reflexivity|]); repeat split.
  - eexists _, _. split; [reflexivity|]. repeat split.
Qed.

(** The row [Model.save] writes is the instance itself, tags included, and
    it is in the table of reports afterwards. *)
Lemma Model_save_writes_row (r r' : Report) (db db0 : DB) :
  Model_save r db = (Ok r', db0) ->
  In r' (reports db0)
  /\ quarter_from r' = quarter_from r /\ quarter_to r' = quarter_to r.
Proof.
  unfold Model_save. destruct (pk r) as [k|] eqn:Hk.
  - destruct (existsb (has_pk k) (reports db)) eqn:Hex; intros H;
      inversion H; subst; cbn [reports set_reports];
      (split; [|split; reflexivity]).
    + apply existsb_exists in Hex. destruct Hex as (x & Hx & Hp).
      apply in_map_iff. exists x. rewrite Hp. auto.
    + apply in_or_app. right. simpl. auto.
  - intros H. inversion H; subst. cbn [reports set_reports].
    split; [|split; reflexivity].
    apply in_or_app. right. simpl. auto.
Qed.

(** A report whose type is none of the four choices passes through the
    orchestrator without any aggregator being called. *)
Lemma calculate_report_statistics_ungated (r : Report) (db : DB) :
  ~ In (report_type r) report_types ->
  calculate_report_statistics r db = (Ok tt, db).
Proof.
  intros H. unfold report_types in H. simpl in H.
  unfold calculate_report_statistics.
  rewrite !in_list_false; [reflexivity| | |];
    intros x [<-|[<-|[]]] E; apply H; rewrite E; auto 6.
Qed.

(** C7 (as amended).  Saving a report one of whose endpoints carries a tag
    outside the four quarters first writes the report row, bad tag included,
    as the model's own [save] does, and that is all it writes: the state it
    leaves is the one the model's [save] leaves, so the row stays written and
    the three result tables are exactly as they were.  When the type is one
    of job, order, user and combined the save then raises, and the error
    escapes from it: the invalid-quarter error, or, when the from-tag is valid
    and its year is outside 1..9999, the error of the date constructor, which
    comes first.  For any other type no aggregator runs and the save returns
    normally. *)
Theorem Report_save_invalid_quarter (r : Report) (db : DB) :
  ~ In (quarter_from r) quarter_tags \/ ~ In (quarter_to r) quarter_tags ->
  exists r' db',
    Model_save r db = (Ok r', db')
    /\ In r' (reports db')
    /\ quarter_from r' = quarter_from r
    /\ quarter_to r' = quarter_to r
    /\ job_results db' = job_results db
    /\ order_results db' = order_results db
    /\ user_results db' = user_results db
    /\ (In (report_type r) report_types ->
        exists e,
          Report_save r db = (Raise e, db')
          /\ (e = InvalidQuarter
              \/ (In (quarter_from r) quarter_tags
                  /\ ~ (MINYEAR <= year_from r <= MAXYEAR)
                  /\ e = DateOutOfRange)))
    /\ (~ In (report_type r) report_types ->
        Report_save r db = (Ok r', db')).
Proof.
  intros Hq.
  destruct (get_date_range_invalid_quarter r Hq) as (e & Hr & He).
  destruct (Model_save_frame r db) as (r' & db0 & Es & Hj & Ho & Hu & Hty & Hrg).
  destruct (Model_save_writes_row r r' db db0 Es) as (Hin & Hqf & Hqt).
  exists r', db0.
  split; [exact Es|]. split; [exact Hin|]. split; [exact Hqf|].
  split; [exact Hqt|]. split; [exact Hj|]. split; [exact Ho|].
  split; [exact Hu|]. split.
  - intros Ht. exists e. split; [|exact He].
    unfold Report_save, bind. rewrite Es.
    now rewrite (calculate_report_statistics_no_range r' e db0)
      by (rewrite ?Hrg, ?Hty; assumption).
  - intros Ht. unfold Report_save, bind. rewrite Es.
    now rewrite (calculate_report_statistics_ungated r' db0)
      by (rewrite Hty; exact Ht).
Qed.

Lemma Report_save_invalid_quarter_witness :
  exists r' db',
    Model_save (report_with_bad_quarter "combined") sample_db = (Ok r', db')
    /\ In r' (reports db')
    /\ quarter_from r' = "Q1"
    /\ quarter_to r' = "Q5"
    /\ job_results db' = job_results sample_db
    /\ order_results db' = order_results sample_db
    /\ user_results db' = user_results sample_db
    /\ (In "combined" report_types ->
        exists e,
          Report_save (report_with_bad_quarter "combined") sample_db = (Raise e, db')
          /\ (e = InvalidQuarter
              \/ (In "Q1" quarter_tags
                  /\ ~ (MINYEAR <= 2024 <= MAXYEAR)
                  /\ e = DateOutOfRange)))
    /\ (~ In "combined" report_types ->
        Report_save (report_with_bad_quarter "combined") sample_db = (Ok r', db')).
Proof.
  apply (Report_save_invalid_quarter (report_with_bad_quarter "combined") sample_db).
  right. unfold quarter_tags; simpl.
  intros [E|[E|[E|[E|[]]]]]; discriminate E.
Defined.

(** C7 (counterexample).  Three reports whose to-endpoint carries the tag
    [Q5], saved into an empty database.  The one whose type is none of the
    four choices is saved without any error.  The combined one raises the
    invalid-quarter error, but its save is not undone: the report row, tag
    [Q5] included, is in the table when the error escapes.  The combined one
    whose from-endpoint is the first quarter of year 0 raises the error of
    the date constructor, not the invalid-quarter error. *)
Lemma Report_save_bad_quarter_not_aborted :
  ~ In "Q5" quarter_tags
  /\ quarter_to (report_with_bad_quarter "audit") = "Q5"
  /\ is_ok (fst (Report_save (report_with_bad_quarter "audit") empty_db)) = true
  /\ quarter_to (report_with_bad_quarter "combined") = "Q5"
  /\ fst (Report_save (report_with_bad_quarter "combined") empty_db)
     = Raise InvalidQuarter
  /\ reports (snd (Report_save (report_with_bad_quarter "combined") empty_db))
     = [mkReport (Some 1%nat) "report" "combined" "Q1" 2024 "Q5" 2024]
  /\ fst (Report_save (mkReport None "report" "combined" "Q1" 0 "Q5" 2024) empty_db)
     = Raise DateOutOfRange.
Proof.
  split.
  - unfold quarter_tags; simpl. intros [E|[E|[E|[E|[]]]]]; discriminate E.
  - repeat split; reflexivity.
Qed.

(* ================================================================= *)
(** ** The theorems at work on the sample data *)

Lemma calculate_report_statistics_idempotent_witness :
  calculate_report_statistics (q1_2024 "combined") sample_db_computed
  = (Ok tt, sample_db_computed).
Proof.
  apply (calculate_report_statistics_idempotent (q1_2024 "combined") sample_db).
  - unfold results_wf, table_wf; simpl. repeat split; constructor.
  - vm_compute. reflexivity.
Defined.

Lemma aggregators_keep_one_row_per_report_witness :
  exists row t',
    calculate_job_statistics (q1_2024 "combined") sample_db_computed
    = (Ok row, set_job_results t' sample_db_computed)
    /\ upserted 1 (job_values sample_db_computed (mkdate 2024 1 1) (mkdate 2024 3 31))
         (job_results sample_db_computed) t' row.
Proof.
  apply (aggregators_keep_one_row_per_report (q1_2024 "combined") 1
           (mkdate 2024 1 1) (mkdate 2024 3 31) sample_db_computed);
    try reflexivity;
    unfold results_wf, table_wf, one_row_per_report; vm_compute;
    repeat split; repeat (constructor; try solve_in_nil).
Defined.


Lemma calculate_job_statistics_averages_witness :
  exists row db',
    calculate_job_statistics (q1_2024 "job") sample_db = (Ok row, db')
    /\ rows_of_report 1 (job_results db') = [row]
    /\ avg_completion_stored
         (completed_jobs_of_type (mkdate 2024 1 1) (mkdate 2024 3 31) "regular"
            sample_jobs)
         (avg_completion_time_regular (row_fields row))
    /\ avg_completion_stored
         (completed_jobs_of_type (mkdate 2024 1 1) (mkdate 2024 3 31) "wafer_run"
            sample_jobs)
         (avg_completion_time_wafer_run (row_fields row)).
Proof.
  apply (calculate_job_statistics_averages (q1_2024 "job") 1
           (mkdate 2024 1 1) (mkdate 2024 3 31) sample_db);
    [reflexivity|reflexivity|solve_db_ok].
Defined.

(** The worked examples of the specification: three completed regular jobs
    of 2, 4 and 6 days average 4 days and the wafer runs, none completed,
    average 0. *)
Example sample_job_averages :
  match avg_completion_time_regular
          (job_statistics (mkdate 2024 1 1) (mkdate 2024 3 31) sample_jobs),
        avg_completion_time_wafer_run
          (job_statistics (mkdate 2024 1 1) (mkdate 2024 3 31) sample_jobs) with
  | Some a, Some b => (a == 4 # 1)%Q /\ b = 0%Q
  | _, _ => False
  end.
Proof. vm_compute. split; reflexivity. Qed.

(** Two managers with two in-range orders each: the one enumerated first is
    retained although the second has the larger revenue; likewise for the
    customers. *)
Example sample_top_performers :
  let res := user_statistics (mkdate 2024 1 1) (mkdate 2024 3 31) sample_users
               sample_customers sample_managers sample_orders in
  map (manager_count (mkdate 2024 1 1) (mkdate 2024 3 31) sample_orders)
      sample_managers = [2; 2]
  /\ map (manager_revenue (mkdate 2024 1 1) (mkdate 2024 3 31) sample_orders)
         sample_managers = [15000; 170000]
  /\ top_performing_account_manager res = Some 1%nat
  /\ total_orders_by_top_manager res = 2
  /\ total_revenue_by_top_manager res = 15000
  /\ top_customer res = Some 3%nat.
Proof. vm_compute. repeat split; reflexivity. Qed.

(** The in-range order counts and revenues of the two managers and the
    counts of the two customers, tallied over the orders. *)
Example sample_in_range_counts :
  map (in_range_order_count_of_manager (mkdate 2024 1 1) (mkdate 2024 3 31)
         sample_orders) sample_managers = [2; 2]
  /\ map (in_range_revenue_of_manager (mkdate 2024 1 1) (mkdate 2024 3 31)
            sample_orders) sample_managers = [15000; 170000]
  /\ map (in_range_order_count_of_customer (mkdate 2024 1 1) (mkdate 2024 3 31)
            sample_orders) sample_customers = [2; 2].
Proof. vm_compute. repeat split; reflexivity. Qed.

(** Two orders of 100.00 and 50.00 in range: revenue 150.00 and mean order
    value 75.00 (amounts in cents). *)
Example sample_order_revenue :
  let res := order_statistics (mkdate 2024 1 1) (mkdate 2024 3 31)
               [ Order.mk 1 1 1 "completed" (datetime_of 2024 1 20 10 0 0) 10000
                   (Some (datetime_of 2024 1 22 10 0 0));
                 Order.mk 2 2 1 "draft" (datetime_of 2024 2 20 10 0 0) 5000 None ] in
  total_revenue res = 15000
  /\ (average_order_value res == 7500 # 1)%Q
  /\ match avg_processing_time res with
     | Some d => (d == 2 # 1)%Q
     | None => False
     end.
Proof. vm_compute. repeat split; reflexivity. Qed.

(* ================================================================= *)
(** ** More on the quarter resolver *)

Lemma date_ltb_lt (a b : date) :
  date_ltb a b = true <->
  year a < year b
  \/ (year a = year b
      /\ (month a < month b \/ (month a = month b /\ day a < day b))).
Proof.
  unfold date_ltb.
  rewrite orb_true_iff, andb_true_iff, orb_true_iff, andb_true_iff,
    !Z.ltb_lt, !Z.eqb_eq. tauto.
Qed.

Lemma date_ltb_ge (a b : date) :
  date_ltb a b = false <->
  year b < year a
  \/ (year b = year a
      /\ (month b < month a \/ (month b = month a /\ day b <= day a))).
Proof.
  rewrite <- not_true_iff_false, date_ltb_lt. lia.
Qed.

Lemma date_ltb_trans (a b c : date) :
  date_ltb a b = true -> date_ltb b c = true -> date_ltb a c = true.
Proof. rewrite !date_ltb_lt. lia. Qed.

Lemma date_leb_ltb_trans (a b c : date) :
  date_leb a b = true -> date_ltb b c = true -> date_ltb a c = true.
Proof.
  unfold date_leb. rewrite negb_true_iff, date_ltb_ge, !date_ltb_lt. lia.
Qed.

Lemma date_ltb_leb_trans (a b c : date) :
  date_ltb a b = true -> date_leb b c = true -> date_ltb a c = true.
Proof.
  unfold date_leb. rewrite negb_true_iff, date_ltb_ge, !date_ltb_lt. lia.
Qed.

Lemma date_leb_trans (a b c : date) :
  date_leb a b = true -> date_leb b c = true -> date_leb a c = true.
Proof.
  unfold date_leb. rewrite !negb_true_iff, !date_ltb_ge. lia.
Qed.

Lemma date_min_leb (a b : date) :
  date_leb (date_min a b) a = true /\ date_leb (date_min a b) b = true.
Proof.
  unfold date_leb. rewrite !negb_true_iff.
  destruct (date_min_least a b) as (_ & H1 & H2). auto.
Qed.

Lemma date_max_leb (a b : date) :
  date_leb a (date_max a b) = true /\ date_leb b (date_max a b) = true.
Proof.
  unfold date_leb. rewrite !negb_true_iff.
  destruct (date_max_greatest a b) as (_ & H1 & H2). auto.
Qed.

(** What a successful call returns: the first and the last day of a quarter
    of the requested year, in this order. *)
Lemma get_quarter_dates_ok_inv (q : string) (y : Z) (s e : date) :
  get_quarter_dates q y = Ok (s, e) ->
  In q quarter_tags /\ MINYEAR <= y <= MAXYEAR
  /\ Ok (s, e) = quarter_dates_spec q y
  /\ date_ltb s e = true.
Proof.
  intros H.
  assert (Hq : In q quarter_tags).
  { destruct (quarter_tag_cases q) as [Hq|Hn]; [exact Hq|].
    rewrite get_quarter_dates_invalid in H; [discriminate|].
    intros Hin. unfold quarter_tags in Hin; simpl in Hin.
    destruct Hn as (H1 & H2 & H3 & H4).
    destruct Hin as [E|[E|[E|[E|[]]]]]; rewrite <- E in *; discriminate. }
  assert (Hy : MINYEAR <= y <= MAXYEAR).
  { destruct (Z.le_gt_cases MINYEAR y) as [H1|H1];
      [destruct (Z.le_gt_cases y MAXYEAR) as [H2|H2]; [lia|]|];
      rewrite get_quarter_dates_year_out_of_range in H by (auto; lia);
      discriminate. }
  destruct (get_quarter_dates_valid q y Hq Hy) as [E _].
  rewrite E in H. repeat split; auto; try lia.
  unfold quarter_tags in Hq; simpl in Hq. unfold quarter_dates_spec in H.
  destruct Hq as [<-|[<-|[<-|[<-|[]]]]]; simpl in H; inversion H; subst;
    apply date_ltb_lt; simpl; lia.
Qed.

(** X1.  For every year that [datetime.date] accepts, the four quarters
    returned by [get_quarter_dates] tile the year: the first starts on January
    1st, each next one starts on the day after the previous one ends, the last
    ends on December 31st, and they count 90 (91 in a leap year), 91, 92 and
    92 days. *)
Theorem quarters_tile_the_year (y : Z) :
  MINYEAR <= y <= MAXYEAR ->
  exists e1 s2 e2 s3 e3 s4,
    get_quarter_dates "Q1" y = Ok (mkdate y 1 1, e1)
    /\ get_quarter_dates "Q2" y = Ok (s2, e2)
    /\ get_quarter_dates "Q3" y = Ok (s3, e3)
    /\ get_quarter_dates "Q4" y = Ok (s4, mkdate y 12 31)
    /\ toordinal s2 = toordinal e1 + 1
    /\ toordinal s3 = toordinal e2 + 1
    /\ toordinal s4 = toordinal e3 + 1
    /\ days_between (mkdate y 1 1) e1 = (if is_leap y then 91 else 90)
    /\ days_between s2 e2 = 91
    /\ days_between s3 e3 = 92
    /\ days_between s4 (mkdate y 12 31) = 92.
Proof.
  intros Hy.
  exists (mkdate y 3 31), (mkdate y 4 1), (mkdate y 6 30), (mkdate y 7 1),
         (mkdate y 9 30), (mkdate y 10 1).
  split; [apply (get_quarter_dates_valid "Q1" y); [simpl; auto|exact Hy]|].
  split; [apply (get_quarter_dates_valid "Q2" y); [simpl; auto|exact Hy]|].
  split; [apply (get_quarter_dates_valid "Q3" y); [simpl; auto|exact Hy]|].
  split; [apply (get_quarter_dates_valid "Q4" y); [simpl; auto 6|exact Hy]|].
  unfold days_between, toordinal, days_before_month; simpl.
  destruct (is_leap y); lia.
Qed.

Lemma quarters_tile_the_year_witness :
  exists e1 s2 e2 s3 e3 s4,
    get_quarter_dates "Q1" 2024 = Ok (mkdate 2024 1 1, e1)
    /\ get_quarter_dates "Q2" 2024 = Ok (s2, e2)
    /\ get_quarter_dates "Q3" 2024 = Ok (s3, e3)
    /\ get_quarter_dates "Q4" 2024 = Ok (s4, mkdate 2024 12 31)
    /\ toordinal s2 = toordinal e1 + 1
    /\ toordinal s3 = toordinal e2 + 1
    /\ toordinal s4 = toordinal e3 + 1
    /\ days_between (mkdate 2024 1 1) e1 = (if is_leap 2024 then 91 else 90)
    /\ days_between s2 e2 = 91
    /\ days_between s3 e3 = 92
    /\ days_between s4 (mkdate 2024 12 31) = 92.
Proof.
  apply (quarters_tile_the_year 2024). unfold MINYEAR, MAXYEAR. lia.
Defined.

(** X2.  A resolved range is never inverted: its start lies strictly before
    its end, and both quarters of the report lie within it. *)
Theorem get_date_range_for_report_ordered (r : Report) (s e : date) :
  get_date_range_for_report r = Ok (s, e) ->
  date_ltb s e = true
  /\ exists sf ef st et,
       get_quarter_dates (quarter_from r) (year_from r) = Ok (sf, ef)
       /\ get_quarter_dates (quarter_to r) (year_to r) = Ok (st, et)
       /\ date_leb s sf = true /\ date_leb ef e = true
       /\ date_leb s st = true /\ date_leb et e = true.
Proof.
  unfold get_date_range_for_report. intros H.
  destruct (get_quarter_dates (quarter_from r) (year_from r)) as [[sf ef]|x] eqn:Ef;
    [|discriminate].
  destruct (get_quarter_dates (quarter_to r) (year_to r)) as [[st et]|x] eqn:Et;
    [|discriminate].
  simpl in H. inversion H; subst; clear H.
  destruct (get_quarter_dates_ok_inv _ _ _ _ Ef) as (_ & _ & _ & Hf).
  destruct (date_min_leb sf st) as [Hm1 Hm2].
  destruct (date_max_leb ef et) as [HM1 HM2].
  split.
  - eapply date_leb_ltb_trans; [exact Hm1|].
    eapply date_ltb_leb_trans; [exact Hf|exact HM1].
  - exists sf, ef, st, et. auto 10.
Qed.

Lemma get_date_range_for_report_ordered_witness :
  date_ltb (mkdate 2023 1 1) (mkdate 2024 12 31) = true.
Proof.
  apply (get_date_range_for_report_ordered
           (sample_report 1 "job" "Q4" 2024 "Q1" 2023)
           (mkdate 2023 1 1) (mkdate 2024 12 31)).
  reflexivity.
Defined.

(** X3.  The range of a report resolves exactly when both tags are among the
    four quarters and both years are years [datetime.date] accepts; otherwise
    resolving it raises. *)
Theorem get_date_range_for_report_ok_iff (r : Report) :
  is_ok (get_date_range_for_report r) = true <->
  In (quarter_from r) quarter_tags /\ In (quarter_to r) quarter_tags
  /\ MINYEAR <= year_from r <= MAXYEAR /\ MINYEAR <= year_to r <= MAXYEAR.
Proof.
  unfold get_date_range_for_report. split.
  - destruct (get_quarter_dates (quarter_from r) (year_from r)) as [[sf ef]|x] eqn:Ef;
      [|discriminate].
    destruct (get_quarter_dates (quarter_to r) (year_to r)) as [[st et]|x] eqn:Et;
      [|discriminate].
    intros _.
    destruct (get_quarter_dates_ok_inv _ _ _ _ Ef) as (H1 & H2 & _).
    destruct (get_quarter_dates_ok_inv _ _ _ _ Et) as (H3 & H4 & _).
    auto.
  - intros (H1 & H2 & H3 & H4).
    destruct (get_quarter_dates_valid _ _ H1 H3) as [_ Hf].
    destruct (get_quarter_dates_valid _ _ H2 H4) as [_ Ht].
    destruct (get_quarter_dates (quarter_from r) (year_from r)) as [[sf ef]|x];
      [|discriminate].
    destruct (get_quarter_dates (quarter_to r) (year_to r)) as [[st et]|x];
      [|discriminate].
    reflexivity.
Qed.

(* ================================================================= *)
(** ** Widening the period *)

Lemma date_eqb_eq (a b : date) :
  date_eqb a b = true <->
  year a = year b /\ month a = month b /\ day a = day b.
Proof.
  unfold date_eqb. rewrite !andb_true_iff, !Z.eqb_eq. tauto.
Qed.

Lemma dt_ltb_lt (a b : datetime) :
  dt_ltb a b = true <->
  date_ltb (dt_date a) (dt_date b) = true
  \/ (date_eqb (dt_date a) (dt_date b) = true /\ dt_micro a < dt_micro b).
Proof.
  unfold dt_ltb. rewrite orb_true_iff, andb_true_iff, Z.ltb_lt. tauto.
Qed.

(** The lookups [gte] and [lte] with date bounds, in terms of the date and
    the time of day of the timestamp: its day is not before the start date,
    and it is either a day before the end date or the very midnight that
    begins the end date. *)
Lemma in_period_iff (start_date end_date : date) (t : datetime) :
  in_period start_date end_date t = true <->
  (date_ltb start_date (dt_date t) = true
   \/ (date_eqb start_date (dt_date t) = true /\ 0 <= dt_micro t))
  /\ (date_ltb (dt_date t) end_date = true
      \/ (date_eqb (dt_date t) end_date = true /\ dt_micro t <= 0)).
Proof.
  unfold in_period, dt_leb, to_datetime.
  rewrite andb_true_iff, !negb_true_iff, <- !not_true_iff_false, !dt_ltb_lt.
  cbn [dt_date dt_micro].
  rewrite !date_ltb_lt, !date_eqb_eq. lia.
Qed.

Lemma filter_length_le_impl {A} (f g : A -> bool) (l : list A) :
  (forall x, In x l -> f x = true -> g x = true) ->
  count (filter f l) <= count (filter g l).
Proof.
  unfold count. induction l as [|a l IH]; intros H; simpl; [lia|].
  assert (IH' : Z.of_nat (List.length (filter f l))
                <= Z.of_nat (List.length (filter g l)))
    by (apply IH; intros x Hx; apply H; simpl; auto).
  destruct (f a) eqn:Ef.
  - rewrite (H a) by (simpl; auto). simpl. lia.
  - destruct (g a); simpl; lia.
Qed.

(** X4.  Widening the period never drops a row: a timestamp selected for a
    period is selected for every period that starts no later and ends no
    earlier, so the totals of jobs and of orders can only grow. *)
Theorem widening_the_period_keeps_rows
    (s e s' e' : date) (all_jobs : list Job.t) (all_orders : list Order.t) :
  date_leb s' s = true -> date_leb e e' = true ->
  (forall t, in_period s e t = true -> in_period s' e' t = true)
  /\ total_jobs (job_statistics s e all_jobs)
     <= total_jobs (job_statistics s' e' all_jobs)
  /\ total_orders (order_statistics s e all_orders)
     <= total_orders (order_statistics s' e' all_orders).
Proof.
  intros Hs He.
  assert (Hw : forall t, in_period s e t = true -> in_period s' e' t = true).
  { intros t. rewrite !in_period_iff.
    unfold date_leb in Hs, He. rewrite negb_true_iff, date_ltb_ge in Hs, He.
    rewrite !date_ltb_lt, !date_eqb_eq. lia. }
  split; [exact Hw|]. split.
  - unfold job_statistics; cbn [total_jobs].
    apply filter_length_le_impl. intros j _. apply Hw.
  - unfold order_statistics; cbn [total_orders].
    apply filter_length_le_impl. intros o _. apply Hw.
Qed.

Lemma widening_the_period_keeps_rows_witness :
  total_jobs (job_statistics (mkdate 2024 1 1) (mkdate 2024 3 31) sample_jobs)
  <= total_jobs (job_statistics (mkdate 2023 10 1) (mkdate 2024 6 30) sample_jobs).
Proof.
  apply (widening_the_period_keeps_rows (mkdate 2024 1 1) (mkdate 2024 3 31)
           (mkdate 2023 10 1) (mkdate 2024 6 30) sample_jobs sample_orders);
    reflexivity.
Defined.

(* ================================================================= *)
(** ** Counts per state and per status *)

Section Buckets.

Context {A : Type}.
Variable key : A -> string.

Lemma tag_total_nil (tags : list string) : tag_total key tags [] = 0.
Proof.
  unfold tag_total. induction tags as [|s tags IH]; [reflexivity|].
  cbn [map fold_right]. rewrite IH. reflexivity.
Qed.

Lemma tag_total_tag (s : string) (tags : list string) (l : list A) :
  tag_total key (s :: tags) l
  = count (filter (fun x => String.eqb (key x) s) l) + tag_total key tags l.
Proof. reflexivity. Qed.

Lemma count_filter_cons (f : A -> bool) (x : A) (l : list A) :
  count (filter f (x :: l)) = (if f x then 1 else 0) + count (filter f l).
Proof.
  unfold count. cbn [filter]. destruct (f x); cbn [List.length]; lia.
Qed.

Lemma tag_total_cons (tags : list string) (x : A) (l : list A) :
  NoDup tags ->
  tag_total key tags (x :: l)
  = (if existsb (String.eqb (key x)) tags then 1 else 0) + tag_total key tags l.
Proof.
  induction tags as [|s tags IH]; intros Hnd; [reflexivity|].
  apply NoDup_cons_iff in Hnd. destruct Hnd as [Hs Hnd].
  rewrite !tag_total_tag, (IH Hnd), count_filter_cons. cbn [existsb].
  destruct (String.eqb_spec (key x) s) as [E|E]; cbn [orb].
  - assert (Hex : existsb (String.eqb (key x)) tags = false).
    { destruct (existsb (String.eqb (key x)) tags) eqn:Ex; [|reflexivity].
      apply existsb_exists in Ex. destruct Ex as (s' & Hin & Es).
      apply String.eqb_eq in Es. exfalso. apply Hs. congruence. }
    rewrite Hex. lia.
  - lia.
Qed.

(** The tagged rows are counted once each: the per-tag counts add up to the
    number of rows whose tag is one of the tags. *)
Lemma tag_total_eq (tags : list string) (l : list A) :
  NoDup tags ->
  tag_total key tags l
  = count (filter (fun x => existsb (String.eqb (key x)) tags) l).
Proof.
  intros Hnd. induction l as [|x l IH].
  - rewrite tag_total_nil. reflexivity.
  - rewrite tag_total_cons by exact Hnd. rewrite IH, count_filter_cons.
    reflexivity.
Qed.

Lemma count_filter_le (f : A -> bool) (l : list A) :
  count (filter f l) <= count l.
Proof.
  unfold count. induction l as [|x l IH]; simpl; [lia|].
  destruct (f x); simpl; lia.
Qed.

Lemma count_filter_all (f : A -> bool) (l : list A) :
  count (filter f l) = count l <-> Forall (fun x => f x = true) l.
Proof.
  unfold count. induction l as [|x l IH]; simpl.
  - split; [constructor|reflexivity].
  - pose proof (count_filter_le f l) as Hle. unfold count in Hle.
    destruct (f x) eqn:Ef; simpl.
    + split.
      * intros H. constructor; [exact Ef|]. apply IH. lia.
      * intros H. inversion H; subst. apply IH in H3. lia.
    + split; [lia|]. intros H. inversion H; subst. congruence.
Qed.

Lemma tag_total_spec (tags : list string) (l : list A) :
  NoDup tags ->
  tag_total key tags l <= count l
  /\ (tag_total key tags l = count l <-> Forall (fun x => In (key x) tags) l).
Proof.
  intros Hnd. rewrite tag_total_eq by exact Hnd. split.
  - apply count_filter_le.
  - rewrite count_filter_all. split; intros H.
    + eapply Forall_impl; [|exact H]. intros x Hx. cbv beta in Hx.
      apply existsb_exists in Hx. destruct Hx as (s & Hin & Es).
      apply String.eqb_eq in Es. congruence.
    + eapply Forall_impl; [|exact H]. intros x Hx. cbv beta.
      apply existsb_exists. exists (key x). split; [exact Hx|].
      apply String.eqb_refl.
Qed.

End Buckets.

Lemma job_states_nodup : NoDup job_states.
Proof. unfold job_states. repeat (constructor; [solve_in_nil|]). constructor. Qed.

Lemma order_statuses_nodup : NoDup order_statuses.
Proof. unfold order_statuses. repeat (constructor; [solve_in_nil|]). constructor. Qed.

(** X5.  In the job statistics the five per-state counts never exceed the
    total, and they add up to the total exactly when every job of the period
    carries one of the five states of [STATE_CHOICES]; the same holds for the
    five per-status counts of the order statistics. *)
Theorem state_counts_add_up
    (start_date end_date : date) (all_jobs : list Job.t) (all_orders : list Order.t) :
  let js := job_statistics start_date end_date all_jobs in
  let os := order_statistics start_date end_date all_orders in
  let job_sum := jobs_created js + jobs_active js + jobs_completed js
                 + jobs_failed js + jobs_delayed js in
  let order_sum := orders_draft os + orders_submitted os + orders_in_progress os
                   + orders_completed os + orders_cancelled os in
  job_sum <= total_jobs js
  /\ (job_sum = total_jobs js <->
      Forall (fun j => In (Job.state j) job_states)
        (filter (fun j => in_period start_date end_date (Job.starting_date j))
           all_jobs))
  /\ order_sum <= total_orders os
  /\ (order_sum = total_orders os <->
      Forall (fun o => In (Order.status o) order_statuses)
        (filter (fun o => in_period start_date end_date (Order.created_at o))
           all_orders)).
Proof.
  cbv zeta. unfold job_statistics, order_statistics.
  cbn [jobs_created jobs_active jobs_completed jobs_failed jobs_delayed total_jobs
       orders_draft orders_submitted orders_in_progress orders_completed
       orders_cancelled total_orders].
  set (jl := filter (fun j => in_period start_date end_date (Job.starting_date j))
               all_jobs).
  set (ol := filter (fun o => in_period start_date end_date (Order.created_at o))
               all_orders).
  pose proof (tag_total_spec Job.state job_states jl job_states_nodup) as [Hj1 Hj2].
  pose proof (tag_total_spec Order.status order_statuses ol order_statuses_nodup)
    as [Ho1 Ho2].
  unfold tag_total, job_states, order_statuses in Hj1, Hj2, Ho1, Ho2.
  cbn [map fold_right] in Hj1, Hj2, Ho1, Ho2.
  rewrite !Z.add_0_r in Hj1, Hj2, Ho1, Ho2.
  rewrite !Z.add_assoc in Hj1, Hj2, Ho1, Ho2.
  split; [exact Hj1|]. split; [exact Hj2|]. split; [exact Ho1|exact Ho2].
Qed.

(* ================================================================= *)
(** ** Revenue, averages and bounds *)

Lemma inject_Z_nonzero (n : Z) : n <> 0 -> ~ (inject_Z n == 0)%Q.
Proof. unfold Qeq; simpl. lia. Qed.

Lemma prices_sum_bounds (lo hi : Z) (l : list Order.t) :
  Forall (fun o => lo <= Order.total_price o <= hi) l ->
  lo * count l <= fold_right Z.add 0 (map Order.total_price l) <= hi * count l.
Proof.
  unfold count. induction 1 as [|o l Ho _ IH]; cbn [map fold_right List.length].
  - lia.
  - rewrite Nat2Z.inj_succ. nia.
Qed.

(** X6.  The order statistics hold the sum of the total prices of the
    orders of the period as revenue.  With no order in the period the revenue
    and the average order value are zero, and the average is zero whenever
    the revenue is.  With at least one order the average lies between any two
    bounds of the total prices of the period's orders, hence between the
    smallest and the largest of them; the bounds being amounts in cents, the
    rounding of the quotient does not carry it across them. *)
Theorem order_revenue_and_average
    (start_date end_date : date) (all_orders : list Order.t) :
  let os := order_statistics start_date end_date all_orders in
  let in_range :=
    filter (fun o => in_period start_date end_date (Order.created_at o))
      all_orders in
  total_orders os = count in_range
  /\ total_revenue os = fold_right Z.add 0 (map Order.total_price in_range)
  /\ (in_range = [] -> total_revenue os = 0 /\ average_order_value os = 0%Q)
  /\ (total_revenue os = 0 -> (average_order_value os == 0)%Q)
  /\ (forall lo hi,
        in_range <> [] ->
        Forall (fun o => lo <= Order.total_price o <= hi) in_range ->
        (inject_Z lo <= average_order_value os <= inject_Z hi)%Q).
Proof.
  cbv zeta. unfold order_statistics.
  cbn [total_orders total_revenue average_order_value].
  set (l := filter (fun o => in_period start_date end_date (Order.created_at o))
              all_orders).
  rewrite or_0_Z_Sum.
  split; [reflexivity|]. split; [reflexivity|]. split; [|split].
  - intros El. rewrite El. split; reflexivity.
  - intros E0. rewrite E0. destruct (0 <? count l); [|reflexivity].
    unfold Qdiv. apply Qmult_0_l.
  - intros lo hi Hne Hb.
    assert (Hpos : 0 < count l).
    { destruct l as [|o l']; [contradiction|].
      unfold count. cbn [List.length]. lia. }
    destruct (Z.ltb_spec 0 (count l)) as [_|Hle]; [|lia].
    pose proof (prices_sum_bounds lo hi l Hb) as [Hlo Hhi].
    assert (Hq : (0 < inject_Z (count l))%Q).
    { rewrite <- (Zlt_Qlt 0). exact Hpos. }
    split.
    + apply Qle_shift_div_l; [exact Hq|].
      rewrite <- inject_Z_mult, <- Zle_Qle. exact Hlo.
    + apply Qle_shift_div_r; [exact Hq|].
      rewrite <- inject_Z_mult, <- Zle_Qle. exact Hhi.
Qed.

Lemma micros_to_days_zero (v : Q) : (micros_to_days v == 0)%Q -> (v == 0)%Q.
Proof.
  unfold micros_to_days. intros H.
  assert (H1 : ~ (inject_Z 1000000 == 0)%Q) by (apply inject_Z_nonzero; lia).
  assert (H2 : ~ (inject_Z (24 * 3600) == 0)%Q) by (apply inject_Z_nonzero; lia).
  rewrite <- (Qmult_div_r v (inject_Z 1000000) H1).
  rewrite <- (Qmult_div_r (v / inject_Z 1000000) (inject_Z (24 * 3600)) H2).
  rewrite H. ring.
Qed.

(** X7.  The average processing time, when the order statistics hold one,
    is the mean of [completed_at - created_at] over the completed orders of the
    period that have a completion timestamp, converted to days, and it is not
    zero; it is unset only when there is no such order or when that mean is
    zero. *)
Theorem avg_processing_time_is_the_mean
    (start_date end_date : date) (all_orders : list Order.t) :
  let qualifying := completed_orders_in start_date end_date all_orders in
  match avg_processing_time (order_statistics start_date end_date all_orders) with
  | Some d =>
      ~ (d == 0)%Q
      /\ exists v, d = micros_to_days v
                   /\ is_mean (non_null (map processing_time qualifying)) v
  | None =>
      qualifying = []
      \/ exists v, (v == 0)%Q
                   /\ is_mean (non_null (map processing_time qualifying)) v
  end.
Proof.
  cbv zeta. rewrite order_statistics_avg_processing_time.
  set (qs := completed_orders_in start_date end_date all_orders).
  assert (Hnn : qs <> [] -> non_null (map processing_time qs) <> []).
  { destruct qs as [|o l] eqn:Eq; [congruence|]. intros _.
    assert (Hin : In o qs) by (rewrite Eq; simpl; auto).
    unfold qs, completed_orders_in in Hin. apply filter_In in Hin.
    destruct Hin as [_ Hc]. rewrite !andb_true_iff in Hc.
    destruct Hc as (_ & _ & Hs).
    unfold processing_time. simpl.
    destruct (Order.completed_at o); [discriminate|discriminate]. }
  unfold Avg.
  destruct (non_null (map processing_time qs)) as [|x xs] eqn:Enn.
  - left. destruct qs as [|o l]; [reflexivity|].
    exfalso. apply Hnn; [discriminate|reflexivity].
  - destruct (Qeq_bool (Qsum (x :: xs) / inject_Z (count (x :: xs))) 0) eqn:Ez.
    + right. eexists. split; [apply Qeq_bool_eq; exact Ez|].
      split; [discriminate|reflexivity].
    + split.
      * intros Hd. apply micros_to_days_zero in Hd.
        apply Qeq_bool_neq in Ez. contradiction.
      * eexists. split; [reflexivity|]. split; [discriminate|reflexivity].
Qed.

(** X8.  The user statistics stay within the tables they are computed from:
    the active users, the new customers and the active account managers are
    at most as many as the users, customers and account managers; no manager
    has more orders in the period than the count stored for the top manager,
    and that count is at most the number of orders of the period. *)
Theorem user_statistics_bounds
    (start_date end_date : date) (all_users : list User.t)
    (all_customers : list Customer.t) (all_managers : list AccountManager.t)
    (all_orders : list Order.t) :
  let us := user_statistics start_date end_date all_users all_customers
              all_managers all_orders in
  0 <= total_active_users us <= count all_users
  /\ 0 <= new_customers us <= count all_customers
  /\ 0 <= active_account_managers us <= count all_managers
  /\ Forall (fun m => manager_count start_date end_date all_orders m
                      <= total_orders_by_top_manager us) all_managers
  /\ total_orders_by_top_manager us
     <= count (filter (fun o => in_period start_date end_date (Order.created_at o))
                 all_orders).
Proof.
  cbv zeta.
  assert (Hm : forall m,
             manager_count start_date end_date all_orders m
             <= count (filter (fun o => in_period start_date end_date
                                          (Order.created_at o)) all_orders)).
  { intros m. unfold manager_count, manager_orders_in.
    apply filter_length_le_impl. intros o _ H.
    apply andb_true_iff in H. tauto. }
  unfold user_statistics.
  destruct (manager_loop_selected start_date end_date all_orders all_managers)
    as [[Hall Em]|(pre & m & post & Hl & H0 & Hpre & Hpost & Em)];
    rewrite Em;
    destruct (fold_left (customer_step start_date end_date all_orders)
                all_customers (None, 0)) as [tc tco];
    cbn [total_active_users new_customers active_account_managers
         total_orders_by_top_manager].
  - repeat split; try apply count_nonneg; try apply count_filter_le.
    + eapply Forall_impl; [|exact Hall]. cbv beta. intros a Ha.
      fold (manager_count start_date end_date all_orders a). lia.
  - repeat split; try apply count_nonneg; try apply count_filter_le.
    + rewrite Hl. apply Forall_app. split.
      * eapply Forall_impl; [|exact Hpre]. cbv beta. intros; lia.
      * constructor; [lia|]. eapply Forall_impl; [|exact Hpost]. cbv beta.
        intros; lia.
    + apply Hm.
Qed.

(* ================================================================= *)
(** ** The orchestrator on the result tables *)

Lemma report_steps_on (r : Report) (db : DB) :
  report_steps r db
  = (fst (steps_on r (job_values db) (order_values db) (user_values db)
            (job_results db) (order_results db) (user_results db)),
     set_result_tables
       (snd (steps_on r (job_values db) (order_values db) (user_values db)
               (job_results db) (order_results db) (user_results db))) db).
Proof.
  unfold report_steps, steps_on, set_result_tables.
  destruct (gated_step _ (table_step r (job_values db)) _) as [[[]|e] tj];
    [|cbn [fst snd]; now destruct db].
  destruct (gated_step _ (table_step r (order_values db)) _) as [[[]|e] to];
    [|cbn [fst snd]; now destruct db].
  destruct (gated_step _ (table_step r (user_values db)) _) as [ru tu].
  reflexivity.
Qed.

(** The outcome and the result tables of a recomputation, from the result
    tables before it and the values computed from the entity tables. *)
Lemma calculate_report_statistics_on (r : Report) (db : DB) :
  fst (calculate_report_statistics r db)
  = fst (steps_on r (job_values db) (order_values db) (user_values db)
           (job_results db) (order_results db) (user_results db))
  /\ result_tables (snd (calculate_report_statistics r db))
     = snd (steps_on r (job_values db) (order_values db) (user_values db)
              (job_results db) (order_results db) (user_results db))
  /\ snd (calculate_report_statistics r db)
     = set_result_tables (result_tables (snd (calculate_report_statistics r db))) db.
Proof.
  rewrite calculate_report_statistics_steps, report_steps_on. cbn [fst snd].
  destruct (steps_on _ _ _ _ _ _ _) as [res [[tj to] tu]]. cbn [fst snd].
  unfold result_tables, set_result_tables. auto.
Qed.

Lemma table_step_ext {F} (r r' : Report) (values : date -> date -> F) (t : Table F) :
  pk r = pk r' ->
  get_date_range_for_report r = get_date_range_for_report r' ->
  table_step r values t = table_step r' values t.
Proof. intros Hk Hr. unfold table_step. now rewrite Hk, Hr. Qed.

(** The steps read the report through its key, its type and its range
    only. *)
Lemma steps_on_ext (r r' : Report) vj vo vu tj to tu :
  pk r = pk r' -> report_type r = report_type r' ->
  get_date_range_for_report r = get_date_range_for_report r' ->
  steps_on r vj vo vu tj to tu = steps_on r' vj vo vu tj to tu.
Proof.
  intros Hk Ht Hr. unfold steps_on, gated_step.
  now rewrite Ht, !(table_step_ext r r') by assumption.
Qed.

(** Run on the tables they produced, the steps end the same way and leave
    the tables as they are. *)
Lemma steps_on_again (r : Report) vj vo vu tj to tu :
  table_wf tj -> table_wf to -> table_wf tu ->
  let out := steps_on r vj vo vu tj to tu in
  let '(tj', to', tu') := snd out in
  steps_on r vj vo vu tj' to' tu' = out.
Proof.
  intros Hj Ho Hu. cbv zeta. unfold steps_on.
  set (gj := in_list (report_type r) ["job"; "combined"]).
  set (go := in_list (report_type r) ["order"; "combined"]).
  set (gu := in_list (report_type r) ["user"; "combined"]).
  destruct (gated_step gj (table_step r vj) tj) as [rj tj'] eqn:Ej.
  destruct (gated_step_again gj r vj _ _ _ Hj Ej) as [Ej1 _].
  destruct rj as [[]|e]; cbn [snd].
  2:{ now rewrite Ej1. }
  destruct (gated_step go (table_step r vo) to) as [ro to'] eqn:Eo.
  destruct (gated_step_again go r vo _ _ _ Ho Eo) as [Eo1 _].
  destruct ro as [[]|e]; cbn [snd].
  2:{ now rewrite Ej1, Eo1. }
  destruct (gated_step gu (table_step r vu) tu) as [ru tu'] eqn:Eu.
  destruct (gated_step_again gu r vu _ _ _ Hu Eu) as [Eu1 _].
  cbn [snd]. now rewrite Ej1, Eo1, Eu1.
Qed.

(** Each table the steps return is the table they were given or the table
    its own gated step made of it. *)
Lemma steps_on_tables (r : Report) vj vo vu tj to tu :
  let '(tj', to', tu') := snd (steps_on r vj vo vu tj to tu) in
  tj' = snd (gated_step (in_list (report_type r) ["job"; "combined"])
               (table_step r vj) tj)
  /\ (to' = to
      \/ to' = snd (gated_step (in_list (report_type r) ["order"; "combined"])
                      (table_step r vo) to))
  /\ (tu' = tu
      \/ tu' = snd (gated_step (in_list (report_type r) ["user"; "combined"])
                      (table_step r vu) tu)).
Proof.
  unfold steps_on.
  destruct (gated_step _ (table_step r vj) tj) as [[[]|e] tj']; cbn [snd];
    [|auto].
  destruct (gated_step _ (table_step r vo) to) as [[[]|e] to']; cbn [snd];
    [|auto].
  destruct (gated_step _ (table_step r vu) tu) as [ru tu']; cbn [snd]. auto.
Qed.

Lemma gated_step_off {F} (r : Report) (values : date -> date -> F) (t : Table F) :
  gated_step false (table_step r values) t = (Ok tt, t).
Proof. reflexivity. Qed.

(** X9.  A recomputation writes result rows only: the jobs, orders, users,
    account managers, customers and reports are exactly as before it. *)
Theorem calculate_report_statistics_reads_entities_only (r : Report) (db : DB) :
  let db' := snd (calculate_report_statistics r db) in
  jobs db' = jobs db /\ orders db' = orders db /\ users db' = users db
  /\ account_managers db' = account_managers db /\ customers db' = customers db
  /\ reports db' = reports db /\ reports_next_pk db' = reports_next_pk db.
Proof.
  cbv zeta.
  destruct (calculate_report_statistics_on r db) as (_ & _ & E).
  rewrite E. unfold set_result_tables.
  destruct (result_tables _) as [[tj to] tu]. repeat split.
Qed.

(** X10.  The orchestrator runs the aggregators the type names and no
    other: unless the type is job or combined the job results are left as
    they are, unless it is order or combined the order results are, and unless
    it is user or combined the user results are. *)
Theorem only_the_named_aggregators_run (r : Report) (db : DB) :
  let db' := snd (calculate_report_statistics r db) in
  (~ In (report_type r) ["job"; "combined"] -> job_results db' = job_results db)
  /\ (~ In (report_type r) ["order"; "combined"] ->
      order_results db' = order_results db)
  /\ (~ In (report_type r) ["user"; "combined"] ->
      user_results db' = user_results db).
Proof.
  cbv zeta.
  destruct (calculate_report_statistics_on r db) as (_ & E & _).
  pose proof (steps_on_tables r (job_values db) (order_values db) (user_values db)
                (job_results db) (order_results db) (user_results db)) as H.
  rewrite <- E in H. unfold result_tables in H.
  destruct H as (Hj & Ho & Hu).
  assert (Hoff : forall l, ~ In (report_type r) l -> in_list (report_type r) l = false).
  { intros l Hl. apply in_list_false. intros x Hx Ex. apply Hl. now rewrite Ex. }
  repeat split; intros Hn; rewrite (Hoff _ Hn) in *.
  - exact Hj.
  - destruct Ho as [Ho|Ho]; exact Ho.
  - destruct Hu as [Hu|Hu]; exact Hu.
Qed.

Lemma only_the_named_aggregators_run_witness :
  order_results (snd (calculate_report_statistics (q1_2024 "job") sample_db))
  = order_results sample_db
  /\ user_results (snd (calculate_report_statistics (q1_2024 "job") sample_db))
     = user_results sample_db.
Proof.
  destruct (only_the_named_aggregators_run (q1_2024 "job") sample_db)
    as (_ & Ho & Hu).
  split; [apply Ho|apply Hu]; simpl; solve_in_nil.
Defined.

(* ================================================================= *)
(** ** The rows of other reports *)

Section OtherReports.

Context {F : Type}.

Lemma filter_replace_other (l : list (Row F)) (r old : Row F) (k' : nat) :
  NoDup (map row_id l) -> In old l -> row_id r = row_id old ->
  row_report r <> k' -> row_report old <> k' ->
  forall l', (forall x, In x l' -> In x l) ->
    filter (fun r0 => Nat.eqb (row_report r0) k') (replace_row r l')
    = filter (fun r0 => Nat.eqb (row_report r0) k') l'.
Proof.
  intros Hnd Hold Eid Hr Ho. unfold replace_row.
  induction l' as [|a l' IH]; intros Hsub; [reflexivity|].
  cbn [map filter].
  rewrite IH by (intros x Hx; apply Hsub; simpl; auto).
  destruct (Nat.eqb_spec (row_id a) (row_id r)) as [E|E]; [|reflexivity].
  assert (a = old).
  { apply (row_id_inj l); auto; [apply Hsub; simpl; auto|congruence]. }
  subst a.
  apply Nat.eqb_neq in Hr, Ho. now rewrite Hr, Ho.
Qed.

Lemma upsert_other_reports (ok : option nat) (v : F) (t : Table F) (k' : nat) :
  table_wf t -> ok <> Some k' ->
  rows_of_report k' (snd (upsert ok v t)) = rows_of_report k' t.
Proof.
  intros Hwf Hk. pose proof (upsert_cases ok v t Hwf) as H.
  destruct Hwf as [Hnd Hlt].
  destruct ok as [k|]; [|now rewrite H].
  assert (Hne : k <> k') by congruence.
  destruct (rows_of_report k t) as [|old [|r2 l]] eqn:Ek.
  - cbv zeta in H. rewrite H. cbn [snd].
    unfold rows_of_report; cbn [rows]. rewrite filter_app. cbn [filter row_report].
    apply Nat.eqb_neq in Hne. rewrite Hne. apply app_nil_r.
  - cbv zeta in H. destruct H as (H & _). rewrite H. cbn [snd].
    assert (Hin : In old (rows_of_report k t)) by (rewrite Ek; simpl; auto).
    apply filter_In in Hin. destruct Hin as [Hin Eo]. apply Nat.eqb_eq in Eo.
    unfold rows_of_report, save_row; cbn [rows].
    apply (filter_replace_other (rows t) _ old k'); auto; simpl; congruence.
  - now rewrite H.
Qed.

Lemma gated_step_other_reports (g : bool) (r : Report)
    (values : date -> date -> F) (t : Table F) (k' : nat) :
  table_wf t -> pk r <> Some k' ->
  rows_of_report k' (snd (gated_step g (table_step r values) t))
  = rows_of_report k' t.
Proof.
  intros Hwf Hk. unfold gated_step. destruct g; [|reflexivity].
  assert (H : rows_of_report k' (snd (table_step r values t)) = rows_of_report k' t).
  { unfold table_step.
    destruct (get_date_range_for_report r) as [[s e]|x]; [|reflexivity].
    now apply upsert_other_reports. }
  destruct (table_step r values t) as [[row|e] t']; exact H.
Qed.

End OtherReports.

(** X11.  Recomputing one report never touches the result rows of another:
    in each of the three tables the rows of every other report are the same
    after the run, provided primary keys are unique. *)
Theorem other_reports_rows_untouched (r : Report) (db : DB) (k' : nat) :
  results_wf db -> pk r <> Some k' ->
  let db' := snd (calculate_report_statistics r db) in
  rows_of_report k' (job_results db') = rows_of_report k' (job_results db)
  /\ rows_of_report k' (order_results db') = rows_of_report k' (order_results db)
  /\ rows_of_report k' (user_results db') = rows_of_report k' (user_results db).
Proof.
  intros (Hj & Ho & Hu) Hk. cbv zeta.
  destruct (calculate_report_statistics_on r db) as (_ & E & _).
  pose proof (steps_on_tables r (job_values db) (order_values db) (user_values db)
                (job_results db) (order_results db) (user_results db)) as H.
  rewrite <- E in H. unfold result_tables in H.
  destruct H as (Ej & Eo & Eu).
  split; [|split].
  - rewrite Ej. now apply gated_step_other_reports.
  - destruct Eo as [Eo|Eo]; rewrite Eo; [reflexivity|].
    now apply gated_step_other_reports.
  - destruct Eu as [Eu|Eu]; rewrite Eu; [reflexivity|].
    now apply gated_step_other_reports.
Qed.

Lemma other_reports_rows_untouched_witness :
  let r2 := sample_report 2 "combined" "Q2" 2024 "Q3" 2024 in
  rows_of_report 1 (job_results (snd (calculate_report_statistics r2 sample_db_computed)))
  = rows_of_report 1 (job_results sample_db_computed).
Proof.
  cbv zeta.
  apply (other_reports_rows_untouched
           (sample_report 2 "combined" "Q2" 2024 "Q3" 2024) sample_db_computed 1).
  - unfold results_wf, table_wf. vm_compute.
    repeat split; repeat (constructor; try solve_in_nil).
  - discriminate.
Defined.

(* ================================================================= *)
(** ** The constraints across saves *)

Lemma db_ok_same_tables (db db0 : DB) :
  job_results db0 = job_results db -> order_results db0 = order_results db ->
  user_results db0 = user_results db -> db_ok db -> db_ok db0.
Proof.
  unfold db_ok, results_wf. intros -> -> ->. auto.
Qed.

(** The state in which [Report.save] leaves the database is the state in
    which the recomputation leaves it. *)
Lemma Report_save_state (r : Report) (db : DB) :
  exists r' db0,
    Model_save r db = (Ok r', db0)
    /\ snd (Report_save r db) = snd (calculate_report_statistics r' db0)
    /\ fst (Report_save r db)
       = match fst (calculate_report_statistics r' db0) with
         | Ok _ => Ok r'
         | Raise e => Raise e
         end.
Proof.
  destruct (Model_save_frame r db) as (r' & db0 & Es & _).
  exists r', db0. split; [exact Es|].
  unfold Report_save, bind, ret. rewrite Es.
  destruct (calculate_report_statistics r' db0) as [[[]|e] db1]; auto.
Qed.

(** X12.  Unique primary keys and at most one result row per report are
    invariants of [Report.save]: they hold after every save, whether it
    succeeds or raises, when they held before it. *)
Theorem Report_save_keeps_constraints (r : Report) (db : DB) :
  db_ok db -> db_ok (snd (Report_save r db)).
Proof.
  intros Hok.
  destruct (Report_save_state r db) as (r' & db0 & Es & E & _).
  destruct (Model_save_frame r db) as (r1 & db1 & Es1 & Hj & Ho & Hu & _).
  rewrite Es in Es1. inversion Es1; subst r1 db1.
  rewrite E. apply calculate_report_statistics_keeps_constraints.
  now apply (db_ok_same_tables db).
Qed.

Lemma Report_save_keeps_constraints_witness :
  db_ok (snd (Report_save (mkReport None "first quarter" "combined" "Q1" 2024 "Q1" 2024)
                sample_db)).
Proof.
  apply (Report_save_keeps_constraints
           (mkReport None "first quarter" "combined" "Q1" 2024 "Q1" 2024) sample_db).
  solve_db_ok.
Defined.

(* ================================================================= *)
(** ** Saving a report, end to end *)

(** What [Model.save] does to a report and to the database: the instance
    comes back with a key and is a row of the report table; nothing else is
    written. *)
Lemma Model_save_spec (r : Report) (db : DB) :
  exists r' db0 k,
    Model_save r db = (Ok r', db0)
    /\ pk r' = Some k /\ In r' (reports db0)
    /\ r' = with_pk r k
    /\ result_tables db0 = result_tables db
    /\ jobs db0 = jobs db /\ orders db0 = orders db /\ users db0 = users db
    /\ account_managers db0 = account_managers db /\ customers db0 = customers db
    /\ match pk r with
       | None => k = reports_next_pk db /\ reports db0 = (reports db ++ [r'])%list
       | Some k0 => k = k0
       end.
Proof.
  unfold Model_save. destruct (pk r) as [k0|] eqn:Ek.
  - assert (Er : r = with_pk r k0) by (destruct r; simpl in *; now subst).
    destruct (existsb (has_pk k0) (reports db)) eqn:Ex.
    + exists r, (set_reports (map (fun x => if has_pk k0 x then r else x) (reports db))
                   (reports_next_pk db) db), k0.
      split; [reflexivity|]. split; [exact Ek|]. split.
      * apply existsb_exists in Ex. destruct Ex as (x & Hx & Hp).
        cbn [reports set_reports]. apply in_map_iff. exists x.
        rewrite Hp. auto.
      * repeat split; auto.
    + exists r, (set_reports (reports db ++ [r]) (reports_next_pk db) db), k0.
      split; [reflexivity|]. split; [exact Ek|]. split.
      * cbn [reports set_reports]. apply in_or_app. right. simpl. auto.
      * repeat split; auto.
  - exists (with_pk r (reports_next_pk db)),
      (set_reports (reports db ++ [with_pk r (reports_next_pk db)])
         (S (reports_next_pk db)) db), (reports_next_pk db).
    split; [reflexivity|]. split; [reflexivity|]. split.
    + cbn [reports set_reports]. apply in_or_app. right. simpl. auto.
    + repeat split; auto.
Qed.

Lemma with_pk_range (r : Report) (k : nat) :
  get_date_range_for_report (with_pk r k) = get_date_range_for_report r.
Proof. reflexivity. Qed.

Lemma gated_step_on {F} (r : Report) (k : nat) (s e : date)
    (values : date -> date -> F) (t : Table F) :
  pk r = Some k -> get_date_range_for_report r = Ok (s, e) ->
  table_wf t -> one_row_per_report t ->
  exists row t',
    gated_step true (table_step r values) t = (Ok tt, t')
    /\ upserted k (values s e) t t' row.
Proof.
  intros Hk Hr Hwf Hone.
  destruct (upsert_upserted k (values s e) t Hwf Hone) as (row & t' & E & H).
  exists row, t'. split; [|exact H].
  unfold gated_step, table_step. now rewrite Hr, Hk, E.
Qed.

(** X13.  Saving a combined report whose range resolves, on tables that
    satisfy the key constraints, succeeds: the report comes back with a key and
    is in the report table, and each of the three result tables then holds
    exactly one row for that key, with the statistics computed from the jobs,
    orders and users of the database. *)
Theorem Report_save_combined (r : Report) (s e : date) (db : DB) :
  report_type r = "combined" ->
  get_date_range_for_report r = Ok (s, e) ->
  db_ok db ->
  exists r' db' k jr or ur,
    Report_save r db = (Ok r', db')
    /\ pk r' = Some k /\ In r' (reports db')
    /\ rows_of_report k (job_results db') = [jr]
    /\ row_fields jr = job_statistics s e (jobs db)
    /\ rows_of_report k (order_results db') = [or]
    /\ row_fields or = order_statistics s e (orders db)
    /\ rows_of_report k (user_results db') = [ur]
    /\ row_fields ur
       = user_statistics s e (users db) (customers db) (account_managers db)
           (orders db).
Proof.
  intros Hty Hr ((Hj & Ho & Hu) & Oj & Oo & Ou).
  destruct (Model_save_spec r db)
    as (r' & db0 & k & Es & Hk & Hin & Er' & Ets & Ejobs & Eorders & Eusers
        & Emgr & Ecust & _).
  unfold result_tables in Ets. inversion Ets as [[Etj Eto Etu]].
  assert (Hr' : get_date_range_for_report r' = Ok (s, e))
    by (rewrite Er', with_pk_range; exact Hr).
  assert (Hty' : report_type r' = "combined") by (rewrite Er'; exact Hty).
  destruct (gated_step_on r' k s e (job_values db0) (job_results db0) Hk Hr')
    as (jr & tj & Gj & Uj); [rewrite Etj; assumption..|].
  destruct (gated_step_on r' k s e (order_values db0) (order_results db0) Hk Hr')
    as (or & to & Go & Uo); [rewrite Eto; assumption..|].
  destruct (gated_step_on r' k s e (user_values db0) (user_results db0) Hk Hr')
    as (ur & tu & Gu & Uu); [rewrite Etu; assumption..|].
  assert (Ec : calculate_report_statistics r' db0
               = (Ok tt, set_result_tables (tj, to, tu) db0)).
  { rewrite calculate_report_statistics_steps, report_steps_on.
    unfold steps_on. rewrite Hty'.
    change (in_list "combined" ["job"; "combined"]) with true.
    change (in_list "combined" ["order"; "combined"]) with true.
    change (in_list "combined" ["user"; "combined"]) with true.
    now rewrite Gj, Go, Gu. }
  exists r', (set_result_tables (tj, to, tu) db0), k, jr, or, ur.
  destruct Uj as (_ & Fj & Rj & _). destruct Uo as (_ & Fo & Ro & _).
  destruct Uu as (_ & Fu & Ru & _).
  split.
  { unfold Report_save, bind, ret. now rewrite Es, Ec. }
  split; [exact Hk|]. split; [exact Hin|].
  unfold job_values, order_values, user_values in Fj, Fo, Fu.
  rewrite Ejobs in Fj. rewrite Eorders in Fo.
  rewrite Eusers, Ecust, Emgr, Eorders in Fu.
  repeat split; assumption.
Qed.

Lemma Report_save_combined_witness :
  exists r' db' k jr or ur,
    Report_save (mkReport None "first quarter" "combined" "Q1" 2024 "Q1" 2024)
      sample_db = (Ok r', db')
    /\ pk r' = Some k /\ In r' (reports db')
    /\ rows_of_report k (job_results db') = [jr]
    /\ row_fields jr = job_statistics (mkdate 2024 1 1) (mkdate 2024 3 31) sample_jobs
    /\ rows_of_report k (order_results db') = [or]
    /\ row_fields or
       = order_statistics (mkdate 2024 1 1) (mkdate 2024 3 31) sample_orders
    /\ rows_of_report k (user_results db') = [ur]
    /\ row_fields ur
       = user_statistics (mkdate 2024 1 1) (mkdate 2024 3 31) sample_users
           sample_customers sample_managers sample_orders.
Proof.
  apply (Report_save_combined
           (mkReport None "first quarter" "combined" "Q1" 2024 "Q1" 2024)
           (mkdate 2024 1 1) (mkdate 2024 3 31) sample_db);
    [reflexivity|reflexivity|solve_db_ok].
Defined.

(** X14.  After a successful save, saving the report again with only its
    title changed succeeds, leaves the three result tables exactly as they
    were and adds no report row: the row of the report is updated in place. *)
Theorem Report_save_again_after_edit
    (r r1 : Report) (db db1 : DB) (new_title : string) :
  results_wf db ->
  Report_save r db = (Ok r1, db1) ->
  exists db2,
    Report_save (with_title r1 new_title) db1 = (Ok (with_title r1 new_title), db2)
    /\ result_tables db2 = result_tables db1
    /\ List.length (reports db2) = List.length (reports db1)
    /\ In (with_title r1 new_title) (reports db2).
Proof.
  intros (Hj & Ho & Hu) Hsave.
  destruct (Model_save_spec r db)
    as (r' & db0 & k & Es & Hk & Hin & _ & Ets & _).
  unfold result_tables in Ets. inversion Ets as [[Etj Eto Etu]].
  destruct (Report_save_state r db) as (r0 & db0' & Es' & Esnd & Efst).
  rewrite Es in Es'. inversion Es'; subst r0 db0'. clear Es'.
  rewrite Hsave in Esnd, Efst. cbn [fst snd] in Esnd, Efst.
  destruct (calculate_report_statistics_on r' db0) as (Ef & Et & Edb).
  destruct (fst (calculate_report_statistics r' db0)) as [[]|e] eqn:Efc;
    [|discriminate].
  inversion Efst; subst r1. clear Efst.
  rewrite <- Esnd in Et, Edb.
  set (out := steps_on r' (job_values db0) (order_values db0) (user_values db0)
                (job_results db0) (order_results db0) (user_results db0)) in *.
  pose proof (steps_on_again r' (job_values db0) (order_values db0) (user_values db0)
                (job_results db0) (order_results db0) (user_results db0)) as Hagain.
  rewrite Etj, Eto, Etu in Hagain. specialize (Hagain Hj Ho Hu).
  rewrite <- Etj, <- Eto, <- Etu in Hagain. cbv zeta in Hagain.
  fold out in Hagain. rewrite <- Et in Hagain.
  unfold result_tables in Hagain.
  set (r2 := with_title r' new_title).
  assert (Hk2 : pk r2 = Some k) by exact Hk.
  assert (Hreports : reports db1 = reports db0).
  { rewrite Edb. unfold set_result_tables.
    destruct (result_tables db1) as [[a b] c]. reflexivity. }
  assert (Hex : existsb (has_pk k) (reports db1) = true).
  { apply existsb_exists. exists r'. rewrite Hreports. split; [exact Hin|].
    unfold has_pk. rewrite Hk. apply Nat.eqb_refl. }
  set (db1a := set_reports (map (fun x => if has_pk k x then r2 else x) (reports db1))
                 (reports_next_pk db1) db1).
  assert (Es2 : Model_save r2 db1 = (Ok r2, db1a)).
  { unfold Model_save. rewrite Hk2, Hex. reflexivity. }
  destruct (calculate_report_statistics_on r2 db1a) as (Ef2 & Et2 & Edb2).
  assert (Eout : steps_on r2 (job_values db1a) (order_values db1a) (user_values db1a)
                   (job_results db1a) (order_results db1a) (user_results db1a)
                 = out).
  { rewrite (steps_on_ext r2 r') by reflexivity.
    assert (Ev : job_values db1a = job_values db0
                 /\ order_values db1a = order_values db0
                 /\ user_values db1a = user_values db0).
    { unfold job_values, order_values, user_values, db1a.
      cbn [jobs orders users customers account_managers set_reports].
      rewrite Edb. unfold set_result_tables.
      destruct (result_tables db1) as [[a b] c]. auto. }
    destruct Ev as (-> & -> & ->). exact Hagain. }
  rewrite Eout in Ef2, Et2.
  exists (snd (calculate_report_statistics r2 db1a)).
  split.
  { unfold Report_save, bind, ret. rewrite Es2.
    destruct (calculate_report_statistics r2 db1a) as [res2 db2] eqn:Ec2.
    change (res2 = fst out) in Ef2. rewrite <- Ef in Ef2. subst res2.
    reflexivity. }
  split; [rewrite Et2; symmetry; exact Et|].
  rewrite Edb2. unfold set_result_tables.
  destruct (result_tables (snd (calculate_report_statistics r2 db1a))) as [[a b] c].
  cbn [reports set_user_results set_order_results set_job_results].
  unfold db1a; cbn [reports set_reports]. split.
  - apply length_map.
  - apply in_map_iff. exists r'. split.
    + unfold has_pk. now rewrite Hk, Nat.eqb_refl.
    + rewrite Hreports. exact Hin.
Qed.

Lemma Report_save_again_after_edit_witness :
  exists db2,
    Report_save (with_title (with_pk new_report 1) "Q1 2024, final")
      (snd (Report_save new_report sample_db))
    = (Ok (with_title (with_pk new_report 1) "Q1 2024, final"), db2)
    /\ result_tables db2 = result_tables (snd (Report_save new_report sample_db))
    /\ List.length (reports db2)
       = List.length (reports (snd (Report_save new_report sample_db)))
    /\ In (with_title (with_pk new_report 1) "Q1 2024, final") (reports db2).
Proof.
  apply (Report_save_again_after_edit new_report (with_pk new_report 1) sample_db
           (snd (Report_save new_report sample_db)) "Q1 2024, final").
  - unfold results_wf, table_wf; simpl. repeat split; constructor.
  - vm_compute. reflexivity.
Defined.

(* ================================================================= *)
(** ** Saving a job *)

Lemma Model_save_job_full (self : JobInstance.t) (tbl : list Job.t) :
  exists k tbl',
    Model_save_job false self tbl = (Done (job_with_pk self k), tbl')
    /\ In (job_row k self) tbl'
    /\ existsb (has_job_pk k) tbl' = true.
Proof.
  unfold Model_save_job. destruct self as [[k|] st ty sd ed ct]; cbn [JobInstance.pk].
  - destruct (existsb (has_job_pk k) tbl) eqn:Ex.
    + exists k. eexists. split; [reflexivity|].
      apply existsb_exists in Ex. destruct Ex as (j & Hj & Hp).
      split.
      * apply in_map_iff. exists j. rewrite Hp. auto.
      * apply existsb_exists. eexists. split.
        -- apply in_map_iff. exists j. rewrite Hp. split; [reflexivity|exact Hj].
        -- unfold has_job_pk. simpl. apply Nat.eqb_refl.
    + exists k. eexists. split; [reflexivity|]. split.
      * apply in_or_app. right. simpl. auto.
      * rewrite existsb_app. simpl. unfold has_job_pk at 2. simpl.
        rewrite Nat.eqb_refl. now rewrite orb_true_r.
  - eexists _, _. split; [reflexivity|]. split.
    + apply in_or_app. right. simpl. auto.
    + rewrite existsb_app. simpl. unfold has_job_pk at 2. simpl.
      rewrite Nat.eqb_refl. now rewrite orb_true_r.
Qed.

Lemma Model_save_job_column (self : JobInstance.t) (k : nat) (tbl : list Job.t) :
  JobInstance.pk self = Some k -> existsb (has_job_pk k) tbl = true ->
  exists tbl',
    Model_save_job true self tbl = (Done self, tbl')
    /\ existsb (has_job_pk k) tbl' = true
    /\ forall j, In j tbl -> Job.pk j = k ->
         In (row_with_completion_time j (JobInstance.completion_time self)) tbl'.
Proof.
  intros Hk Hex. unfold Model_save_job. rewrite Hk, Hex.
  eexists. split; [reflexivity|]. split.
  - apply existsb_exists in Hex. destruct Hex as (j & Hj & Hp).
    apply existsb_exists. eexists. split.
    + apply in_map_iff. exists j. rewrite Hp. split; [reflexivity|exact Hj].
    + unfold has_job_pk in *. simpl. exact Hp.
  - intros j Hj Ej. apply in_map_iff. exists j.
    unfold has_job_pk. rewrite Ej, Nat.eqb_refl. auto.
Qed.

Lemma micros_to_days_falsy (delta : Z) :
  falsy (Some (micros_to_days (inject_Z delta))) = true <-> delta = 0.
Proof.
  unfold falsy. rewrite Qeq_bool_iff. split.
  - intros H. apply micros_to_days_zero in H.
    unfold Qeq in H; simpl in H. lia.
  - intros ->. reflexivity.
Qed.

(** X15.  Saving a completed job that has an end date different from its
    starting date and no completion time yet succeeds (two nested calls of
    [save] suffice) and sets the completion time to [end_date -
    starting_date] in days, on the instance and in its row. *)
Theorem Job_save_sets_completion_time
    (depth : nat) (self : JobInstance.t) (tbl : list Job.t) (e : datetime) :
  JobInstance.state self = "completed" ->
  falsy (JobInstance.completion_time self) = true ->
  JobInstance.end_date self = Some e ->
  dt_sub e (JobInstance.starting_date self) <> 0 ->
  exists k tbl',
    let days := micros_to_days (inject_Z (dt_sub e (JobInstance.starting_date self))) in
    let saved := job_with_completion_time (job_with_pk self k) (Some days) in
    Job_save (S (S depth)) false self tbl = (Done saved, tbl')
    /\ In (job_row k saved) tbl'.
Proof.
  intros Hst Hf He Hd.
  destruct (Model_save_job_full self tbl) as (k & tbl1 & E1 & Hin1 & Hex1).
  set (days := micros_to_days (inject_Z (dt_sub e (JobInstance.starting_date self)))).
  set (saved := job_with_completion_time (job_with_pk self k) (Some days)).
  destruct (Model_save_job_column saved k tbl1 eq_refl Hex1) as (tbl2 & E2 & _ & Hin2).
  exists k, tbl2. cbv zeta. fold days. fold saved.
  cbn [Job_save]. rewrite E1.
  cbn [job_with_pk JobInstance.state JobInstance.completion_time JobInstance.end_date].
  rewrite Hst, Hf, He. cbn [String.eqb andb is_some].
  change (String.eqb "completed" "completed") with true. cbn [andb].
  unfold calculate_completion_time.
  cbn [job_with_pk JobInstance.end_date JobInstance.starting_date].
  rewrite He. fold days. fold saved.
  rewrite E2.
  assert (Hnf : falsy (JobInstance.completion_time saved) = false).
  { unfold saved, days. cbn [job_with_completion_time JobInstance.completion_time].
    apply not_true_iff_false. rewrite micros_to_days_falsy. exact Hd. }
  rewrite Hnf, andb_false_r. cbn [andb].
  split; [reflexivity|].
  apply (Hin2 (job_row k self) Hin1 eq_refl).
Qed.

Lemma Job_save_sets_completion_time_witness :
  exists k tbl',
    Job_save 2 false three_day_job []
    = (Done (job_with_completion_time (job_with_pk three_day_job k)
               (Some (micros_to_days
                        (inject_Z (dt_sub (datetime_of 2024 2 4 9 0 0)
                                     (datetime_of 2024 2 1 9 0 0)))))), tbl')
    /\ In (job_row k
             (job_with_completion_time (job_with_pk three_day_job k)
                (Some (micros_to_days
                         (inject_Z (dt_sub (datetime_of 2024 2 4 9 0 0)
                                      (datetime_of 2024 2 1 9 0 0)))))))
          tbl'.
Proof.
  apply (Job_save_sets_completion_time 0 three_day_job [] (datetime_of 2024 2 4 9 0 0));
    try reflexivity.
  vm_compute. discriminate.
Defined.

(** While the job is completed, has an end date equal in time to its
    starting date and a falsy completion time, every call of [save] leads to
    another one. *)
Lemma Job_save_zero_duration_loops (depth : nat) :
  forall (flag : bool) (self : JobInstance.t) (tbl : list Job.t) (e : datetime),
    JobInstance.state self = "completed" ->
    falsy (JobInstance.completion_time self) = true ->
    JobInstance.end_date self = Some e ->
    dt_sub e (JobInstance.starting_date self) = 0 ->
    (flag = true ->
     exists k, JobInstance.pk self = Some k /\ existsb (has_job_pk k) tbl = true) ->
    fst (Job_save depth flag self tbl) = Fails RecursionError.
Proof.
  induction depth as [|depth IH]; intros flag self tbl e Hst Hf He Hd Hflag;
    [reflexivity|].
  cbn [Job_save].
  assert (Hsave : exists k tbl1,
             Model_save_job flag self tbl = (Done (job_with_pk self k), tbl1)
             /\ existsb (has_job_pk k) tbl1 = true).
  { destruct flag.
    - destruct (Hflag eq_refl) as (k & Hk & Hex).
      destruct (Model_save_job_column self k tbl Hk Hex) as (tbl1 & E & Hex1 & _).
      exists k, tbl1. split; [|exact Hex1].
      rewrite E. destruct self; simpl in *. now subst.
    - destruct (Model_save_job_full self tbl) as (k & tbl1 & E & _ & Hex1).
      exists k, tbl1. auto. }
  destruct Hsave as (k & tbl1 & E & Hex1). rewrite E.
  cbn [job_with_pk JobInstance.state JobInstance.completion_time JobInstance.end_date].
  rewrite Hst, Hf, He.
  change (String.eqb "completed" "completed") with true. cbn [andb is_some].
  unfold calculate_completion_time.
  cbn [job_with_pk JobInstance.end_date JobInstance.starting_date].
  rewrite He. rewrite Hd.
  apply (IH true _ tbl1 e).
  - exact Hst.
  - reflexivity.
  - exact He.
  - exact Hd.
  - intros _. exists k. split; [reflexivity|exact Hex1].
Qed.

(** X16.  Saving a completed job whose end date equals its starting date
    and whose completion time is unset or zero never returns: the completion
    time it computes is zero, which [save] takes for missing, so [save] and
    [calculate_completion_time] call each other until the interpreter raises
    [RecursionError], whatever the recursion limit. *)
Theorem Job_save_zero_duration_raises
    (depth : nat) (self : JobInstance.t) (tbl : list Job.t) (e : datetime) :
  JobInstance.state self = "completed" ->
  falsy (JobInstance.completion_time self) = true ->
  JobInstance.end_date self = Some e ->
  dt_sub e (JobInstance.starting_date self) = 0 ->
  fst (Job_save depth false self tbl) = Fails RecursionError.
Proof.
  intros Hst Hf He Hd.
  apply (Job_save_zero_duration_loops depth false self tbl e); try assumption.
  discriminate.
Qed.

Lemma Job_save_zero_duration_raises_witness :
  fst (Job_save 1000 false instant_job []) = Fails RecursionError.
Proof.
  apply (Job_save_zero_duration_raises 1000 instant_job []
           (datetime_of 2024 2 1 9 0 0)); reflexivity.
Defined.

(** X17.  Whenever [Job.save] returns normally, it has changed nothing of
    the job but, at most, its key and its completion time.  A completion time
    that is set and non-zero is kept as it is, and so is any completion time
    of a job that is not completed or has no end date; a missing (or zero)
    one of a completed job with an end date has been computed, as [end_date -
    starting_date] in days.  Hence the saved job, if it is completed and has
    an end date, has a non-zero completion time. *)
Theorem Job_save_completed_has_completion_time
    (depth : nat) (self saved : JobInstance.t) (tbl tbl' : list Job.t) :
  Job_save depth false self tbl = (Done saved, tbl') ->
  JobInstance.state saved = JobInstance.state self
  /\ JobInstance.job_type saved = JobInstance.job_type self
  /\ JobInstance.starting_date saved = JobInstance.starting_date self
  /\ JobInstance.end_date saved = JobInstance.end_date self
  /\ (falsy (JobInstance.completion_time self) = false ->
      JobInstance.completion_time saved = JobInstance.completion_time self)
  /\ (JobInstance.state self <> "completed" \/ JobInstance.end_date self = None ->
      JobInstance.completion_time saved = JobInstance.completion_time self)
  /\ (forall e,
        JobInstance.state self = "completed" ->
        JobInstance.end_date self = Some e ->
        falsy (JobInstance.completion_time self) = true ->
        JobInstance.completion_time saved
        = Some (micros_to_days
                  (inject_Z (dt_sub e (JobInstance.starting_date self)))))
  /\ (JobInstance.state saved = "completed" ->
      is_some (JobInstance.end_date saved) = true ->
      falsy (JobInstance.completion_time saved) = false).
Proof.
  destruct depth as [|depth]; [discriminate|].
  cbn [Job_save].
  destruct (Model_save_job_full self tbl) as (k & tbl1 & E1 & Hin1 & Hex1).
  rewrite E1.
  cbn [job_with_pk JobInstance.state JobInstance.completion_time JobInstance.end_date].
  destruct (String.eqb (JobInstance.state self) "completed"
            && falsy (JobInstance.completion_time self)
            && is_some (JobInstance.end_date self)) eqn:Ec.
  - apply andb_true_iff in Ec. destruct Ec as [Ec Hend].
    apply andb_true_iff in Ec. destruct Ec as [Hst Hf].
    apply String.eqb_eq in Hst.
    unfold calculate_completion_time.
    cbn [job_with_pk JobInstance.end_date JobInstance.starting_date].
    destruct (JobInstance.end_date self) as [e|] eqn:He; [|discriminate].
    destruct (Z.eq_dec (dt_sub e (JobInstance.starting_date self)) 0) as [Hd|Hd].
    + intros H. exfalso.
      match type of H with
      | Job_save ?d ?f ?j ?t = _ =>
          assert (Hloop : fst (Job_save d f j t) = Fails RecursionError)
      end.
      { apply (Job_save_zero_duration_loops depth true _ tbl1 e).
        - exact Hst.
        - apply micros_to_days_falsy. exact Hd.
        - exact He.
        - exact Hd.
        - intros _. exists k. split; [reflexivity|exact Hex1]. }
      rewrite H in Hloop. discriminate Hloop.
    + destruct depth as [|depth]; [discriminate|].
      cbn [Job_save].
      set (j2 := job_with_completion_time _ _).
      destruct (Model_save_job_column j2 k tbl1 eq_refl Hex1) as (tbl2 & E2 & _).
      rewrite E2.
      assert (Hnf : falsy (JobInstance.completion_time j2) = false).
      { apply not_true_iff_false. unfold j2.
        cbn [job_with_completion_time JobInstance.completion_time].
        rewrite micros_to_days_falsy. exact Hd. }
      rewrite Hnf, andb_false_r. cbn [andb].
      intros H. inversion H; subst saved tbl'. clear H.
      split; [reflexivity|]. split; [reflexivity|]. split; [reflexivity|].
      split; [exact He|]. split; [congruence|]. split.
      * intros [Hn|Hn]; [contradiction|discriminate].
      * split; [|intros _ _; exact Hnf].
        intros e' _ He' _. inversion He'; subst e'. reflexivity.
  - intros H. inversion H; subst saved tbl'. clear H.
    cbn [job_with_pk JobInstance.state JobInstance.job_type
         JobInstance.starting_date JobInstance.completion_time
         JobInstance.end_date].
    split; [reflexivity|]. split; [reflexivity|]. split; [reflexivity|].
    split; [reflexivity|]. split; [reflexivity|]. split; [reflexivity|].
    split.
    + intros e Hst He Hf. rewrite Hst, Hf, He in Ec.
      change (String.eqb "completed" "completed") with true in Ec.
      discriminate Ec.
    + intros Hst Hend. rewrite Hst, Hend in Ec.
      change (String.eqb "completed" "completed") with true in Ec.
      cbn [andb] in Ec. rewrite andb_true_r in Ec. exact Ec.
Qed.

Lemma Job_save_completed_has_completion_time_witness :
  JobInstance.state three_day_job_saved = JobInstance.state three_day_job
  /\ JobInstance.job_type three_day_job_saved = JobInstance.job_type three_day_job
  /\ JobInstance.starting_date three_day_job_saved
     = JobInstance.starting_date three_day_job
  /\ JobInstance.end_date three_day_job_saved = JobInstance.end_date three_day_job
  /\ (falsy (JobInstance.completion_time three_day_job) = false ->
      JobInstance.completion_time three_day_job_saved
      = JobInstance.completion_time three_day_job)
  /\ (JobInstance.state three_day_job <> "completed"
      \/ JobInstance.end_date three_day_job = None ->
      JobInstance.completion_time three_day_job_saved
      = JobInstance.completion_time three_day_job)
  /\ (forall e,
        JobInstance.state three_day_job = "completed" ->
        JobInstance.end_date three_day_job = Some e ->
        falsy (JobInstance.completion_time three_day_job) = true ->
        JobInstance.completion_time three_day_job_saved
        = Some (micros_to_days
                  (inject_Z (dt_sub e (JobInstance.starting_date three_day_job)))))
  /\ (JobInstance.state three_day_job_saved = "completed" ->
      is_some (JobInstance.end_date three_day_job_saved) = true ->
      falsy (JobInstance.completion_time three_day_job_saved) = false).
Proof.
  apply (Job_save_completed_has_completion_time 2 three_day_job three_day_job_saved
           [] (snd (Job_save 2 false three_day_job []))).
  vm_compute. reflexivity.
Defined.

(* ================================================================= *)
(** ** The orders an administrator sees *)

Lemma filter_key_unique {A} (key : A -> nat) (k : nat) (l : list A) :
  NoDup (map key l) ->
  filter (fun x => Nat.eqb (key x) k) l = []
  \/ exists x, filter (fun x => Nat.eqb (key x) k) l = [x].
Proof.
  induction l as [|a l IH]; simpl; intros Hnd; [now left|].
  apply NoDup_cons_iff in Hnd. destruct Hnd as [Hna Hnd].
  destruct (Nat.eqb_spec (key a) k) as [E|E]; [|auto].
  right. exists a. f_equal.
  destruct (filter (fun x => Nat.eqb (key x) k) l) as [|x l'] eqn:Hf;
    [reflexivity|].
  exfalso. apply Hna.
  assert (Hx : In x (filter (fun x => Nat.eqb (key x) k) l))
    by (rewrite Hf; simpl; auto).
  apply filter_In in Hx. destruct Hx as [Hx Ek]. apply Nat.eqb_eq in Ek.
  rewrite E, <- Ek. now apply in_map.
Qed.

Lemma in_group_iff (g : string) (groups : list string) :
  existsb (String.eqb g) groups = true <-> In g groups.
Proof.
  rewrite existsb_exists. split.
  - intros (x & Hx & E). apply String.eqb_eq in E. now subst.
  - intros H. exists g. split; [exact H|apply String.eqb_refl].
Qed.

(** X18.  When no two account managers share a user, [get_queryset] never
    raises, and it returns exactly these orders: all of them for a superuser
    and for a user outside the account_manager group; for any other user,
    those managed by the account manager whose user is the requester, hence
    none when the requester has no account manager profile. *)
Theorem get_queryset_visibility
    (request : Requester) (managers : list AccountManager.t)
    (all_orders : list Order.t) :
  NoDup (map AccountManager.user managers) ->
  exists visible,
    get_queryset request managers all_orders = Done visible
    /\ forall o,
         In o visible <->
         In o all_orders
         /\ (is_superuser request = true
             \/ ~ In "account_manager" (req_groups request)
             \/ exists m, In m managers
                          /\ AccountManager.user m = req_user request
                          /\ Order.account_manager o = AccountManager.pk m).
Proof.
  intros Hnd. unfold get_queryset.
  destruct (negb (is_superuser request)
            && existsb (String.eqb "account_manager") (req_groups request)) eqn:Ec.
  - apply andb_true_iff in Ec. destruct Ec as [Hsu Hg].
    apply negb_true_iff in Hsu. apply in_group_iff in Hg.
    unfold get_account_manager.
    destruct (filter_key_unique AccountManager.user (req_user request) managers Hnd)
      as [Ef|[m Ef]]; rewrite Ef.
    + exists []. split; [reflexivity|]. intros o. split; [intros []|].
      intros (_ & [H|[H|(m & Hm & Eu & _)]]); [congruence|contradiction|].
      assert (Hin : In m (filter (fun x => Nat.eqb (AccountManager.user x)
                                             (req_user request)) managers)).
      { apply filter_In. split; [exact Hm|]. now apply Nat.eqb_eq. }
      rewrite Ef in Hin. exact Hin.
    + eexists. split; [reflexivity|]. intros o. rewrite filter_In.
      assert (Hm : In m managers /\ AccountManager.user m = req_user request).
      { assert (Hin : In m (filter (fun x => Nat.eqb (AccountManager.user x)
                                               (req_user request)) managers))
          by (rewrite Ef; simpl; auto).
        apply filter_In in Hin. destruct Hin as [Hin E].
        apply Nat.eqb_eq in E. auto. }
      split.
      * intros [Ho E]. apply Nat.eqb_eq in E. split; [exact Ho|].
        right. right. exists m. tauto.
      * intros (Ho & [H|[H|(m' & Hm' & Eu & Eo)]]); [congruence|contradiction|].
        split; [exact Ho|]. apply Nat.eqb_eq.
        assert (Hin : In m' (filter (fun x => Nat.eqb (AccountManager.user x)
                                                (req_user request)) managers)).
        { apply filter_In. split; [exact Hm'|]. now apply Nat.eqb_eq. }
        rewrite Ef in Hin. destruct Hin as [<-|[]]. exact Eo.
  - exists all_orders. split; [reflexivity|]. intros o. split; [|tauto].
    intros Ho. split; [exact Ho|].
    apply andb_false_iff in Ec. destruct Ec as [Hsu|Hg].
    + left. now apply negb_false_iff in Hsu.
    + right. left. rewrite <- in_group_iff. congruence.
Qed.

Lemma get_queryset_visibility_witness :
  exists visible,
    get_queryset sample_requester sample_managers sample_orders = Done visible
    /\ forall o,
         In o visible <->
         In o sample_orders
         /\ (is_superuser sample_requester = true
             \/ ~ In "account_manager" (req_groups sample_requester)
             \/ exists m, In m sample_managers
                          /\ AccountManager.user m = req_user sample_requester
                          /\ Order.account_manager o = AccountManager.pk m).
Proof.
  apply (get_queryset_visibility sample_requester sample_managers sample_orders).
  simpl. repeat (constructor; [solve_in_nil|]). constructor.
Defined.

(* ================================================================= *)
(** ** Saving orders and order items *)

Lemma filter_map_replace {A} (p : A -> bool) (r : A) (l : list A) :
  p r = true ->
  filter p (map (fun o => if p o then r else o) l)
  = map (fun _ => r) (filter p l).
Proof.
  intros Hr. induction l as [|a l IH]; [reflexivity|].
  cbn [map filter]. destruct (p a) eqn:Ea.
  - rewrite Hr. cbn [map]. now rewrite IH.
  - rewrite Ea. exact IH.
Qed.

Lemma map_replace_others {A} (p : A -> bool) (r : A) (l : list A) (x : A) :
  In x l -> p x = false -> In x (map (fun o => if p o then r else o) l).
Proof.
  intros Hx Hp. apply in_map_iff. exists x. now rewrite Hp.
Qed.

Lemma get_order_unique (tbl : list Order.t) (k : nat) (old : Order.t) :
  NoDup (map Order.pk tbl) -> In old tbl -> Order.pk old = k ->
  filter (has_order_pk k) tbl = [old].
Proof.
  intros Hnd Hin Hk.
  assert (Hf : In old (filter (has_order_pk k) tbl)).
  { apply filter_In. split; [exact Hin|]. unfold has_order_pk. now apply Nat.eqb_eq. }
  destruct (filter_key_unique Order.pk k tbl Hnd) as [E|[x E]];
    fold (has_order_pk k) in E; rewrite E in Hf |- *.
  - destruct Hf.
  - destruct Hf as [->|[]]. reflexivity.
Qed.

Lemma filter_single_exists {A} (p : A -> bool) (l : list A) (x : A) :
  filter p l = [x] -> existsb p l = true /\ In x l /\ p x = true.
Proof.
  intros E.
  assert (Hx : In x (filter p l)) by (rewrite E; simpl; auto).
  apply filter_In in Hx. destruct Hx as [Hx Hp].
  split; [|auto]. apply existsb_exists. eauto.
Qed.

(** X19.  [Order.save] never inserts an order that carries a key: when no
    row has the key of the instance, as for any newly constructed order (the
    field default has already given it one), the lookup of the old row raises
    [DoesNotExist] and nothing is written. *)
Theorem Order_save_unknown_key
    (now stamp : datetime) (self : OrderInstance.t) (k : nat) (tbl : list Order.t) :
  OrderInstance.pk self = Some k ->
  (forall o, In o tbl -> Order.pk o <> k) ->
  Order_save now stamp self tbl = (Fails DoesNotExist, tbl).
Proof.
  intros Hk Hno. unfold Order_save, get_order. rewrite Hk.
  assert (E : filter (has_order_pk k) tbl = []).
  { destruct (filter (has_order_pk k) tbl) as [|o l] eqn:Ef; [reflexivity|].
    assert (Ho : In o (filter (has_order_pk k) tbl)) by (rewrite Ef; simpl; auto).
    apply filter_In in Ho. destruct Ho as [Ho Hp].
    apply Nat.eqb_eq in Hp. now apply Hno in Ho. }
  now rewrite E.
Qed.

Lemma Order_save_unknown_key_witness :
  Order_save (datetime_of 2024 3 1 12 0 0) (datetime_of 2024 3 1 12 0 1)
    (OrderInstance.mk (Some 7%nat) 1 1 "draft" None 0 None) (shop_orders sample_shop)
  = (Fails DoesNotExist, shop_orders sample_shop).
Proof.
  apply (Order_save_unknown_key _ _ _ 7%nat).
  - reflexivity.
  - simpl. intros o [<-|[]]. discriminate.
Defined.

Lemma order_with_completed_at_same (self : OrderInstance.t) :
  order_with_completed_at self (OrderInstance.completed_at self) = self.
Proof. now destruct self. Qed.

(** X20.  Saving an existing order stamps [completed_at] with the current
    time exactly on the transition into completed (stored status not
    completed, new status completed); in every other case the stored
    [completed_at] is the one the instance holds.  The row is updated in
    place: it remains the only row with its key and the other rows are
    kept. *)
Theorem Order_save_stamps_completed_at
    (now stamp c : datetime) (self : OrderInstance.t) (k : nat) (old : Order.t)
    (tbl : list Order.t) :
  OrderInstance.pk self = Some k ->
  OrderInstance.created_at self = Some c ->
  decimal_fits (OrderInstance.total_price self) = true ->
  NoDup (map Order.pk tbl) -> In old tbl -> Order.pk old = k ->
  let stamped :=
    if negb (String.eqb (Order.status old) "completed")
       && String.eqb (OrderInstance.status self) "completed"
    then Some now else OrderInstance.completed_at self in
  exists tbl',
    Order_save now stamp self tbl
    = (Done (order_with_completed_at self stamped), tbl')
    /\ filter (has_order_pk k) tbl'
       = [order_row k c (order_with_completed_at self stamped)]
    /\ List.length tbl' = List.length tbl
    /\ forall o, In o tbl -> Order.pk o <> k -> In o tbl'.
Proof.
  intros Hk Hc Hfit Hnd Hin Hold. cbv zeta.
  pose proof (get_order_unique tbl k old Hnd Hin Hold) as Ef.
  destruct (filter_single_exists _ _ _ Ef) as (Hex & _ & _).
  unfold Order_save, get_order. rewrite Hk, Ef.
  set (self' := if negb (String.eqb (Order.status old) "completed")
                   && String.eqb (OrderInstance.status self) "completed"
                then order_with_completed_at self (Some now) else self).
  set (stamped := if negb (String.eqb (Order.status old) "completed")
                     && String.eqb (OrderInstance.status self) "completed"
                  then Some now else OrderInstance.completed_at self).
  assert (Eself : self' = order_with_completed_at self stamped).
  { unfold self', stamped.
    destruct (negb (String.eqb (Order.status old) "completed")
              && String.eqb (OrderInstance.status self) "completed");
      [reflexivity|symmetry; apply order_with_completed_at_same]. }
  rewrite Eself. unfold Model_save_order.
  cbn [order_with_completed_at OrderInstance.total_price OrderInstance.pk
       OrderInstance.created_at].
  rewrite Hfit, Hk, Hex, Hc. cbn [negb].
  eexists. split; [reflexivity|]. split; [|split].
  - rewrite filter_map_replace by (unfold has_order_pk; simpl; apply Nat.eqb_refl).
    now rewrite Ef.
  - apply length_map.
  - intros o Ho Hne. apply map_replace_others; [exact Ho|].
    unfold has_order_pk. now apply Nat.eqb_neq.
Qed.

Lemma Order_save_stamps_completed_at_witness :
  exists tbl',
    Order_save (datetime_of 2024 3 1 12 0 0) (datetime_of 2024 3 1 12 0 1)
      (OrderInstance.mk (Some 1%nat) 1 1 "completed"
         (Some (datetime_of 2024 1 20 10 0 0)) 20000 None)
      (shop_orders sample_shop)
    = (Done (OrderInstance.mk (Some 1%nat) 1 1 "completed"
               (Some (datetime_of 2024 1 20 10 0 0)) 20000
               (Some (datetime_of 2024 3 1 12 0 0))), tbl')
    /\ filter (has_order_pk 1) tbl'
       = [Order.mk 1 1 1 "completed" (datetime_of 2024 1 20 10 0 0) 20000
            (Some (datetime_of 2024 3 1 12 0 0))]
    /\ List.length tbl' = List.length (shop_orders sample_shop)
    /\ forall o, In o (shop_orders sample_shop) -> Order.pk o <> 1%nat -> In o tbl'.
Proof.
  apply (Order_save_stamps_completed_at
           (datetime_of 2024 3 1 12 0 0) (datetime_of 2024 3 1 12 0 1)
           (datetime_of 2024 1 20 10 0 0)
           (OrderInstance.mk (Some 1%nat) 1 1 "completed"
              (Some (datetime_of 2024 1 20 10 0 0)) 20000 None)
           1%nat
           (Order.mk 1 1 1 "in_progress" (datetime_of 2024 1 20 10 0 0) 20000 None)
           (shop_orders sample_shop));
    try reflexivity.
  - simpl. constructor; [solve_in_nil|constructor].
  - simpl. auto.
Defined.

(** What a successful [Model.save] of an item leaves: the orders and services
    as they were, and the item among the items under its key. *)
Lemma Model_save_item_done (p : Z) (self saved : OrderItemInstance.t) (sh sh' : Shop) :
  Model_save_item p self sh = (Done saved, sh') ->
  shop_orders sh' = shop_orders sh
  /\ shop_services sh' = shop_services sh
  /\ OrderItemInstance.order saved = OrderItemInstance.order self
  /\ exists k, saved = item_saved_as self k p
               /\ In (item_row k p self) (shop_items sh').
Proof.
  unfold Model_save_item.
  destruct (negb (decimal_fits p)); [discriminate|].
  destruct (negb _); [discriminate|].
  set (k := match OrderItemInstance.pk self with
            | Some k => k
            | None => fresh_item_pk (shop_items sh)
            end).
  intros H. inversion H; subst; clear H. cbn [shop_orders shop_services shop_items].
  repeat split. exists k. split; [reflexivity|].
  destruct (existsb (has_item_pk k) (shop_items sh)) eqn:Ex.
  - apply existsb_exists in Ex. destruct Ex as (i & Hi & Hp).
    apply in_map_iff. exists i. now rewrite Hp.
  - apply in_or_app. right. simpl. auto.
Qed.

(** [update_total_price] on an order as the table holds it: when it
    succeeds, the items are as they were, the row of the order carries the
    sum over its items, and the other orders are kept. *)
Lemma update_total_price_loaded
    (now stamp : datetime) (parent : Order.t) (sh sh' : Shop) (u : OrderInstance.t) :
  filter (has_order_pk (Order.pk parent)) (shop_orders sh) = [parent] ->
  update_total_price now stamp (order_instance parent) sh = (Done u, sh') ->
  shop_items sh' = shop_items sh
  /\ (exists o',
        filter (has_order_pk (Order.pk parent)) (shop_orders sh') = [o']
        /\ Order.total_price o'
           = items_total (items_of (Order.pk parent) (shop_items sh)))
  /\ (forall o, In o (shop_orders sh) -> Order.pk o <> Order.pk parent ->
                In o (shop_orders sh')).
Proof.
  intros Ef.
  destruct (filter_single_exists _ _ _ Ef) as (Hex & _ & _).
  unfold update_total_price, Order_save, get_order.
  cbn [order_instance order_with_total_price OrderInstance.pk OrderInstance.status].
  rewrite Ef.
  assert (Hno : negb (String.eqb (Order.status parent) "completed")
                && String.eqb (Order.status parent) "completed" = false)
    by (destruct (String.eqb (Order.status parent) "completed"); reflexivity).
  rewrite Hno. unfold Model_save_order.
  cbn [order_instance order_with_total_price OrderInstance.total_price
       OrderInstance.pk OrderInstance.created_at].
  destruct (negb (decimal_fits _)); [discriminate|].
  rewrite Hex.
  intros H. inversion H; subst; clear H.
  cbn [shop_orders shop_items].
  split; [reflexivity|]. split.
  - eexists. split.
    + rewrite filter_map_replace by (unfold has_order_pk; simpl; apply Nat.eqb_refl).
      rewrite Ef. reflexivity.
    + reflexivity.
  - intros o Ho Hne. apply map_replace_others; [exact Ho|].
    unfold has_order_pk. now apply Nat.eqb_neq.
Qed.

(** X21.  Whenever [OrderItem.save] succeeds, on orders with unique keys,
    the item is stored with the price it names, or with the price of its
    service when it names none or zero, and the total price of the parent
    order is then the sum of price times quantity over the items of that
    order; the other orders are kept as they were. *)
Theorem OrderItem_save_updates_total
    (now stamp : datetime) (self saved : OrderItemInstance.t) (sh sh' : Shop) :
  NoDup (map Order.pk (shop_orders sh)) ->
  OrderItem_save now stamp self sh = (Done saved, sh') ->
  (exists k p,
      price_to_save self (shop_services sh) = Done p
      /\ saved = item_saved_as self k p
      /\ In (item_row k p self) (shop_items sh'))
  /\ (exists parent,
        filter (has_order_pk (OrderItemInstance.order self)) (shop_orders sh')
        = [parent]
        /\ Order.total_price parent
           = items_total (items_of (OrderItemInstance.order self) (shop_items sh')))
  /\ (forall o, In o (shop_orders sh) ->
                Order.pk o <> OrderItemInstance.order self ->
                In o (shop_orders sh')).
Proof.
  intros Hnd. unfold OrderItem_save.
  destruct (price_to_save self (shop_services sh)) as [p|e]; [|discriminate].
  destruct (Model_save_item p self sh) as [[self1|e] sh1] eqn:Es; [|discriminate].
  destruct (Model_save_item_done p self self1 sh sh1 Es)
    as (Eo & _ & Eord & k & Esaved & Hitem).
  rewrite Eord, Eo. unfold get_order.
  destruct (filter (has_order_pk (OrderItemInstance.order self)) (shop_orders sh))
    as [|parent [|x l]] eqn:Ef; try discriminate.
  destruct (filter_single_exists _ _ _ Ef) as (Hex & Hin & Hp).
  unfold has_order_pk in Hp. apply Nat.eqb_eq in Hp.
  rewrite <- Hp in Ef.
  destruct (update_total_price now stamp (order_instance parent) sh1)
    as [[u|e] sh2] eqn:Eu; [|discriminate].
  rewrite <- Eo in Ef.
  destruct (update_total_price_loaded now stamp parent sh1 sh2 u Ef Eu)
    as (Eitems & (o' & Ef' & Etot) & Hothers).
  intros H. inversion H; subst; clear H.
  rewrite Hp in *. rewrite Eitems.
  split; [exists k, p; auto|]. split.
  - exists o'. auto.
  - intros o Ho Hne. apply Hothers; [rewrite Eo; exact Ho|exact Hne].
Qed.

Lemma OrderItem_save_updates_total_witness :
  exists parent,
    filter (has_order_pk 1)
      (shop_orders (snd (OrderItem_save (datetime_of 2024 3 1 12 0 0)
                           (datetime_of 2024 3 1 12 0 1) new_item sample_shop)))
    = [parent]
    /\ Order.total_price parent
       = items_total
           (items_of 1
              (shop_items (snd (OrderItem_save (datetime_of 2024 3 1 12 0 0)
                                  (datetime_of 2024 3 1 12 0 1) new_item
                                  sample_shop)))).
Proof.
  apply (OrderItem_save_updates_total
           (datetime_of 2024 3 1 12 0 0) (datetime_of 2024 3 1 12 0 1)
           new_item (item_saved_as new_item 2 2500) sample_shop
           (snd (OrderItem_save (datetime_of 2024 3 1 12 0 0)
                   (datetime_of 2024 3 1 12 0 1) new_item sample_shop))).
  - simpl. constructor; [solve_in_nil|constructor].
  - vm_compute. reflexivity.
Defined.

(** The sample item is saved at the price of its service, 25.00, and the
    order total becomes 2 x 100.00 + 4 x 25.00. *)
Example sample_item_total :
  map Order.total_price
    (shop_orders (snd (OrderItem_save (datetime_of 2024 3 1 12 0 0)
                         (datetime_of 2024 3 1 12 0 1) new_item sample_shop)))
  = [30000].
Proof. vm_compute. reflexivity. Qed.
